(** * GreenConnect: the carbon-credit ledger of [api/index.py]

    A shallow embedding of the request handlers of [api/index.py]
    ([register_project], [project_assessment], [generate_report],
    [buy_credit]) and of [api/openai_service.py] ([analyze_project],
    [estimate_fallback]), over the tables that [api/db_setup.py] creates.
    The pages that only read the ledger ([dashboard], [project_details],
    [marketplace]) and the accounts ([register], [login], [logout]) follow
    them.

    - Python values keep their run-time type: a [float] is a binary64
      (Rocq's primitive floats), a [decimal.Decimal] read from a
      [DECIMAL(_, 2)] column is its number of hundredths.  pymysql's default
      decoders return [Decimal] for [DECIMAL] columns, and Python compares a
      [float] with a [Decimal] but refuses to add or subtract them.
    - A handler runs on one connection: statements change the connection's
      working copy, [conn.commit()] publishes it, and [conn.close()] in the
      [finally] clause drops whatever was not committed (pymysql does not
      autocommit).  Every exception is caught by the handler's
      [except Exception].
    - What lies outside the repository is an input: the clock (one reading
      for a request, shared with the server's [CURRENT_TIMESTAMP]), the
      random token, the replies of the satellite and AI collaborators, and
      the conversions made by libraries: [float(str)], and the server's
      reading of a parameter into a typed cell.

    Layout: Python values ([Py]), dates ([Cal]), tables ([Ledger]),
    connections ([Sql]), requests ([Web]), the handlers, the accounts
    ([Members]), a reference server with the seed data ([Plain]), the
    specification's formulas ([Spec]), then the properties. *)

From Stdlib Require Import ZArith List String Ascii Bool Lia.
From Stdlib Require Import Floats DecimalString.
Import ListNotations.

Set Warnings "-inexact-float,-register-all".
#[local] Open Scope string_scope.
#[local] Open Scope Z_scope.

(** ** Python values *)

Module Py.

(** The exceptions the handlers can meet; every one is an [Exception], so the
    handlers' [except Exception] clauses catch them all. *)
Inductive exn : Type :=
| ValueError          (* float() of a string that is no number *)
| KeyError            (* request.form[k] without the field k *)
| TypeError           (* Decimal - float, [in] on a number, json.loads(None) *)
| AttributeError      (* .get on a list, .split on a dict *)
| InvalidOperation    (* ordering a Decimal against NaN *)
| JSONDecodeError
| APIError            (* the chat-completion call raised *)
| IntegrityError      (* NOT NULL, UNIQUE or FOREIGN KEY refused the row *)
| DataError.          (* the server could not read a parameter into the column *)

Definition result (A : Type) : Type := (exn + A)%type.

(** A Python value as the handlers see it.  [PDecimal c] is the [Decimal]
    with exponent -2 and coefficient [c], the value [c / 100]. *)
Inductive pyval : Type :=
| PNone
| PBool (b : bool)
| PInt (n : Z)
| PFloat (f : float)
| PDecimal (c : Z)
| PStr (s : string)
| PList (l : list pyval)
| PDict (d : list (string * pyval)).

(** A [dict] with [str] keys, in insertion order. *)
Definition pydict : Type := list (string * pyval).

(** [d.get(k, default)] *)
Fixpoint dict_get (d : pydict) (k : string) (default : pyval) : pyval :=
  match d with
  | [] => default
  | (k', v) :: d' => if String.eqb k' k then v else dict_get d' k default
  end.

Fixpoint dict_remove (d : pydict) (k : string) : pydict :=
  match d with
  | [] => []
  | (k', v) :: d' =>
      if String.eqb k' k then dict_remove d' k else (k', v) :: dict_remove d' k
  end.

(** [d[k] = v]: the key keeps its place when it is already there. *)
Fixpoint dict_set (d : pydict) (k : string) (v : pyval) : pydict :=
  match d with
  | [] => [(k, v)]
  | (k', v') :: d' =>
      if String.eqb k' k then (k, v) :: dict_remove d' k
      else (k', v') :: dict_set d' k v
  end.

(** *** Strings *)

(** [needle in hay] on two [str]. *)
Fixpoint str_in (needle hay : string) : bool :=
  String.prefix needle hay
  || match hay with
     | EmptyString => false
     | String _ rest => str_in needle rest
     end.

(** [s.split(' ')[0]]: what stands before the first space. *)
Fixpoint split_space_first (s : string) : string :=
  match s with
  | EmptyString => EmptyString
  | String c rest =>
      if Ascii.eqb c " "%char then EmptyString
      else String c (split_space_first rest)
  end.

(** [str(n)] for an [int]. *)
Definition str_of_int (n : Z) : string := NilZero.string_of_int (Z.to_int n).

(** [needle in v] by the type of [v]: substring of a [str], element of a
    [list], key of a [dict]; any other operand is not iterable. *)
Definition py_in (needle : string) (v : pyval) : result bool :=
  match v with
  | PStr s => inr (str_in needle s)
  | PList l =>
      inr (existsb (fun x => match x with
                             | PStr t => String.eqb t needle
                             | _ => false
                             end) l)
  | PDict d => inr (existsb (fun kv => String.eqb (fst kv) needle) d)
  | _ => inl TypeError
  end.

(** [v.split(' ')[0]]: only a [str] has [split]. *)
Definition py_split_first (v : pyval) : result string :=
  match v with
  | PStr s => inr (split_space_first s)
  | _ => inl AttributeError
  end.

(** *** Floats *)

(** The binary64 nearest to [n / d] (ties to even): how [strtod] reads a
    decimal numeral [n]e-k with [d = 10^k]. *)
Definition float_of_ratio (n : Z) (d : positive) : float :=
  match n with
  | Z0 => 0%float
  | Zpos p => SF2Prim (SFdiv prec emax (S754_finite false p 0) (S754_finite false d 0))
  | Zneg p => SF2Prim (SFdiv prec emax (S754_finite true p 0) (S754_finite false d 0))
  end.

(** [float(d)] for a [Decimal] with two places. *)
Definition float_of_decimal (c : Z) : float := float_of_ratio c 100.

Definition is_finite (f : float) : bool :=
  match Prim2SF f with
  | S754_zero _ | S754_finite _ _ _ => true
  | S754_infinity _ | S754_nan => false
  end.

(** The sign of [x - c/100] for a finite [x = (-1)^s * m * 2^e], exactly. *)
Definition compare_finite_decimal (s : bool) (m : positive) (e : Z) (c : Z) : comparison :=
  let x := if s then Zneg m else Zpos m in
  if 0 <=? e then (x * 2 ^ e * 100 ?= c)
  else (x * 100 ?= c * 2 ^ (- e)).

(** [x >= d] for a [float] and a [Decimal]: [float.__ge__] declines, and
    [Decimal.__le__] converts the float exactly ([Decimal.from_float]) and
    compares; ordering against NaN signals [InvalidOperation]. *)
Definition float_ge_decimal (x : float) (c : Z) : result bool :=
  match Prim2SF x with
  | S754_nan => inl InvalidOperation
  | S754_infinity s => inr (negb s)
  | S754_zero _ => inr (c <=? 0)
  | S754_finite s m e =>
      inr (match compare_finite_decimal s m e c with Lt => false | _ => true end)
  end.

(** [a >= b] on the numbers the handlers compare. *)
Definition py_ge (a b : pyval) : result bool :=
  match a, b with
  | PFloat x, PDecimal c => float_ge_decimal x c
  | PFloat x, PFloat y => inr (PrimFloat.leb y x)
  | PDecimal c, PDecimal c' => inr (c' <=? c)
  | _, _ => inl TypeError
  end.

(** [a - b]: [Decimal] and [float] do not mix in arithmetic. *)
Definition py_sub (a b : pyval) : result pyval :=
  match a, b with
  | PFloat x, PFloat y => inr (PFloat (PrimFloat.sub x y))
  | PDecimal c, PDecimal c' => inr (PDecimal (c - c'))
  | _, _ => inl TypeError
  end.

(** [float(v)] for a value read from a [DECIMAL] column or already a float. *)
Definition py_float_of (v : pyval) : result float :=
  match v with
  | PFloat x => inr x
  | PDecimal c => inr (float_of_decimal c)
  | PInt n => inr (float_of_ratio n 1)
  | PBool b => inr (if b then 1%float else 0%float)
  | _ => inl TypeError
  end.

(** Half-even rounding of [n / d] to an integer, [0 < d]. *)
Definition round_half_even (n d : Z) : Z :=
  let q := n / d in
  let r := n mod d in
  match 2 * r ?= d with
  | Lt => q
  | Gt => q + 1
  | Eq => if Z.even q then q else q + 1
  end.

(** [round(x, 2)]: the correctly rounded two-place decimal of [x]
    (half-even on the exact binary value), read back as a float.
    Infinities, NaN and zeros come back as they are. *)
Definition py_round2 (x : float) : float :=
  match Prim2SF x with
  | S754_finite s m e =>
      let h := if 0 <=? e then Zpos m * 100 * 2 ^ e
               else round_half_even (Zpos m * 100) (2 ^ (- e)) in
      if h =? 0 then (if s then (-0)%float else 0%float)
      else float_of_ratio (if s then - h else h) 100
  | _ => x
  end.

End Py.

(** ** Dates

    An instant is a number of seconds since 0001-01-01T00:00:00 (naive, as
    [datetime.now()] and [CURRENT_TIMESTAMP] are); a [DATE] is the proleptic
    Gregorian ordinal of [datetime.date.toordinal], day 1 being 0001-01-01. *)

Module Cal.

Definition is_leap (y : Z) : bool :=
  (y mod 4 =? 0) && (negb (y mod 100 =? 0) || (y mod 400 =? 0)).

Definition days_before_year (y : Z) : Z :=
  let p := y - 1 in p * 365 + p / 4 - p / 100 + p / 400.

Definition days_in_month (y m : Z) : Z :=
  if m =? 2 then (if is_leap y then 29 else 28)
  else if (m =? 4) || (m =? 6) || (m =? 9) || (m =? 11) then 30 else 31.

Definition days_before_month (y m : Z) : Z :=
  fold_right Z.add 0 (map (days_in_month y) (map Z.of_nat (seq 1 (Z.to_nat (m - 1))))).

(** [date(y, m, d).toordinal()] *)
Definition ymd2ord (y m d : Z) : Z :=
  days_before_year y + days_before_month y m + d.

(** The month and day of the [n]-th day (from 0) of year [y]. *)
Fixpoint month_day (y : Z) (months : list Z) (n : Z) : Z * Z :=
  match months with
  | [] => (12, n + 1)
  | m :: rest =>
      if n <? days_in_month y m then (m, n + 1)
      else month_day y rest (n - days_in_month y m)
  end.

(** [date.fromordinal(n)] as (year, month, day). *)
Definition ord2ymd (n : Z) : Z * Z * Z :=
  let n0 := n - 1 in
  let n400 := n0 / 146097 in
  let r400 := n0 mod 146097 in
  let n100 := r400 / 36524 in
  let r100 := r400 mod 36524 in
  let n4 := r100 / 1461 in
  let r4 := r100 mod 1461 in
  let n1 := r4 / 365 in
  let r1 := r4 mod 365 in
  let y := n400 * 400 + n100 * 100 + n4 * 4 + n1 + 1 in
  if (n1 =? 4) || (n100 =? 4) then (y - 1, 12, 31)
  else let '(m, d) := month_day y [1; 2; 3; 4; 5; 6; 7; 8; 9; 10; 11] r1 in (y, m, d).

(** The date of an instant. *)
Definition date_of (t : Z) : Z := t / 86400 + 1.

(** [timedelta(days=365*5)] *)
Definition five_times_365 : Z := 365 * 5.

Definition two_digits (n : Z) : string :=
  if n <? 10 then "0" ++ Py.str_of_int n else Py.str_of_int n.

Definition four_digits (n : Z) : string :=
  (if n <? 10 then "000" else if n <? 100 then "00" else if n <? 1000 then "0" else "")
  ++ Py.str_of_int n.

(** [strftime('%Y%m%d')] of the date with ordinal [n]. *)
Definition strftime_Ymd (n : Z) : string :=
  let '(y, m, d) := ord2ymd n in four_digits y ++ two_digits m ++ two_digits d.

End Cal.

(** ** The tables of [db_setup.py] *)

Module Ledger.

Inductive project_status := registered | assessing | verified | active | completed.
Inductive verification_status := v_pending | v_approved | v_rejected.
Inductive credit_status := available | reserved | sold | expired.
Inductive transaction_status := t_pending | t_completed | t_cancelled.
Inductive verification_type := initial | periodic | final.

Definition credit_status_eqb (a b : credit_status) : bool :=
  match a, b with
  | available, available | reserved, reserved | sold, sold | expired, expired => true
  | _, _ => false
  end.

(** [projects].  [DECIMAL(_, 8)] coordinates in 10^-8, [DECIMAL(10, 2)] area
    in hundredths. *)
Record project := {
  p_id : Z;
  p_user_id : Z;
  p_name : string;
  p_type : string;
  p_lat : Z;
  p_lng : Z;
  p_area_size : Z;
  p_area_unit : string;
  p_description : string;
  p_start_date : Z;
  p_created_at : Z;
  p_status : project_status;
  p_boundary : string
}.

(** [carbon_assessments] *)
Record assessment := {
  a_id : Z;
  a_project_id : Z;
  a_date : Z;
  a_carbon_estimate : Z;
  a_confidence_score : Z;
  a_methodology : string;
  a_data_sources : Py.pyval;
  a_model_version : string;
  a_verification : verification_status;
  a_report_url : option string
}.

(** [carbon_credits]: one row is one credit lot. *)
Record credit := {
  c_id : Z;
  c_project_id : Z;
  c_assessment_id : Z;
  c_amount : Z;
  c_issuance_date : Z;
  c_expiry_date : option Z;
  c_certificate_id : string;
  c_status : credit_status;
  c_price : option Z;
  c_document_url : option string
}.

(** [transactions] *)
Record transaction := {
  t_id : Z;
  t_credit_id : Z;
  t_buyer_id : Z;
  t_seller_id : Z;
  t_amount : Z;
  t_price_per_unit : Z;
  t_total_price : Z;
  t_date : Z;
  t_status : transaction_status
}.

(** [satellite_data] *)
Record observation := {
  o_id : Z;
  o_project_id : Z;
  o_capture_date : Z;
  o_ndvi : option Z;
  o_land_cover : option string;
  o_cloud_cover : option Z;
  o_source : string;
  o_raw_url : option string;
  o_processed_url : option string
}.

(** [ai_verification_logs] *)
Record verification_log := {
  l_id : Z;
  l_project_id : Z;
  l_assessment_id : option Z;
  l_date : Z;
  l_model_used : string;
  l_input : Py.pyval;
  l_output : Py.pyval;
  l_confidence_score : option Z;
  l_type : verification_type
}.

(** The rows of every table, oldest first. *)
Record tables := {
  users : list Z;
  projects : list project;
  assessments : list assessment;
  credits : list credit;
  transactions : list transaction;
  observations : list observation;
  logs : list verification_log
}.

(** The [AUTO_INCREMENT] counters: the id the next row of each table gets.
    InnoDB does not give a number back when a transaction is rolled back. *)
Record counters := {
  next_project : Z;
  next_assessment : Z;
  next_credit : Z;
  next_transaction : Z;
  next_observation : Z;
  next_log : Z
}.

(** What the server holds between requests. *)
Record store := { committed : tables; autoinc : counters }.

Definition with_projects (t : tables) (l : list project) : tables :=
  {| users := users t; projects := l; assessments := assessments t;
     credits := credits t; transactions := transactions t;
     observations := observations t; logs := logs t |}.

Definition with_assessments (t : tables) (l : list assessment) : tables :=
  {| users := users t; projects := projects t; assessments := l;
     credits := credits t; transactions := transactions t;
     observations := observations t; logs := logs t |}.

Definition with_credits (t : tables) (l : list credit) : tables :=
  {| users := users t; projects := projects t; assessments := assessments t;
     credits := l; transactions := transactions t;
     observations := observations t; logs := logs t |}.

Definition with_transactions (t : tables) (l : list transaction) : tables :=
  {| users := users t; projects := projects t; assessments := assessments t;
     credits := credits t; transactions := l;
     observations := observations t; logs := logs t |}.

Definition with_observations (t : tables) (l : list observation) : tables :=
  {| users := users t; projects := projects t; assessments := assessments t;
     credits := credits t; transactions := transactions t;
     observations := l; logs := logs t |}.

Definition with_logs (t : tables) (l : list verification_log) : tables :=
  {| users := users t; projects := projects t; assessments := assessments t;
     credits := credits t; transactions := transactions t;
     observations := observations t; logs := l |}.

Definition set_project_status (s : project_status) (p : project) : project :=
  {| p_id := p_id p; p_user_id := p_user_id p; p_name := p_name p;
     p_type := p_type p; p_lat := p_lat p; p_lng := p_lng p;
     p_area_size := p_area_size p; p_area_unit := p_area_unit p;
     p_description := p_description p; p_start_date := p_start_date p;
     p_created_at := p_created_at p; p_status := s; p_boundary := p_boundary p |}.

Definition set_credit_status (s : credit_status) (c : credit) : credit :=
  {| c_id := c_id c; c_project_id := c_project_id c;
     c_assessment_id := c_assessment_id c; c_amount := c_amount c;
     c_issuance_date := c_issuance_date c; c_expiry_date := c_expiry_date c;
     c_certificate_id := c_certificate_id c; c_status := s;
     c_price := c_price c; c_document_url := c_document_url c |}.

Definition set_credit_amount (q : Z) (c : credit) : credit :=
  {| c_id := c_id c; c_project_id := c_project_id c;
     c_assessment_id := c_assessment_id c; c_amount := q;
     c_issuance_date := c_issuance_date c; c_expiry_date := c_expiry_date c;
     c_certificate_id := c_certificate_id c; c_status := c_status c;
     c_price := c_price c; c_document_url := c_document_url c |}.

Definition approve_assessment (url : option string) (a : assessment) : assessment :=
  {| a_id := a_id a; a_project_id := a_project_id a; a_date := a_date a;
     a_carbon_estimate := a_carbon_estimate a;
     a_confidence_score := a_confidence_score a;
     a_methodology := a_methodology a; a_data_sources := a_data_sources a;
     a_model_version := a_model_version a; a_verification := v_approved;
     a_report_url := url |}.

(** [UPDATE ... WHERE id = k]: every row whose key is [k]. *)
Definition update_where {A : Type} (key : A -> Z) (k : Z) (f : A -> A) (l : list A) : list A :=
  map (fun r => if key r =? k then f r else r) l.

Definition find_by {A : Type} (key : A -> Z) (k : Z) (l : list A) : option A :=
  find (fun r => key r =? k) l.

Definition has_key {A : Type} (key : A -> Z) (k : Z) (l : list A) : bool :=
  existsb (fun r => key r =? k) l.

Definition is_user (t : tables) (u : Z) : bool := existsb (Z.eqb u) (users t).

(** [ORDER BY assessment_date DESC LIMIT 1] over the assessments of one
    project.  Among rows of the same second the server may return any; the
    one inserted last is taken. *)
Definition latest_assessment (l : list assessment) (pid : Z) : option assessment :=
  fold_left
    (fun best a =>
       if a_project_id a =? pid then
         match best with
         | Some b => if a_date b <=? a_date a then Some a else Some b
         | None => Some a
         end
       else best)
    l None.

(** The total quantity of the lots that come from assessment [aid]. *)
Definition quantity_of_assessment (aid : Z) (l : list credit) : Z :=
  fold_right Z.add 0
    (map c_amount (filter (fun c => c_assessment_id c =? aid) l)).

(** [ORDER BY key DESC].  The server may return rows with equal keys in any
    order; here they keep the order of the table. *)
Fixpoint insert_desc {A : Type} (key : A -> Z) (x : A) (l : list A) : list A :=
  match l with
  | [] => [x]
  | y :: l' => if key y <=? key x then x :: l else y :: insert_desc key x l'
  end.

Definition order_by_desc {A : Type} (key : A -> Z) (l : list A) : list A :=
  fold_right (insert_desc key) [] l.


End Ledger.

(** ** One connection

    [conn.cursor().execute] reads and writes the working copy; [commit]
    publishes it; closing the connection forgets it. *)

Module Sql.
Import Py Ledger.

Record conn := {
  durable : tables;
  working : tables;
  seqs : counters;
  last_insert_id : Z
}.

Definition sql (A : Type) : Type := conn -> result A * conn.

Definition ret {A : Type} (x : A) : sql A := fun c => (inr x, c).

Definition raise {A : Type} (e : exn) : sql A := fun c => (inl e, c).

Definition bind {A B : Type} (m : sql A) (k : A -> sql B) : sql B :=
  fun c =>
    match m c with
    | (inl e, c') => (inl e, c')
    | (inr x, c') => k x c'
    end.

Definition lift {A : Type} (r : result A) : sql A := fun c => (r, c).

(** [try: m  except Exception as e: h e] *)
Definition try_except {A : Type} (m : sql A) (h : exn -> sql A) : sql A :=
  fun c =>
    match m c with
    | (inl e, c') => h e c'
    | (inr x, c') => (inr x, c')
    end.

Definition read {A : Type} (q : tables -> A) : sql A :=
  fun c => (inr (q (working c)), c).

Definition write (f : tables -> tables) : sql unit :=
  fun c => (inr tt, {| durable := durable c; working := f (working c);
                       seqs := seqs c; last_insert_id := last_insert_id c |}).

(** [conn.commit()] *)
Definition commit : sql unit :=
  fun c => (inr tt, {| durable := working c; working := working c;
                       seqs := seqs c; last_insert_id := last_insert_id c |}).

(** [SELECT LAST_INSERT_ID()] *)
Definition select_last_insert_id : sql Z :=
  fun c => (inr (last_insert_id c), c).

(** Takes the next number of a counter for an inserted row; it is taken
    when the row is, after the server's checks. *)
Definition fresh (next : counters -> Z) (bump : counters -> counters) : sql Z :=
  fun c => (inr (next (seqs c)),
            {| durable := durable c; working := working c;
               seqs := bump (seqs c); last_insert_id := next (seqs c) |}).

(** A constraint the server checks before it takes the row. *)
Definition require (ok : bool) (e : exn) : sql unit :=
  fun c => (if ok then inr tt else inl e, c).

(** [conn = get_db_connection()] *)
Definition opened (s : store) : conn :=
  {| durable := committed s; working := committed s;
     seqs := autoinc s; last_insert_id := 0 |}.

(** [conn.close()]: what was not committed is gone. *)
Definition closed (c : conn) : store :=
  {| committed := durable c; autoinc := seqs c |}.

(** A handler: the body under [try ... except Exception ... finally:
    conn.close()]. *)
Definition serve {R : Type} (body : sql R) (on_error : exn -> R) (s : store) : R * store :=
  let '(r, c) := body (opened s) in
  (match r with inl e => on_error e | inr x => x end, closed c).

End Sql.

Declare Scope sql_scope.
Delimit Scope sql_scope with sql.
Notation "x <- m ;; k" := (Sql.bind m (fun x => k))
  (at level 61, m at next level, right associativity) : sql_scope.
Notation "m ;; k" := (Sql.bind m (fun _ => k))
  (at level 61, right associativity) : sql_scope.

(** ** What a request brings and what it answers *)

Module Web.
Import Py.

Inductive http_method := GET | POST.

(** The fields of the project-registration form, as submitted (the handler
    reads them all before its [try]). *)
Record project_form := {
  f_project_name : string;
  f_project_type : string;
  f_latitude : string;
  f_longitude : string;
  f_area_size : string;
  f_area_unit : string;
  f_description : string;
  f_start_date : string;
  f_boundary_geojson : string
}.

(** The typed cells the server makes of the form's strings. *)
Record project_cells := {
  k_type : string;
  k_lat : Z;
  k_lng : Z;
  k_area_size : Z;
  k_area_unit : string;
  k_start_date : Z
}.

(** [client.chat.completions.create(...)] and what [json.loads] makes of the
    reply's content: the call raises, or the content is read ([None] when
    [json.loads] raises). *)
Inductive ai_reply :=
| AIRaises
| AIContent (parsed : option pyval).

(** What one request takes from outside: the clock, [secrets.token_hex(4)],
    the dict [fetch_satellite_imagery] returns (it catches its own errors),
    and the AI collaborator's reply. *)
Record world := {
  now : Z;
  token : string;
  satellite : pydict;
  ai : ai_reply
}.

(** [project_data] as [analyze_project] receives it. *)
Record project_data := {
  pd_project_type : string;
  pd_area_size : float;
  pd_area_unit : string;
  pd_satellite_data : pydict
}.

Definition project_data_dict (pd : project_data) : pyval :=
  PDict [("project_type", PStr (pd_project_type pd));
         ("area_size", PFloat (pd_area_size pd));
         ("area_unit", PStr (pd_area_unit pd));
         ("satellite_data", PDict (pd_satellite_data pd))].

Inductive register_outcome :=
| RegisterLogin                          (* redirect to login *)
| RegisterForm (error : option exn)      (* the form, after 'Error: ...' if any *)
| RegisterDone (project_id : Z).         (* redirect to project_assessment *)

Inductive assessment_outcome :=
| AssessmentLogin
| AssessmentNotFound                     (* 'Project not found or unauthorized' *)
| AssessmentPage (a : option Ledger.assessment) (error : option exn)
| AssessmentError (e : exn).             (* redirect to dashboard *)

Inductive report_outcome :=
| ReportLogin
| ReportNotFound
| ReportIssued                           (* 'Verification report generated and carbon credits issued!' *)
| ReportError (e : exn).

Inductive buy_outcome :=
| BuyLogin
| BuyNotAvailable                        (* 'Credit not available for purchase' *)
| BuyForm (c : Ledger.credit)            (* buy_credit.html *)
| BuyDone                                (* 'Credit purchase successful!' *)
| BuyError (e : exn).                    (* 'Error: ...', redirect to marketplace *)

Inductive market_outcome :=
| MarketPage (credits : list (Ledger.credit * Ledger.project)).  (* marketplace.html *)

Inductive details_outcome :=
| DetailsLogin
| DetailsNotFound                        (* 'Project not found or unauthorized' *)
| DetailsPage (project : Ledger.project) (assessments : list Ledger.assessment)
    (credits : list Ledger.credit) (satellite_data : list Ledger.observation)
| DetailsError (e : exn).                (* redirect to dashboard *)

Inductive dashboard_outcome :=
| DashboardLogin
| DashboardPage (projects : list Ledger.project)
    (credits : list (Ledger.credit * Ledger.project))
    (transactions : list (Ledger.transaction * Ledger.credit * Ledger.project)).


End Web.

(** ** The handlers *)

Section Handlers.
Import Py Ledger Sql Web.
#[local] Open Scope sql_scope.

(** [float(s)] for a [str]: the float, or [None] for [ValueError]. *)
Variable float_of_str : string -> option float.

(** The cell a [DECIMAL(p, s)] column takes for a parameter that is not
    [None], in units of [10^-s]; [None] when pymysql or the server refuses it
    (NaN, out of range, not a number). *)
Variable mysql_decimal : Z -> Z -> pyval -> option Z.

(** The cell a [VARCHAR(n)] column takes for a parameter that is not [None]. *)
Variable mysql_varchar : Z -> pyval -> option string.

(** The cells of a [projects] row for the submitted strings; [None] when the
    server refuses one of them (an unknown [ENUM] value, a malformed number,
    date or JSON text). *)
Variable mysql_project : project_form -> option project_cells.

Definition py_float_str (s : string) : result float :=
  match float_of_str s with
  | Some x => inr x
  | None => inl ValueError
  end.

(** *** [openai_service.py] *)

Definition rates : list (string * float) :=
  [("forestry", 3.5%float); ("agriculture", 1.2%float);
   ("agroforestry", 2.8%float); ("wetland", 4.8%float); ("other", 1.0%float)].

(** [rates.get(k, default)] *)
Fixpoint rates_get (l : list (string * float)) (k : string) (default : float) : float :=
  match l with
  | [] => default
  | (k', r) :: l' => if String.eqb k' k then r else rates_get l' k default
  end.

Definition estimate_fallback (pd : project_data) : float :=
  let area := pd_area_size pd in
  let unit_multiplier :=
    if String.eqb (pd_area_unit pd) "hectares" then 2.47%float else 1%float in
  let area_in_acres := PrimFloat.mul area unit_multiplier in
  let annual_rate := rates_get rates (pd_project_type pd) 1.0%float in
  py_round2 (PrimFloat.mul area_in_acres annual_rate).

Definition fallback_result (pd : project_data) : pydict :=
  [("carbon_estimate", PFloat (estimate_fallback pd));
   ("confidence_score", PInt 70);
   ("methodology", PStr "AI-assisted estimation with standard factors");
   ("data_sources", PDict [("satellite", PStr "Basic NDVI analysis");
                           ("standards", PStr "IPCC guidelines");
                           ("factors", PStr "Conservative estimation factors")]);
   ("risks", PList [PStr "Limited data points"; PStr "Conservative estimate"]);
   ("recommendations", PList [PStr "Collect field measurements"; PStr "Regular monitoring"]);
   ("model_version", PStr "fallback")].

(** The [try] block of [analyze_project]. *)
Definition analyze_project_try (reply : ai_reply) : result pydict :=
  match reply with
  | AIRaises => inl APIError
  | AIContent None => inl JSONDecodeError
  | AIContent (Some (PDict result)) =>
      let carbon_estimate_str := dict_get result "carbon_estimate" (PStr "") in
      match py_in "tons CO2e/year" carbon_estimate_str with
      | inl e => inl e
      | inr has_unit =>
          match (if has_unit then
                   match py_split_first carbon_estimate_str with
                   | inl e => inl e
                   | inr head => py_float_str head
                   end
                 else inr 0%float) with
          | inl e => inl e
          | inr carbon_estimate =>
              inr (dict_set (dict_set result "model_version" (PStr "gpt-4"))
                            "carbon_estimate" (PFloat carbon_estimate))
          end
      end
  | AIContent (Some _) => inl AttributeError
  end.

Definition analyze_project (reply : ai_reply) (pd : project_data) : pydict :=
  match analyze_project_try reply with
  | inr result => result
  | inl _ => fallback_result pd
  end.

(** *** Parameters into cells *)

Definition decimal_cell (p s : Z) (v : pyval) : result Z :=
  match v with
  | PNone => inl IntegrityError
  | _ => match mysql_decimal p s v with
         | Some z => inr z
         | None => inl DataError
         end
  end.

Definition decimal_cell_null (p s : Z) (v : pyval) : result (option Z) :=
  match v with
  | PNone => inr None
  | _ => match mysql_decimal p s v with
         | Some z => inr (Some z)
         | None => inl DataError
         end
  end.

Definition varchar_cell (n : Z) (v : pyval) : result string :=
  match v with
  | PNone => inl IntegrityError
  | _ => match mysql_varchar n v with
         | Some s => inr s
         | None => inl DataError
         end
  end.

Definition varchar_cell_null (n : Z) (v : pyval) : result (option string) :=
  match v with
  | PNone => inr None
  | _ => match mysql_varchar n v with
         | Some s => inr (Some s)
         | None => inl DataError
         end
  end.

(** Whether the text [json.dumps(v)] writes is JSON the server takes: it
    writes [NaN] and [Infinity] for floats that are not finite, and has no
    encoding for a [Decimal]. *)
Fixpoint json_storable (v : pyval) : bool :=
  match v with
  | PFloat f => is_finite f
  | PDecimal _ => false
  | PList l => forallb json_storable l
  | PDict d => forallb (fun kv => match kv with (_, x) => json_storable x end) d
  | _ => true
  end.

Definition json_cell (v : pyval) : result pyval :=
  if json_storable v then inr v else inl DataError.

Definition option_decimal (c : option Z) : pyval :=
  match c with Some z => PDecimal z | None => PNone end.

Definition option_str (s : option string) : pyval :=
  match s with Some x => PStr x | None => PNone end.

(** *** Statements *)

(** [INSERT INTO projects (...)]: the status defaults to [registered]. *)
Definition insert_project (user_id : Z) (form : project_form) (t : Z) : sql unit :=
  cells <- lift (match mysql_project form with
                 | Some k => inr k
                 | None => inl DataError
                 end) ;;
  known <- read (fun w => is_user w user_id) ;;
  require known IntegrityError ;;
  id <- fresh next_project
          (fun n => {| next_project := next_project n + 1;
                       next_assessment := next_assessment n;
                       next_credit := next_credit n;
                       next_transaction := next_transaction n;
                       next_observation := next_observation n;
                       next_log := next_log n |}) ;;
  write (fun w => with_projects w (projects w ++ [
    {| p_id := id; p_user_id := user_id; p_name := f_project_name form;
       p_type := k_type cells; p_lat := k_lat cells; p_lng := k_lng cells;
       p_area_size := k_area_size cells; p_area_unit := k_area_unit cells;
       p_description := f_description form; p_start_date := k_start_date cells;
       p_created_at := t; p_status := registered;
       p_boundary := f_boundary_geojson form |}])).

(** [UPDATE projects SET status = s WHERE id = project_id] *)
Definition update_project_status (project_id : Z) (s : project_status) : sql unit :=
  write (fun w => with_projects w
                    (update_where p_id project_id (set_project_status s) (projects w))).

(** [INSERT INTO satellite_data (...)] with the [.get(key, default)] of the
    satellite dict. *)
Definition insert_observation (project_id : Z) (t : Z) (sat : pydict) : sql unit :=
  ndvi <- lift (decimal_cell_null 5 4 (dict_get sat "ndvi_value" (PInt 0))) ;;
  cover <- lift (varchar_cell_null 50
                   (dict_get sat "land_cover_classification" (PStr "Unknown"))) ;;
  cloud <- lift (decimal_cell_null 5 2 (dict_get sat "cloud_cover_percentage" (PInt 0))) ;;
  source <- lift (varchar_cell 50 (dict_get sat "source" (PStr "Sentinel-2"))) ;;
  raw <- lift (varchar_cell_null 255 (dict_get sat "raw_data_url" (PStr ""))) ;;
  processed <- lift (varchar_cell_null 255 (dict_get sat "processed_data_url" (PStr ""))) ;;
  known <- read (fun w => has_key p_id project_id (projects w)) ;;
  require known IntegrityError ;;
  id <- fresh next_observation
          (fun n => {| next_project := next_project n;
                       next_assessment := next_assessment n;
                       next_credit := next_credit n;
                       next_transaction := next_transaction n;
                       next_observation := next_observation n + 1;
                       next_log := next_log n |}) ;;
  write (fun w => with_observations w (observations w ++ [
    {| o_id := id; o_project_id := project_id; o_capture_date := Cal.date_of t;
       o_ndvi := ndvi; o_land_cover := cover; o_cloud_cover := cloud;
       o_source := source; o_raw_url := raw; o_processed_url := processed |}])).

(** [INSERT INTO carbon_assessments (...)]; [zero] is the default the caller
    passes to [.get('carbon_estimate', _)] and [.get('confidence_score', _)]. *)
Definition insert_assessment (project_id : Z) (t : Z) (res : pydict) (zero : pyval) : sql unit :=
  estimate <- lift (decimal_cell 12 2 (dict_get res "carbon_estimate" zero)) ;;
  confidence <- lift (decimal_cell 5 2 (dict_get res "confidence_score" zero)) ;;
  methodology <- lift (varchar_cell 100
                         (dict_get res "methodology" (PStr "AI-based assessment"))) ;;
  sources <- lift (json_cell (dict_get res "data_sources" (PDict []))) ;;
  version <- lift (varchar_cell 50 (dict_get res "model_version" (PStr "gpt-4"))) ;;
  known <- read (fun w => has_key p_id project_id (projects w)) ;;
  require known IntegrityError ;;
  id <- fresh next_assessment
          (fun n => {| next_project := next_project n;
                       next_assessment := next_assessment n + 1;
                       next_credit := next_credit n;
                       next_transaction := next_transaction n;
                       next_observation := next_observation n;
                       next_log := next_log n |}) ;;
  write (fun w => with_assessments w (assessments w ++ [
    {| a_id := id; a_project_id := project_id; a_date := t;
       a_carbon_estimate := estimate; a_confidence_score := confidence;
       a_methodology := methodology; a_data_sources := sources;
       a_model_version := version; a_verification := v_pending;
       a_report_url := None |}])).

(** [INSERT INTO ai_verification_logs (...)] *)
Definition insert_log (project_id assessment_id : Z) (t : Z)
    (res : pydict) (pd : project_data) (zero : pyval) : sql unit :=
  model <- lift (varchar_cell 100 (dict_get res "model_version" (PStr "gpt-4"))) ;;
  input <- lift (json_cell (project_data_dict pd)) ;;
  output <- lift (json_cell (PDict res)) ;;
  confidence <- lift (decimal_cell_null 5 2 (dict_get res "confidence_score" zero)) ;;
  known <- read (fun w => has_key p_id project_id (projects w)
                          && has_key a_id assessment_id (assessments w)) ;;
  require known IntegrityError ;;
  id <- fresh next_log
          (fun n => {| next_project := next_project n;
                       next_assessment := next_assessment n;
                       next_credit := next_credit n;
                       next_transaction := next_transaction n;
                       next_observation := next_observation n;
                       next_log := next_log n + 1 |}) ;;
  write (fun w => with_logs w (logs w ++ [
    {| l_id := id; l_project_id := project_id; l_assessment_id := Some assessment_id;
       l_date := t; l_model_used := model; l_input := input; l_output := output;
       l_confidence_score := confidence; l_type := initial |}])).

(** [UPDATE carbon_assessments SET report_url = url, verification_status =
    'approved' WHERE id = k] *)
Definition update_assessment_report (k : Z) (url : pyval) : sql unit :=
  cell <- lift (varchar_cell_null 255 url) ;;
  write (fun w => with_assessments w
                    (update_where a_id k (approve_assessment cell) (assessments w))).

(** [INSERT INTO carbon_credits (...)]; [issuance] is the instant the row
    gets: the column's default when the statement names none. *)
Definition insert_credit (project_id assessment_id : Z) (amount : pyval)
    (issuance : Z) (expiry : option Z) (certificate : string)
    (status : credit_status) (price : pyval) (url : pyval) : sql unit :=
  quantity <- lift (decimal_cell 12 2 amount) ;;
  price_cell <- lift (decimal_cell_null 10 2 price) ;;
  url_cell <- lift (varchar_cell_null 255 url) ;;
  ok <- read (fun w => has_key p_id project_id (projects w)
                       && has_key a_id assessment_id (assessments w)
                       && negb (existsb (fun c => String.eqb (c_certificate_id c) certificate)
                                        (credits w))) ;;
  require ok IntegrityError ;;
  id <- fresh next_credit
          (fun n => {| next_project := next_project n;
                       next_assessment := next_assessment n;
                       next_credit := next_credit n + 1;
                       next_transaction := next_transaction n;
                       next_observation := next_observation n;
                       next_log := next_log n |}) ;;
  write (fun w => with_credits w (credits w ++ [
    {| c_id := id; c_project_id := project_id; c_assessment_id := assessment_id;
       c_amount := quantity; c_issuance_date := issuance; c_expiry_date := expiry;
       c_certificate_id := certificate; c_status := status;
       c_price := price_cell; c_document_url := url_cell |}])).

(** [UPDATE carbon_credits SET status = s WHERE id = credit_id] *)
Definition update_credit_status (credit_id : Z) (s : credit_status) : sql unit :=
  write (fun w => with_credits w
                    (update_where c_id credit_id (set_credit_status s) (credits w))).

(** [UPDATE carbon_credits SET credit_amount = amount WHERE id = credit_id] *)
Definition update_credit_amount (credit_id : Z) (amount : pyval) : sql unit :=
  quantity <- lift (decimal_cell 12 2 amount) ;;
  write (fun w => with_credits w
                    (update_where c_id credit_id (set_credit_amount quantity) (credits w))).

(** [INSERT INTO transactions (...)] *)
Definition insert_transaction (credit_id buyer_id seller_id : Z)
    (amount price_per_unit total_price : pyval) (t : Z)
    (status : transaction_status) : sql unit :=
  amount_cell <- lift (decimal_cell 12 2 amount) ;;
  price_cell <- lift (decimal_cell 10 2 price_per_unit) ;;
  total_cell <- lift (decimal_cell 12 2 total_price) ;;
  ok <- read (fun w => has_key c_id credit_id (credits w)
                       && is_user w buyer_id && is_user w seller_id) ;;
  require ok IntegrityError ;;
  id <- fresh next_transaction
          (fun n => {| next_project := next_project n;
                       next_assessment := next_assessment n;
                       next_credit := next_credit n;
                       next_transaction := next_transaction n + 1;
                       next_observation := next_observation n;
                       next_log := next_log n |}) ;;
  write (fun w => with_transactions w (transactions w ++ [
    {| t_id := id; t_credit_id := credit_id; t_buyer_id := buyer_id;
       t_seller_id := seller_id; t_amount := amount_cell;
       t_price_per_unit := price_cell; t_total_price := total_cell;
       t_date := t; t_status := status |}])).

(** [SELECT * FROM projects WHERE id = project_id AND user_id = user_id] *)
Definition select_own_project (project_id user_id : Z) (w : tables) : option project :=
  find (fun p => (p_id p =? project_id) && (p_user_id p =? user_id)) (projects w).

(** [SELECT cc.*, p.user_id as seller_id ... JOIN projects p ON cc.project_id
    = p.id WHERE cc.id = credit_id AND cc.status = 'available'] *)
Definition select_available_credit (credit_id : Z) (w : tables) : option (credit * project) :=
  match find (fun c => (c_id c =? credit_id) && credit_status_eqb (c_status c) available)
             (credits w) with
  | Some c =>
      match find_by p_id (c_project_id c) (projects w) with
      | Some p => Some (c, p)
      | None => None
      end
  | None => None
  end.

(** [SELECT p.*, ca.* FROM projects p JOIN carbon_assessments ca ON p.id =
    ca.project_id WHERE p.id = project_id AND p.user_id = user_id ORDER BY
    ca.assessment_date DESC LIMIT 1] *)
Definition select_project_with_assessment (project_id user_id : Z) (w : tables)
    : option (project * assessment) :=
  match select_own_project project_id user_id w with
  | Some p =>
      match latest_assessment (assessments w) project_id with
      | Some a => Some (p, a)
      | None => None
      end
  | None => None
  end.

(** *** [index.py] *)

(** [f"/reports/{project_id}_{datetime.now().strftime('%Y%m%d')}.pdf"] *)
Definition report_url_for (project_id : Z) (t : Z) : string :=
  "/reports/" ++ str_of_int project_id ++ "_"
  ++ Cal.strftime_Ymd (Cal.date_of t) ++ ".pdf".

(** [f"CC-{project_id}-{secrets.token_hex(4)}"] *)
Definition certificate_for (project_id : Z) (hex : string) : string :=
  "CC-" ++ str_of_int project_id ++ "-" ++ hex.

(** [register_project], lines 175-294. *)
Definition register_project (w : world) (session : option Z) (method : http_method)
    (form : project_form) (s : store) : register_outcome * store :=
  match session, method with
  | None, _ => (RegisterLogin, s)
  | Some _, GET => (RegisterForm None, s)
  | Some user_id, POST =>
      serve
        (insert_project user_id form (now w) ;;
         commit ;;
         project_id <- select_last_insert_id ;;
         (* fetch_satellite_imagery(float(lat), float(lng), float(area_size), area_unit) *)
         _ <- lift (py_float_str (f_latitude form)) ;;
         _ <- lift (py_float_str (f_longitude form)) ;;
         _ <- lift (py_float_str (f_area_size form)) ;;
         let satellite_data := satellite w in
         insert_observation project_id (now w) satellite_data ;;
         commit ;;
         area_size <- lift (py_float_str (f_area_size form)) ;;
         let project_data :=
           {| pd_project_type := f_project_type form; pd_area_size := area_size;
              pd_area_unit := f_area_unit form; pd_satellite_data := satellite_data |} in
         let assessment_result := analyze_project (ai w) project_data in
         insert_assessment project_id (now w) assessment_result (PFloat 0) ;;
         commit ;;
         assessment_id <- select_last_insert_id ;;
         insert_log project_id assessment_id (now w) assessment_result project_data (PFloat 0) ;;
         commit ;;
         update_project_status project_id assessing ;;
         commit ;;
         ret (RegisterDone project_id))
        (fun e => RegisterForm (Some e))
        s
  end.

(** [project_assessment], lines 297-423. *)
Definition project_assessment (w : world) (session : option Z) (project_id : Z)
    (s : store) : assessment_outcome * store :=
  match session with
  | None => (AssessmentLogin, s)
  | Some user_id =>
      serve
        (found <- read (select_own_project project_id user_id) ;;
         match found with
         | None => ret AssessmentNotFound
         | Some project =>
             update_project_status project_id assessing ;;
             commit ;;
             try_except
               (let satellite_data := satellite w in
                insert_observation project_id (now w) satellite_data ;;
                commit ;;
                let project_data :=
                  {| pd_project_type := p_type project;
                     pd_area_size := float_of_decimal (p_area_size project);
                     pd_area_unit := p_area_unit project;
                     pd_satellite_data := satellite_data |} in
                let assessment_result := analyze_project (ai w) project_data in
                insert_assessment project_id (now w) assessment_result (PInt 0) ;;
                commit ;;
                assessment_id <- select_last_insert_id ;;
                insert_log project_id assessment_id (now w) assessment_result project_data (PInt 0) ;;
                commit ;;
                assessment <- read (fun t => latest_assessment (assessments t) project_id) ;;
                ret (AssessmentPage assessment None))
               (fun e => ret (AssessmentPage None (Some e)))
         end)
        AssessmentError
        s
  end.

(** [generate_report], lines 426-496.  The joined row has two columns named
    [id]; pymysql's [DictCursor] keeps the first under ['id'] and files the
    second under ['ca.id'], so [project_data['id']] is the project's id. *)
Definition generate_report (w : world) (session : option Z) (project_id : Z)
    (s : store) : report_outcome * store :=
  match session with
  | None => (ReportLogin, s)
  | Some user_id =>
      serve
        (row <- read (select_project_with_assessment project_id user_id) ;;
         match row with
         | None => ret ReportNotFound
         | Some (p, a) =>
             let project_data_id := p_id p in
             let report_url := report_url_for project_id (now w) in
             update_assessment_report project_data_id (PStr report_url) ;;
             update_project_status project_id verified ;;
             let certificate_id := certificate_for project_id (token w) in
             credit_amount <- lift (py_float_of (PDecimal (a_carbon_estimate a))) ;;
             let expiry_date := Cal.date_of (now w + Cal.five_times_365 * 86400) in
             insert_credit project_id project_data_id (PFloat credit_amount)
               (now w) (Some expiry_date) certificate_id available
               (PFloat 25) (PStr report_url) ;;
             commit ;;
             ret ReportIssued
         end)
        ReportError
        s
  end.

(** [buy_credit], lines 577-656. *)
Definition buy_credit (w : world) (session : option Z) (method : http_method)
    (form_amount : option string) (credit_id : Z) (s : store) : buy_outcome * store :=
  match session with
  | None => (BuyLogin, s)
  | Some user_id =>
      serve
        (row <- read (select_available_credit credit_id) ;;
         match row with
         | None => ret BuyNotAvailable
         | Some (credit, p) =>
             match method with
             | GET => ret (BuyForm credit)
             | POST =>
                 let buyer_id := user_id in
                 let seller_id := p_user_id p in
                 text <- lift (match form_amount with
                               | Some t => inr t
                               | None => inl KeyError
                               end) ;;
                 amount <- lift (py_float_str text) ;;
                 price_per_unit <- lift (py_float_of (option_decimal (c_price credit))) ;;
                 let total_price := PrimFloat.mul amount price_per_unit in
                 insert_transaction credit_id buyer_id seller_id
                   (PFloat amount) (PFloat price_per_unit) (PFloat total_price)
                   (now w) t_completed ;;
                 all_purchased <- lift (py_ge (PFloat amount) (PDecimal (c_amount credit))) ;;
                 (if all_purchased : bool then
                    update_credit_status credit_id sold
                  else
                    new_amount <- lift (py_sub (PDecimal (c_amount credit)) (PFloat amount)) ;;
                    update_credit_amount credit_id (PFloat amount) ;;
                    let new_certificate_id :=
                      certificate_for (c_project_id credit) (token w) in
                    insert_credit (c_project_id credit) (c_assessment_id credit)
                      new_amount (c_issuance_date credit) (c_expiry_date credit)
                      new_certificate_id available
                      (option_decimal (c_price credit))
                      (option_str (c_document_url credit))) ;;
                 commit ;;
                 ret BuyDone
             end
         end)
        BuyError
        s
  end.

(** [SELECT * FROM projects WHERE user_id = user_id ORDER BY created_at DESC] *)
Definition select_user_projects (user_id : Z) (w : tables) : list project :=
  order_by_desc p_created_at (filter (fun p => p_user_id p =? user_id) (projects w)).

(** [SELECT cc.*, p.project_name FROM carbon_credits cc JOIN projects p ON
    cc.project_id = p.id WHERE p.user_id = user_id ORDER BY issuance_date
    DESC] *)
Definition select_user_credits (user_id : Z) (w : tables) : list (credit * project) :=
  order_by_desc (fun r => c_issuance_date (fst r))
    (flat_map
       (fun c => match find_by p_id (c_project_id c) (projects w) with
                 | Some p => if p_user_id p =? user_id then [(c, p)] else []
                 | None => []
                 end)
       (credits w)).

(** [SELECT t.*, cc.certificate_id, p.project_name FROM transactions t JOIN
    carbon_credits cc ON t.credit_id = cc.id JOIN projects p ON cc.project_id
    = p.id WHERE t.seller_id = user_id OR t.buyer_id = user_id ORDER BY
    transaction_date DESC LIMIT 5] *)
Definition select_user_transactions (user_id : Z) (w : tables)
    : list (transaction * credit * project) :=
  firstn 5
    (order_by_desc (fun r => t_date (fst (fst r)))
       (flat_map
          (fun t =>
             if (t_seller_id t =? user_id) || (t_buyer_id t =? user_id) then
               match find_by c_id (t_credit_id t) (credits w) with
               | Some c =>
                   match find_by p_id (c_project_id c) (projects w) with
                   | Some p => [(t, c, p)]
                   | None => []
                   end
               | None => []
               end
             else [])
          (transactions w))).

(** [SELECT cc.*, p.project_name, p.project_type, u.username as seller_name
    FROM carbon_credits cc JOIN projects p ON cc.project_id = p.id JOIN users
    u ON p.user_id = u.id WHERE cc.status = 'available' ORDER BY
    cc.issuance_date DESC] *)
Definition select_marketplace (w : tables) : list (credit * project) :=
  order_by_desc (fun r => c_issuance_date (fst r))
    (flat_map
       (fun c =>
          if credit_status_eqb (c_status c) available then
            match find_by p_id (c_project_id c) (projects w) with
            | Some p => if is_user w (p_user_id p) then [(c, p)] else []
            | None => []
            end
          else [])
       (credits w)).

(** [dashboard], lines 123-172. *)
Definition dashboard (session : option Z) (s : store) : dashboard_outcome * store :=
  match session with
  | None => (DashboardLogin, s)
  | Some user_id =>
      serve
        (projects <- read (select_user_projects user_id) ;;
         credits <- read (select_user_credits user_id) ;;
         transactions <- read (select_user_transactions user_id) ;;
         ret (DashboardPage projects credits transactions))
        (fun _ => DashboardPage [] [] [])
        s
  end.

(** [project_details], lines 499-551. *)
Definition project_details (session : option Z) (project_id : Z) (s : store)
    : details_outcome * store :=
  match session with
  | None => (DetailsLogin, s)
  | Some user_id =>
      serve
        (found <- read (select_own_project project_id user_id) ;;
         match found with
         | None => ret DetailsNotFound
         | Some project =>
             assessments <-
               read (fun t => order_by_desc a_date
                                (filter (fun a => a_project_id a =? project_id)
                                        (assessments t))) ;;
             credits <-
               read (fun t => order_by_desc c_issuance_date
                                (filter (fun c => c_project_id c =? project_id)
                                        (credits t))) ;;
             satellite_data <-
               read (fun t => order_by_desc o_capture_date
                                (filter (fun o => o_project_id o =? project_id)
                                        (observations t))) ;;
             ret (DetailsPage project assessments credits satellite_data)
         end)
        DetailsError
        s
  end.

(** [marketplace], lines 554-574: it asks for no session. *)
Definition marketplace (s : store) : market_outcome * store :=
  serve
    (available_credits <- read select_marketplace ;;
     ret (MarketPage available_credits))
    (fun _ => MarketPage [])
    s.


End Handlers.


(** ** Accounts

    The [users] table with its columns, and Flask's [session].  The ledger
    above keeps of a user only the id, which is all that its foreign keys
    read. *)

Module Members.
Import Py.

Inductive user_type := individual | organization.
Inductive user_verification := u_pending | u_verified.

Record user := {
  u_id : Z;
  u_username : string;
  u_email : string;
  u_password_hash : string;
  u_created_at : Z;
  u_type : user_type;
  u_profile_img_url : option string;
  u_verification : user_verification
}.

(** The rows of [users], oldest first, and the table's [AUTO_INCREMENT]
    counter. *)
Record directory := { members : list user; next_user : Z }.

(** The ids, as [Ledger.users] holds them. *)
Definition user_ids (d : directory) : list Z := map u_id (members d).

(** The session cookie: empty, or ['user_id'] and ['username'], which the
    handlers set together and clear together. *)
Record login_session := { session_user_id : Z; session_username : string }.

(** ['user_id' in session] *)
Definition is_logged_in (session : option login_session) : bool :=
  match session with Some _ => true | None => false end.

(** [session['user_id']], as the handlers of the ledger take it. *)
Definition user_id_of (session : option login_session) : option Z :=
  option_map session_user_id session.

(** The fields of the registration form. *)
Record signup_form := {
  s_username : string;
  s_email : string;
  s_password : string;
  s_user_type : string
}.

Inductive login_outcome :=
| LoginForm                              (* login.html *)
| LoginInvalid                           (* 'Invalid email or password', login.html *)
| LoginDone.                             (* 'Login successful!', redirect to dashboard *)

Inductive signup_outcome :=
| SignupForm                             (* register.html *)
| SignupEmailTaken                       (* 'Email already registered' *)
| SignupError (e : exn)                  (* 'Error: ...', register.html *)
| SignupDone.                            (* 'Registration successful!', redirect to dashboard *)

End Members.

Section MemberHandlers.
Import Py Web Members.

(** [a = b] as the collation of the [users] table has it; the same
    comparison decides its [UNIQUE] keys. *)
Variable same_text : string -> string -> bool.

(** werkzeug's [generate_password_hash], for the salt it draws, and
    [check_password_hash]. *)
Variable generate_password_hash : string -> string -> string.
Variable check_password_hash : string -> string -> bool.

(** The cell a [VARCHAR(n)] column takes, and the member of
    [ENUM('individual', 'organization')] the server reads. *)
Variable mysql_varchar : Z -> pyval -> option string.
Variable mysql_user_type : string -> option user_type.

(** [SELECT * FROM users WHERE email = email]; [fetchone()] *)
Definition select_user_by_email (email : string) (d : directory) : option user :=
  find (fun u => same_text (u_email u) email) (members d).

(** [INSERT INTO users (username, email, password_hash, user_type)]; the
    other columns take their defaults.  A refused row adds nothing; whether
    it uses up an id is not modelled, and nothing below reads the counter
    after a refusal. *)
Definition insert_user (username email password_hash user_type : string) (t : Z)
    (d : directory) : result directory :=
  match mysql_varchar 100 (PStr username), mysql_varchar 100 (PStr email),
        mysql_varchar 200 (PStr password_hash), mysql_user_type user_type with
  | Some name, Some mail, Some hash, Some type =>
      if existsb (fun u => same_text (u_username u) name || same_text (u_email u) mail)
                 (members d)
      then inl IntegrityError
      else inr {| members := members d ++ [
                    {| u_id := next_user d; u_username := name; u_email := mail;
                       u_password_hash := hash; u_created_at := t; u_type := type;
                       u_profile_img_url := None; u_verification := u_pending |}];
                  next_user := next_user d + 1 |}
  | _, _, _, _ => inl DataError
  end.

(** [login], lines 44-68. *)
Definition login (method : http_method) (email password : string)
    (session : option login_session) (d : directory)
    : login_outcome * option login_session :=
  match method with
  | GET => (LoginForm, session)
  | POST =>
      match select_user_by_email email d with
      | Some user =>
          if check_password_hash (u_password_hash user) password then
            (LoginDone, Some {| session_user_id := u_id user;
                                session_username := u_username user |})
          else (LoginInvalid, session)
      | None => (LoginInvalid, session)
      end
  end.

(** [register], lines 71-113; [salt] is the salt the hash draws and [t] the
    clock. *)
Definition register (salt : string) (t : Z) (method : http_method) (form : signup_form)
    (session : option login_session) (d : directory)
    : signup_outcome * option login_session * directory :=
  match method with
  | GET => (SignupForm, session, d)
  | POST =>
      let password_hash := generate_password_hash salt (s_password form) in
      match select_user_by_email (s_email form) d with
      | Some _ => (SignupEmailTaken, session, d)
      | None =>
          match insert_user (s_username form) (s_email form) password_hash
                  (s_user_type form) t d with
          | inl e => (SignupError e, session, d)
          | inr d' =>
              (* SELECT id FROM users WHERE email = %s; user['id'] *)
              match select_user_by_email (s_email form) d' with
              | Some user =>
                  (SignupDone,
                   Some {| session_user_id := u_id user;
                           session_username := s_username form |},
                   d')
              | None => (SignupError TypeError, session, d')
              end
          end
      end
  end.

(** [logout], lines 116-120: [session.clear()]. *)
Definition logout (session : option login_session) : option login_session := None.

End MemberHandlers.

(** ** A reference server

    An instance of the four inputs of the handlers, for running requests:
    Python's [float] on ASCII strings, plain decimal numerals ([12], [0.5],
    [-3.25]) for the server's numeric cells, exact strings for [VARCHAR].
    On a float whose shortest decimal form has no more places than the
    column, the cell is the one the server stores. *)

Module Plain.
Import Py Ledger Web.

Definition digit_of (c : ascii) : option Z :=
  let n := Z.of_N (N_of_ascii c) in
  if (48 <=? n) && (n <=? 57) then Some (n - 48) else None.

(** Reads [digits[.digits]] into (coefficient, places). *)
Fixpoint read_numeral (s : string) (acc : Z) (dot : bool) (places : nat) (digits : nat)
    : option (Z * nat) :=
  match s with
  | EmptyString => match digits with O => None | S _ => Some (acc, places) end
  | String c rest =>
      if Ascii.eqb c "."%char then
        (if dot then None else read_numeral rest acc true places digits)
      else
        match digit_of c with
        | Some d => read_numeral rest (acc * 10 + d) dot
                      (if dot then S places else places) (S digits)
        | None => None
        end
  end.

(** A numeral with an optional minus sign: (negative, coefficient, places). *)
Definition numeral (s : string) : option (bool * Z * nat) :=
  match s with
  | String "-"%char rest =>
      match read_numeral rest 0 false O O with
      | Some (n, k) => Some (true, n, k)
      | None => None
      end
  | _ =>
      match read_numeral s 0 false O O with
      | Some (n, k) => Some (false, n, k)
      | None => None
      end
  end.

(** *** [float(s)]

    Python's grammar of [float] on a string, for ASCII: white space around,
    a sign, then [inf], [infinity] or [nan] in any case, or digits with
    single underscores between them, a point, and an exponent. *)

Definition is_space (c : ascii) : bool :=
  let n := Z.of_N (N_of_ascii c) in
  ((9 <=? n) && (n <=? 13)) || ((28 <=? n) && (n <=? 32)).

Fixpoint lstrip (s : string) : string :=
  match s with
  | String c rest => if is_space c then lstrip rest else s
  | EmptyString => s
  end.

Fixpoint rstrip (s : string) : string :=
  match s with
  | EmptyString => EmptyString
  | String c rest =>
      match rstrip rest with
      | EmptyString => if is_space c then EmptyString else String c EmptyString
      | r => String c r
      end
  end.

Definition lower (c : ascii) : ascii :=
  let n := N_of_ascii c in
  if ((65 <=? n) && (n <=? 90))%N then ascii_of_N (n + 32) else c.

Fixpoint lower_str (s : string) : string :=
  match s with
  | EmptyString => EmptyString
  | String c rest => String (lower c) (lower_str rest)
  end.

(** [digit (["_"] digit)*]: the digits read onto [acc], how many there
    were, and what follows them. *)
Fixpoint read_digitpart (s : string) (acc : Z) (n : nat) : Z * nat * string :=
  match s with
  | EmptyString => (acc, n, s)
  | String c rest =>
      match digit_of c with
      | Some d => read_digitpart rest (acc * 10 + d) (S n)
      | None =>
          if Ascii.eqb c "_"%char then
            match n, rest with
            | S _, String c' _ =>
                match digit_of c' with
                | Some _ => read_digitpart rest acc n
                | None => (acc, n, s)
                end
            | _, _ => (acc, n, s)
            end
          else (acc, n, s)
      end
  end.

(** [[digitpart] "." digitpart | digitpart ["."]]: the coefficient, the
    places after the point, and what follows. *)
Definition read_number (s : string) : option (Z * nat * string) :=
  let '(a, n, r) := read_digitpart s 0 O in
  match r with
  | String "."%char r' =>
      let '(b, k, r'') := read_digitpart r' a O in
      match n, k with
      | O, O => None
      | _, _ => Some (b, k, r'')
      end
  | _ => match n with O => None | S _ => Some (a, O, r) end
  end.

(** [("e" | "E") ["+" | "-"] digitpart], or nothing, up to the end. *)
Definition read_exponent (s : string) : option Z :=
  match s with
  | EmptyString => Some 0
  | String c r =>
      if Ascii.eqb c "e"%char || Ascii.eqb c "E"%char then
        let '(neg, digits) :=
          match r with
          | String "-"%char t => (true, t)
          | String "+"%char t => (false, t)
          | _ => (false, r)
          end in
        match read_digitpart digits 0 O with
        | (x, S _, EmptyString) => Some (if neg then - x else x)
        | _ => None
        end
      else None
  end.

Definition float_of_str (s : string) : option float :=
  let t := rstrip (lstrip s) in
  let '(neg, body) :=
    match t with
    | String "-"%char r => (true, r)
    | String "+"%char r => (false, r)
    | _ => (false, t)
    end in
  let word := lower_str body in
  if String.eqb word "inf" || String.eqb word "infinity" then
    Some (if neg then neg_infinity else infinity)
  else if String.eqb word "nan" then Some nan
  else
    match read_number body with
    | Some (n, k, rest) =>
        match read_exponent rest with
        | Some x =>
            let e := x - Z.of_nat k in
            if n =? 0 then Some (if neg then (-0)%float else 0%float)
            else if 0 <=? e then
              Some (float_of_ratio ((if neg then - n else n) * 10 ^ e) 1)
            else
              Some (float_of_ratio (if neg then - n else n) (Z.to_pos (10 ^ (- e))))
        | None => None
        end
    | None => None
    end.

(** [n / d] rounded to an integer, halves away from zero; [0 <= n], [0 < d]. *)
Definition round_half_up (n d : Z) : Z := (2 * n + d) / (2 * d).

Definition in_range (p : Z) (neg : bool) (h : Z) : option Z :=
  if h <? 10 ^ p then Some (if neg then - h else h) else None.

Definition mysql_decimal (p s : Z) (v : pyval) : option Z :=
  match v with
  | PFloat f =>
      match Prim2SF f with
      | S754_zero _ => Some 0
      | S754_finite neg m e =>
          in_range p neg
            (if 0 <=? e then Zpos m * 2 ^ e * 10 ^ s
             else round_half_up (Zpos m * 10 ^ s) (2 ^ (- e)))
      | _ => None
      end
  | PInt n => in_range p (n <? 0) (Z.abs n * 10 ^ s)
  | PBool b => in_range p false (if b then 10 ^ s else 0)
  | PDecimal c => if 2 <=? s then in_range p (c <? 0) (Z.abs c * 10 ^ (s - 2)) else None
  | PStr str =>
      match numeral str with
      | Some (neg, n, k) => in_range p neg (round_half_up (n * 10 ^ s) (10 ^ Z.of_nat k))
      | None => None
      end
  | _ => None
  end.

Definition mysql_varchar (n : Z) (v : pyval) : option string :=
  match v with
  | PStr s => if Z.of_nat (String.length s) <=? n then Some s else None
  | _ => None
  end.

Definition project_types : list string :=
  ["forestry"; "agriculture"; "agroforestry"; "wetland"; "other"].

Definition area_units : list string := ["hectares"; "acres"].

Definition member (s : string) (l : list string) : bool := existsb (String.eqb s) l.

Definition unsigned (s : string) : option Z :=
  match read_numeral s 0 true O O with
  | Some (n, _) => Some n
  | None => None
  end.

(** A date written [YYYY-MM-DD]. *)
Definition date_of_str (s : string) : option Z :=
  if (String.length s =? 10)%nat
     && String.eqb (substring 4 1 s) "-" && String.eqb (substring 7 1 s) "-" then
    match unsigned (substring 0 4 s), unsigned (substring 5 2 s), unsigned (substring 8 2 s) with
    | Some y, Some m, Some d =>
        if (1 <=? y) && (1 <=? m) && (m <=? 12) && (1 <=? d) && (d <=? Cal.days_in_month y m)
        then Some (Cal.ymd2ord y m d) else None
    | _, _, _ => None
    end
  else None.

(** The cells of a [projects] row; of boundaries only the form's default
    [{}] is read. *)
Definition mysql_project (form : project_form) : option project_cells :=
  if member (f_project_type form) project_types
     && member (f_area_unit form) area_units
     && (Z.of_nat (String.length (f_project_name form)) <=? 200)
     && String.eqb (f_boundary_geojson form) "{}" then
    match mysql_decimal 10 8 (PStr (f_latitude form)),
          mysql_decimal 11 8 (PStr (f_longitude form)),
          mysql_decimal 10 2 (PStr (f_area_size form)),
          date_of_str (f_start_date form) with
    | Some lat, Some lng, Some area, Some day =>
        Some {| k_type := f_project_type form; k_lat := lat; k_lng := lng;
                k_area_size := area; k_area_unit := f_area_unit form;
                k_start_date := day |}
    | _, _, _, _ => None
    end
  else None.

(** The handlers on the reference server. *)
Abbreviation register_project :=
  (register_project float_of_str mysql_decimal mysql_varchar mysql_project).
Abbreviation project_assessment :=
  (project_assessment float_of_str mysql_decimal mysql_varchar).
Abbreviation generate_report := (generate_report mysql_decimal mysql_varchar).
Abbreviation buy_credit := (buy_credit float_of_str mysql_decimal mysql_varchar).

(** The rows [db_setup.py] inserts, with the instants left at 0. *)

Definition project_one : project :=
  {| p_id := 1; p_user_id := 1; p_name := "Forest Conservation";
     p_type := "forestry"; p_lat := 3405223500; p_lng := -11824368300;
     p_area_size := 10000; p_area_unit := "hectares";
     p_description := "A project to conserve forest area.";
     p_start_date := Cal.ymd2ord 2023 1 1; p_created_at := 0;
     p_status := registered; p_boundary := "{}" |}.

Definition project_two : project :=
  {| p_id := 2; p_user_id := 2; p_name := "Wetland Restoration";
     p_type := "wetland"; p_lat := 3677825900; p_lng := -11941793100;
     p_area_size := 5000; p_area_unit := "acres";
     p_description := "A project to restore wetland.";
     p_start_date := Cal.ymd2ord 2023 2 1; p_created_at := 0;
     p_status := registered; p_boundary := "{}" |}.

Definition assessment_one : assessment :=
  {| a_id := 1; a_project_id := 1; a_date := 0;
     a_carbon_estimate := 500000; a_confidence_score := 9500;
     a_methodology := "AI-based assessment";
     a_data_sources := PDict [("source", PStr "satellite")];
     a_model_version := "gpt-4"; a_verification := v_approved;
     a_report_url := None |}.

Definition assessment_two : assessment :=
  {| a_id := 2; a_project_id := 2; a_date := 0;
     a_carbon_estimate := 300000; a_confidence_score := 9000;
     a_methodology := "AI-based assessment";
     a_data_sources := PDict [("source", PStr "satellite")];
     a_model_version := "gpt-4"; a_verification := v_approved;
     a_report_url := None |}.

Definition lot_one : credit :=
  {| c_id := 1; c_project_id := 1; c_assessment_id := 1;
     c_amount := 500000; c_issuance_date := 0;
     c_expiry_date := Some (Cal.ymd2ord 2028 1 1);
     c_certificate_id := "CC-1-abc123"; c_status := available;
     c_price := Some 2500;
     c_document_url := Some "/reports/1_20230101.pdf" |}.

Definition lot_two : credit :=
  {| c_id := 2; c_project_id := 2; c_assessment_id := 2;
     c_amount := 300000; c_issuance_date := 0;
     c_expiry_date := Some (Cal.ymd2ord 2028 2 1);
     c_certificate_id := "CC-2-def456"; c_status := available;
     c_price := Some 3000;
     c_document_url := Some "/reports/2_20230201.pdf" |}.

Definition seed : store :=
  {| committed :=
       {| users := [1; 2];
          projects :=
            [project_one; project_two];
          assessments :=
            [assessment_one; assessment_two];
          credits :=
            [lot_one; lot_two];
          transactions :=
            [ {| t_id := 1; t_credit_id := 1; t_buyer_id := 2; t_seller_id := 1;
                 t_amount := 100000; t_price_per_unit := 2500;
                 t_total_price := 2500000; t_date := 0; t_status := t_completed |};
              {| t_id := 2; t_credit_id := 2; t_buyer_id := 1; t_seller_id := 2;
                 t_amount := 50000; t_price_per_unit := 3000;
                 t_total_price := 1500000; t_date := 0; t_status := t_completed |} ];
          observations :=
            [ {| o_id := 1; o_project_id := 1; o_capture_date := Cal.ymd2ord 2023 1 15;
                 o_ndvi := Some 7500; o_land_cover := Some "Forest";
                 o_cloud_cover := Some 1000; o_source := "Sentinel-2";
                 o_raw_url := Some "http://example.com/raw1";
                 o_processed_url := Some "http://example.com/processed1" |};
              {| o_id := 2; o_project_id := 2; o_capture_date := Cal.ymd2ord 2023 2 15;
                 o_ndvi := Some 6500; o_land_cover := Some "Wetland";
                 o_cloud_cover := Some 500; o_source := "Sentinel-2";
                 o_raw_url := Some "http://example.com/raw2";
                 o_processed_url := Some "http://example.com/processed2" |} ];
          logs :=
            [ {| l_id := 1; l_project_id := 1; l_assessment_id := Some 1; l_date := 0;
                 l_model_used := "gpt-4";
                 l_input := PDict [("project_type", PStr "forestry")];
                 l_output := PDict [("carbon_estimate", PFloat 5000)];
                 l_confidence_score := Some 9500; l_type := initial |};
              {| l_id := 2; l_project_id := 2; l_assessment_id := Some 2; l_date := 0;
                 l_model_used := "gpt-4";
                 l_input := PDict [("project_type", PStr "wetland")];
                 l_output := PDict [("carbon_estimate", PFloat 3000)];
                 l_confidence_score := Some 9000; l_type := initial |} ] |};
     autoinc := {| next_project := 3; next_assessment := 3; next_credit := 3;
                   next_transaction := 3; next_observation := 3; next_log := 3 |} |}.

(** [fetch_satellite_imagery]'s own fallback dict (with no Sentinel
    credentials its query raises); ["error"] holds the message. *)
Definition simulated_satellite : pydict :=
  [("ndvi_value", PFloat 0.65); ("land_cover_classification", PStr "Mixed vegetation");
   ("cloud_cover_percentage", PInt 15); ("source", PStr "Simulated data");
   ("raw_data_url", PStr "/static/images/sample_satellite.jpg");
   ("processed_data_url", PStr "/static/images/sample_ndvi.jpg");
   ("error", PStr "")].

(** Noon of 2026-11-03. *)
Definition noon : Z := (Cal.ymd2ord 2026 11 3 - 1) * 86400 + 43200.

Definition offline : world :=
  {| now := noon; token := "9f3a61c2"; satellite := simulated_satellite; ai := AIRaises |}.

(** The store once user 1 has had the report of project 1 issued. *)
Definition after_report : store := snd (generate_report offline (Some 1) 1 seed).

(** A registration form. *)
Definition mangrove_form : project_form :=
  {| f_project_name := "Mangrove belt"; f_project_type := "forestry";
     f_latitude := "-1.25"; f_longitude := "36.8"; f_area_size := "100";
     f_area_unit := "hectares"; f_description := "Replanting";
     f_start_date := "2026-01-01"; f_boundary_geojson := "{}" |}.

(** A reply that reads as JSON, with a usable estimate and a [null]
    confidence score. *)
Definition null_confidence : world :=
  {| now := noon; token := "9f3a61c2"; satellite := simulated_satellite;
     ai := AIContent (Some (PDict [("carbon_estimate", PStr "120 tons CO2e/year");
                                   ("confidence_score", PNone);
                                   ("methodology", PStr "IPCC Tier 1")])) |}.

(** A hundred hectares of forest, and a hundredth of a hectare. *)
Definition forest_100ha : project_data :=
  {| pd_project_type := "forestry"; pd_area_size := 100;
     pd_area_unit := "hectares"; pd_satellite_data := simulated_satellite |}.

Definition forest_small : project_data :=
  {| pd_project_type := "forestry"; pd_area_size := 0.01;
     pd_area_unit := "hectares"; pd_satellite_data := simulated_satellite |}.

(** A reply that reads as JSON and names its estimate in another unit. *)
Definition reply_other_unit : pydict :=
  [("carbon_estimate", PStr "1200 tCO2e per year");
   ("confidence_score", PInt 85);
   ("methodology", PStr "IPCC Tier 1")].

(** More replies of the AI collaborator: an estimate in the expected unit,
    an estimate given as a JSON number, and one that starts with a word. *)
Definition reply_with_unit : pydict :=
  [("carbon_estimate", PStr "120.5 tons CO2e/year");
   ("confidence_score", PInt 85);
   ("methodology", PStr "IPCC Tier 1")].

Definition reply_with_number : pydict :=
  [("carbon_estimate", PFloat 1200.5);
   ("confidence_score", PInt 85);
   ("methodology", PStr "IPCC Tier 1")].

Definition reply_with_words : pydict :=
  [("carbon_estimate", PStr "about 120 tons CO2e/year");
   ("confidence_score", PInt 85)].

(** An hour after [noon], with another token. *)
Definition later : world :=
  {| now := noon + 3600; token := "51c07d3e"; satellite := simulated_satellite;
     ai := AIRaises |}.

(** Noon of 2029-06-01, after the seed lots have expired. *)
Definition after_expiry : world :=
  {| now := (Cal.ymd2ord 2029 6 1 - 1) * 86400 + 43200; token := "c40b7e19";
     satellite := simulated_satellite; ai := AIRaises |}.

(** The store once user 1 has opened the assessment page of project 1, and
    then once user 2 has registered a project. *)
Definition after_view : store := snd (project_assessment offline (Some 1) 1 seed).

Definition after_registration : store :=
  snd (register_project later (Some 2) POST mangrove_form after_view).

(** The store once a registration of user 1 has stopped at the assessment. *)
Definition unassessed : store :=
  snd (register_project null_confidence (Some 1) POST mangrove_form seed).

(** The comparison of a binary collation; a stand-in for werkzeug's salted
    hash, which keeps the password readable (password, ['$'], salt); and the
    two user types. *)
Definition same_text : string -> string -> bool := String.eqb.

Definition generate_password_hash (salt password : string) : string :=
  password ++ "$" ++ salt.

Definition check_password_hash (hash password : string) : bool :=
  String.prefix (password ++ "$") hash.

Definition mysql_user_type (s : string) : option Members.user_type :=
  if String.eqb s "individual" then Some Members.individual
  else if String.eqb s "organization" then Some Members.organization
  else None.

Abbreviation register :=
  (register same_text generate_password_hash mysql_varchar mysql_user_type).
Abbreviation login := (login same_text check_password_hash).

(** The users [db_setup.py] inserts. *)
Definition seed_members : Members.directory :=
  {| Members.members :=
       [ {| Members.u_id := 1; Members.u_username := "john_doe";
            Members.u_email := "john@example.com";
            Members.u_password_hash := "hashed_password";
            Members.u_created_at := 0; Members.u_type := Members.individual;
            Members.u_profile_img_url := None;
            Members.u_verification := Members.u_verified |};
         {| Members.u_id := 2; Members.u_username := "jane_doe";
            Members.u_email := "jane@example.com";
            Members.u_password_hash := "hashed_password";
            Members.u_created_at := 0; Members.u_type := Members.organization;
            Members.u_profile_img_url := None;
            Members.u_verification := Members.u_verified |} ];
     Members.next_user := 3 |}.

(** Two registration forms: a new user, and another email for the same
    user name. *)
Definition amina : Members.signup_form :=
  {| Members.s_username := "amina"; Members.s_email := "amina@example.com";
     Members.s_password := "s3cret"; Members.s_user_type := "individual" |}.

Definition amina_again : Members.signup_form :=
  {| Members.s_username := "amina"; Members.s_email := "amina@example.org";
     Members.s_password := "other"; Members.s_user_type := "organization" |}.


End Plain.

(** ** The specification's words

    Definitions that follow the specification, to be compared with what the
    handlers compute. *)

Module Spec.
Import Py Web.

(** "annual_rate is a fixed lookup table: forestry 3.5, agriculture 1.2,
    agroforestry 2.8, wetland 4.8, other 1.0". *)
Definition annual_rate (project_type : string) : float :=
  if String.eqb project_type "forestry" then 3.5%float
  else if String.eqb project_type "agriculture" then 1.2%float
  else if String.eqb project_type "agroforestry" then 2.8%float
  else if String.eqb project_type "wetland" then 4.8%float
  else 1.0%float.

(** "area_in_acres = area x 2.47 if unit is hectares else area": the area
    times 2.47, or times 1. *)
Definition area_in_acres (area : float) (unit : string) : float :=
  PrimFloat.mul area (if String.eqb unit "hectares" then 2.47%float else 1%float).

(** "Fallback estimate = area_in_acres x annual_rate(project_type)". *)
Definition fallback_estimate (pd : project_data) : float :=
  PrimFloat.mul (area_in_acres (pd_area_size pd) (pd_area_unit pd))
                (annual_rate (pd_project_type pd)).


(** [x > d] for a float and a two-place decimal, exactly. *)
Definition float_gt_decimal (x : float) (c : Z) : bool :=
  match Prim2SF x with
  | S754_nan => false
  | S754_infinity s => negb s
  | S754_zero _ => c <? 0
  | S754_finite s m e =>
      match compare_finite_decimal s m e c with Gt => true | _ => false end
  end.

(** [x < d], exactly. *)
Definition float_lt_decimal (x : float) (c : Z) : bool :=
  match Prim2SF x with
  | S754_nan => false
  | S754_infinity s => s
  | S754_zero _ => 0 <? c
  | S754_finite s m e =>
      match compare_finite_decimal s m e c with Lt => true | _ => false end
  end.

(** The exact product of a decimal numeral [n / 10^k] and a price of [c]
    hundredths, as the hundredths a [DECIMAL(12, 2)] cell holds (halves
    away from zero). *)
Definition exact_total (n : Z) (k : nat) (c : Z) : Z :=
  Plain.round_half_up (n * c) (10 ^ Z.of_nat k).

End Spec.

(** ** Steps of a connection *)

(** A computation that publishes nothing: it leaves [durable] as it is. *)
Definition quiet {A : Type} (m : Sql.sql A) : Prop :=
  forall c, Sql.durable (snd (m c)) = Sql.durable c.

(** The ledger after a purchase of a whole lot: one more transaction, and
    the lot marked sold. *)
Definition sold_out (t : Ledger.tables) (credit_id : Z) (row : Ledger.transaction)
    : Ledger.tables :=
  Ledger.with_credits
    (Ledger.with_transactions t (Ledger.transactions t ++ [row]))
    (Ledger.update_where Ledger.c_id credit_id
       (Ledger.set_credit_status Ledger.sold) (Ledger.credits t)).

(** A computation that publishes something only on its way to the answer
    [done]. *)
Definition commits_only_with {R : Type} (done : R) (m : Sql.sql R) : Prop :=
  forall c, fst (m c) = inr done \/ Sql.durable (snd (m c)) = Sql.durable c.

(** A computation that leaves one view [f] of the ledger as it is, in the
    working copy and in what is published. *)
Definition stable {X A : Type} (f : Ledger.tables -> X) (m : Sql.sql A) : Prop :=
  forall c x,
    f (Sql.durable c) = x -> f (Sql.working c) = x ->
    f (Sql.durable (snd (m c))) = x /\ f (Sql.working (snd (m c))) = x.

(** [t] is [t0] with [o] observations, [a] assessments and [l] verification
    logs appended, and nothing else of these three tables changed. *)
Definition rows_added (t0 t : Ledger.tables) (o a l : nat) : Prop :=
  exists os ass ls,
    Ledger.observations t = (Ledger.observations t0 ++ os)%list /\
    Ledger.assessments t = (Ledger.assessments t0 ++ ass)%list /\
    Ledger.logs t = (Ledger.logs t0 ++ ls)%list /\
    List.length os = o /\ List.length ass = a /\ List.length ls = l.

(** A statement that the server refuses with [e] whatever the tables hold:
    the row itself is not one the table takes. *)
Definition refuses (m : Sql.sql unit) (e : Py.exn) : Prop :=
  forall c, fst (m c) = inl e.

(** *** The integrity the schema declares

    Primary keys are distinct and below the table's [AUTO_INCREMENT]
    counter; foreign keys name a row that is there; certificate ids are
    distinct. *)

Definition keyed {A : Type} (key : A -> Z) (next : Z) (l : list A) : Prop :=
  NoDup (map key l) /\ Forall (fun r => key r < next) l.

Definition refers {A B : Type} (fk : A -> Z) (key : B -> Z) (l : list A) (target : list B)
    : Prop :=
  Forall (fun r => Ledger.has_key key (fk r) target = true) l.

Record consistent_tables (n : Ledger.counters) (t : Ledger.tables) : Prop := {
  keyed_projects : keyed Ledger.p_id (Ledger.next_project n) (Ledger.projects t);
  keyed_assessments :
    keyed Ledger.a_id (Ledger.next_assessment n) (Ledger.assessments t);
  keyed_credits : keyed Ledger.c_id (Ledger.next_credit n) (Ledger.credits t);
  keyed_transactions :
    keyed Ledger.t_id (Ledger.next_transaction n) (Ledger.transactions t);
  keyed_observations :
    keyed Ledger.o_id (Ledger.next_observation n) (Ledger.observations t);
  keyed_logs : keyed Ledger.l_id (Ledger.next_log n) (Ledger.logs t);
  project_owner :
    Forall (fun p => Ledger.is_user t (Ledger.p_user_id p) = true) (Ledger.projects t);
  assessment_project :
    refers Ledger.a_project_id Ledger.p_id (Ledger.assessments t) (Ledger.projects t);
  credit_project :
    refers Ledger.c_project_id Ledger.p_id (Ledger.credits t) (Ledger.projects t);
  credit_assessment :
    refers Ledger.c_assessment_id Ledger.a_id (Ledger.credits t) (Ledger.assessments t);
  transaction_credit :
    refers Ledger.t_credit_id Ledger.c_id (Ledger.transactions t) (Ledger.credits t);
  transaction_parties :
    Forall (fun x => Ledger.is_user t (Ledger.t_buyer_id x) = true
                     /\ Ledger.is_user t (Ledger.t_seller_id x) = true)
           (Ledger.transactions t);
  observation_project :
    refers Ledger.o_project_id Ledger.p_id (Ledger.observations t) (Ledger.projects t);
  log_project :
    refers Ledger.l_project_id Ledger.p_id (Ledger.logs t) (Ledger.projects t);
  log_assessment :
    Forall (fun l => match Ledger.l_assessment_id l with
                     | Some a => Ledger.has_key Ledger.a_id a (Ledger.assessments t) = true
                     | None => True
                     end)
           (Ledger.logs t);
  certificates : NoDup (map Ledger.c_certificate_id (Ledger.credits t))
}.

Definition consistent (s : Ledger.store) : Prop :=
  consistent_tables (Ledger.autoinc s) (Ledger.committed s).

(** The same of a connection: of what is published and of the working copy. *)
Definition consistent_conn (c : Sql.conn) : Prop :=
  consistent_tables (Sql.seqs c) (Sql.durable c)
  /\ consistent_tables (Sql.seqs c) (Sql.working c).

(** A computation that keeps a connection consistent. *)
Definition keeps_consistent {A : Type} (m : Sql.sql A) : Prop :=
  forall c, consistent_conn c -> consistent_conn (snd (m c)).

(** A computation that keeps a property [I] of the tables, in what is
    published and in the working copy. *)
Definition kept {A : Type} (I : Ledger.tables -> Prop) (m : Sql.sql A) : Prop :=
  forall c,
    I (Sql.durable c) -> I (Sql.working c) ->
    I (Sql.durable (snd (m c))) /\ I (Sql.working (snd (m c))).

(** The statuses that the handlers write: a project is registered, assessing
    or verified; an assessment is pending or approved; a lot is available or
    sold; a transaction is completed; a log is initial. *)
Definition written_statuses (t : Ledger.tables) : bool :=
  forallb (fun p => match Ledger.p_status p with
                    | Ledger.registered | Ledger.assessing | Ledger.verified => true
                    | _ => false
                    end) (Ledger.projects t)
  && forallb (fun a => match Ledger.a_verification a with
                       | Ledger.v_pending | Ledger.v_approved => true
                       | _ => false
                       end) (Ledger.assessments t)
  && forallb (fun c => match Ledger.c_status c with
                       | Ledger.available | Ledger.sold => true
                       | _ => false
                       end) (Ledger.credits t)
  && forallb (fun x => match Ledger.t_status x with
                       | Ledger.t_completed => true
                       | _ => false
                       end) (Ledger.transactions t)
  && forallb (fun l => match Ledger.l_type l with
                       | Ledger.initial => true
                       | _ => false
                       end) (Ledger.logs t).


(** * Properties *)

Section Runs.
Import Py Ledger Sql.

(** How a run that succeeds decomposes. *)

Lemma bind_inr {A B : Type} (m : sql A) (k : A -> sql B) c x c' :
  bind m k c = (inr x, c') ->
  exists y c1, m c = (inr y, c1) /\ k y c1 = (inr x, c').
Proof.
  unfold bind. destruct (m c) as [[e | y] c1]; [discriminate |].
  intros H. exists y, c1. split; [reflexivity | exact H].
Qed.

Lemma lift_inr {A : Type} (r : result A) c x c' :
  lift r c = (inr x, c') -> r = inr x /\ c' = c.
Proof. unfold lift. intros H. inversion H. split; reflexivity. Qed.

Lemma ret_inr {A : Type} (y : A) c x c' :
  ret y c = (inr x, c') -> x = y /\ c' = c.
Proof. unfold ret. intros H. inversion H. split; reflexivity. Qed.

Lemma read_inr {A : Type} (q : tables -> A) c x c' :
  read q c = (inr x, c') -> x = q (working c) /\ c' = c.
Proof. unfold read. intros H. inversion H. split; reflexivity. Qed.

Lemma write_inr (f : tables -> tables) c x c' :
  write f c = (inr x, c') ->
  c' = {| durable := durable c; working := f (working c);
          seqs := seqs c; last_insert_id := last_insert_id c |}.
Proof. unfold write. intros H. inversion H. reflexivity. Qed.

Lemma commit_inr c x c' :
  commit c = (inr x, c') ->
  c' = {| durable := working c; working := working c;
          seqs := seqs c; last_insert_id := last_insert_id c |}.
Proof. unfold commit. intros H. inversion H. reflexivity. Qed.

Lemma last_inr c x c' :
  select_last_insert_id c = (inr x, c') -> x = last_insert_id c /\ c' = c.
Proof. unfold select_last_insert_id. intros H. inversion H. split; reflexivity. Qed.

Lemma fresh_inr next bump c x c' :
  fresh next bump c = (inr x, c') ->
  x = next (seqs c) /\
  c' = {| durable := durable c; working := working c;
          seqs := bump (seqs c); last_insert_id := next (seqs c) |}.
Proof. unfold fresh. intros H. inversion H. split; reflexivity. Qed.

Lemma require_inr ok e c x c' :
  require ok e c = (inr x, c') -> ok = true /\ c' = c.
Proof.
  unfold require. destruct ok; intros H; inversion H. split; reflexivity.
Qed.

Lemma serve_inr {R : Type} (body : sql R) (h : exn -> R) s x s' :
  (forall e, h e <> x) ->
  serve body h s = (x, s') ->
  exists c, body (opened s) = (inr x, c) /\ s' = closed c.
Proof.
  unfold serve. intros Hx H. destruct (body (opened s)) as [[e | y] c].
  - inversion H. exfalso. apply (Hx e). assumption.
  - inversion H. exists c. split; reflexivity.
Qed.

Lemma serve_of_inr {R : Type} (body : sql R) (h : exn -> R) s x c :
  body (opened s) = (inr x, c) -> serve body h s = (x, closed c).
Proof. unfold serve. intros ->. reflexivity. Qed.

Lemma serve_of_inl {R : Type} (body : sql R) (h : exn -> R) s e c :
  body (opened s) = (inl e, c) -> serve body h s = (h e, closed c).
Proof. unfold serve. intros ->. reflexivity. Qed.

Lemma bind_of_inr {A B : Type} (m : sql A) (k : A -> sql B) c y c1 :
  m c = (inr y, c1) -> bind m k c = k y c1.
Proof. unfold bind. intros ->. reflexivity. Qed.

Lemma bind_of_inl {A B : Type} (m : sql A) (k : A -> sql B) c e c1 :
  m c = (inl e, c1) -> bind m k c = (inl e, c1).
Proof. unfold bind. intros ->. reflexivity. Qed.

(** Statements other than [commit] publish nothing. *)

Lemma quiet_ret {A : Type} (x : A) : quiet (ret x).
Proof. intros c. reflexivity. Qed.

Lemma quiet_raise {A : Type} (e : exn) : quiet (@raise A e).
Proof. intros c. reflexivity. Qed.

Lemma quiet_lift {A : Type} (r : result A) : quiet (lift r).
Proof. intros c. reflexivity. Qed.

Lemma quiet_read {A : Type} (q : tables -> A) : quiet (read q).
Proof. intros c. reflexivity. Qed.

Lemma quiet_write (f : tables -> tables) : quiet (write f).
Proof. intros c. reflexivity. Qed.

Lemma quiet_last : quiet select_last_insert_id.
Proof. intros c. reflexivity. Qed.

Lemma quiet_fresh next bump : quiet (fresh next bump).
Proof. intros c. reflexivity. Qed.

Lemma quiet_require ok e : quiet (require ok e).
Proof. intros c. reflexivity. Qed.

Lemma quiet_bind {A B : Type} (m : sql A) (k : A -> sql B) :
  quiet m -> (forall x, quiet (k x)) -> quiet (bind m k).
Proof.
  intros Hm Hk c. unfold bind. specialize (Hm c).
  destruct (m c) as [[e | x] c1]; cbn [snd] in *; [exact Hm |].
  rewrite (Hk x c1). exact Hm.
Qed.

Lemma quiet_if {A : Type} (b : bool) (m1 m2 : sql A) :
  quiet m1 -> quiet m2 -> quiet (if b then m1 else m2).
Proof. destruct b; trivial. Qed.

End Runs.

Create HintDb sql.
#[export] Hint Resolve quiet_ret quiet_raise quiet_lift quiet_read quiet_write
  quiet_last quiet_fresh quiet_require quiet_if : sql.

(** Proves that a chain of statements is [quiet]. *)
Ltac quiet_chain :=
  repeat (apply quiet_bind; [| intro]); auto with sql.

(** Splits a successful run into the runs of its steps, case by case where
    the code branches. *)
Ltac sql_inv H :=
  lazymatch type of H with
  | Sql.bind _ _ _ = (inr _, _) =>
      let H1 := fresh "Step" in
      let H2 := fresh "Step" in
      apply bind_inr in H; destruct H as (? & ? & H1 & H2);
      sql_inv H1; sql_inv H2
  | Sql.lift _ _ = (inr _, _) =>
      let E := fresh "Conn" in
      apply lift_inr in H; destruct H as [H E]; subst; try discriminate H
  | Sql.ret _ _ = (inr _, _) =>
      let E := fresh "Conn" in
      apply ret_inr in H; destruct H as [H E]; subst; try discriminate H
  | Sql.raise _ _ = (inr _, _) => discriminate H
  | Sql.read _ _ = (inr _, _) =>
      let E := fresh "Conn" in
      apply read_inr in H; destruct H as [H E]; subst
  | Sql.write _ _ = (inr _, _) =>
      apply write_inr in H; subst
  | Sql.commit _ = (inr _, _) =>
      apply commit_inr in H; subst
  | Sql.select_last_insert_id _ = (inr _, _) =>
      let E := fresh "Conn" in
      apply last_inr in H; destruct H as [H E]; subst
  | Sql.fresh _ _ _ = (inr _, _) =>
      let E := fresh "Conn" in
      apply fresh_inr in H; destruct H as [H E]; subst
  | Sql.require _ _ _ = (inr _, _) =>
      let E := fresh "Conn" in
      apply require_inr in H; destruct H as [H E]; subst
  | (match ?x with _ => _ end) _ = (inr _, _) =>
      first [ is_var x; destruct x | destruct x eqn:? ]; sql_inv H
  | _ =>
      first
        [ progress unfold insert_project, update_project_status, insert_observation,
            insert_assessment, insert_log, update_assessment_report, insert_credit,
            update_credit_status, update_credit_amount, insert_transaction in H;
          sql_inv H
        | idtac ]
  end.

(** Projections of the connection records a run leaves behind. *)
Ltac conn_simpl :=
  cbn [Sql.durable Sql.working Sql.seqs Sql.last_insert_id Sql.opened Sql.closed
       Ledger.committed Ledger.autoinc] in *.

(** ** Cells and statements *)

Section Statements.
Import Py Ledger Sql Web.
Variable mysql_decimal : Z -> Z -> pyval -> option Z.
Variable mysql_varchar : Z -> pyval -> option string.

Lemma decimal_cell_inr p s v z :
  decimal_cell mysql_decimal p s v = inr z -> mysql_decimal p s v = Some z.
Proof.
  unfold decimal_cell. destruct v; try discriminate;
    destruct (mysql_decimal p s _); intros H; inversion H; reflexivity.
Qed.

Lemma quiet_insert_transaction cid b sl a p t now st :
  quiet (insert_transaction mysql_decimal cid b sl a p t now st).
Proof. unfold insert_transaction. quiet_chain. Qed.

Lemma quiet_insert_credit pid aid a i e cert st p u :
  quiet (insert_credit mysql_decimal mysql_varchar pid aid a i e cert st p u).
Proof. unfold insert_credit. quiet_chain. Qed.

Lemma quiet_update_credit_status cid st : quiet (update_credit_status cid st).
Proof. unfold update_credit_status. quiet_chain. Qed.

Lemma quiet_update_credit_amount cid a :
  quiet (update_credit_amount mysql_decimal cid a).
Proof. unfold update_credit_amount. quiet_chain. Qed.

Lemma quiet_update_project_status pid st : quiet (update_project_status pid st).
Proof. unfold update_project_status. quiet_chain. Qed.

Lemma quiet_update_assessment_report k url :
  quiet (update_assessment_report mysql_varchar k url).
Proof. unfold update_assessment_report. quiet_chain. Qed.

Lemma quiet_insert_observation pid t sat :
  quiet (insert_observation mysql_decimal mysql_varchar pid t sat).
Proof. unfold insert_observation. quiet_chain. Qed.

Lemma quiet_insert_assessment pid t res zero :
  quiet (insert_assessment mysql_decimal mysql_varchar pid t res zero).
Proof. unfold insert_assessment. quiet_chain. Qed.

Lemma quiet_insert_log pid aid t res pd zero :
  quiet (insert_log mysql_decimal mysql_varchar pid aid t res pd zero).
Proof. unfold insert_log. quiet_chain. Qed.

End Statements.

#[export] Hint Resolve quiet_insert_transaction quiet_insert_credit
  quiet_update_credit_status quiet_update_credit_amount
  quiet_update_project_status quiet_update_assessment_report
  quiet_insert_observation quiet_insert_assessment quiet_insert_log : sql.

(** ** The Credit Exchange: [buy_credit] *)

Section Purchases.
Import Py Ledger Sql Web.
Variable float_of_str : string -> option float.
Variable mysql_decimal : Z -> Z -> pyval -> option Z.
Variable mysql_varchar : Z -> pyval -> option string.

Let buy := buy_credit float_of_str mysql_decimal mysql_varchar.


(** The row the purchase query returns is a lot of the table. *)
Lemma select_available_credit_key credit_id t credit p :
  select_available_credit credit_id t = Some (credit, p) ->
  has_key c_id credit_id (credits t) = true
  /\ c_id credit = credit_id /\ c_status credit = available
  /\ In credit (credits t).
Proof.
  unfold select_available_credit, has_key, find_by.
  destruct (find _ (credits t)) as [c |] eqn:F; [| discriminate].
  destruct (find _ (projects t)); [| discriminate].
  intros H. inversion H; subst. apply find_some in F. destruct F as [Hin Hc].
  apply andb_true_iff in Hc. destruct Hc as [Hid Hst].
  repeat split.
  - apply existsb_exists. exists credit. split; assumption.
  - apply Z.eqb_eq. assumption.
  - destruct (c_status credit); try discriminate. reflexivity.
  - assumption.
Qed.

(** A purchase that ends in 'Credit purchase successful!' took the
    whole-lot branch: every step before it succeeded, and the ledger gained
    one transaction and a sold mark. *)
Lemma buy_credit_done w session method form_amount credit_id s s' :
  buy w session method form_amount credit_id s = (BuyDone, s') ->
  exists user_id credit p text amount price qa qp qt,
    session = Some user_id /\ method = POST /\ form_amount = Some text /\
    select_available_credit credit_id (committed s) = Some (credit, p) /\
    float_of_str text = Some amount /\
    c_price credit = Some price /\
    mysql_decimal 12 2 (PFloat amount) = Some qa /\
    mysql_decimal 10 2 (PFloat (float_of_decimal price)) = Some qp /\
    mysql_decimal 12 2 (PFloat (PrimFloat.mul amount (float_of_decimal price))) = Some qt /\
    is_user (committed s) user_id = true /\
    is_user (committed s) (p_user_id p) = true /\
    float_ge_decimal amount (c_amount credit) = inr true /\
    committed s' =
      sold_out (committed s) credit_id
        {| t_id := next_transaction (autoinc s); t_credit_id := credit_id;
           t_buyer_id := user_id; t_seller_id := p_user_id p;
           t_amount := qa; t_price_per_unit := qp; t_total_price := qt;
           t_date := now w; t_status := t_completed |}.
Proof.
  unfold buy, buy_credit. intros H.
  destruct session as [user_id |]; [| discriminate H].
  apply serve_inr in H; [| discriminate].
  destruct H as (c & H & ->).
  sql_inv H. conn_simpl.
  destruct form_amount as [text |]; [| discriminate].
  inversion Step; subst; clear Step.
  unfold py_float_str in Step0.
  destruct (float_of_str x) as [amount |] eqn:Hamount; [| discriminate].
  inversion Step0; subst; clear Step0.
  destruct (c_price c0) as [price |] eqn:Hprice; [| discriminate].
  cbn in Step1. inversion Step1; subst; clear Step1.
  apply decimal_cell_inr in Step3, Step2, Step5.
  apply andb_true_iff in Step6. destruct Step6 as [Step6 Hseller].
  apply andb_true_iff in Step6. destruct Step6 as [_ Hbuyer].
  do 9 eexists.
  repeat (split; [first [reflexivity | eassumption] |]).
  reflexivity.
Qed.

(** Conversely, when every step of the whole-lot branch is accepted, the
    purchase succeeds. *)
Lemma buy_credit_full w user_id text credit_id s credit p amount price qa qp qt :
  select_available_credit credit_id (committed s) = Some (credit, p) ->
  float_of_str text = Some amount ->
  c_price credit = Some price ->
  mysql_decimal 12 2 (PFloat amount) = Some qa ->
  mysql_decimal 10 2 (PFloat (float_of_decimal price)) = Some qp ->
  mysql_decimal 12 2 (PFloat (PrimFloat.mul amount (float_of_decimal price))) = Some qt ->
  is_user (committed s) user_id = true ->
  is_user (committed s) (p_user_id p) = true ->
  float_ge_decimal amount (c_amount credit) = inr true ->
  exists s',
    buy w (Some user_id) POST (Some text) credit_id s = (BuyDone, s') /\
    committed s' =
      sold_out (committed s) credit_id
        {| t_id := next_transaction (autoinc s); t_credit_id := credit_id;
           t_buyer_id := user_id; t_seller_id := p_user_id p;
           t_amount := qa; t_price_per_unit := qp; t_total_price := qt;
           t_date := now w; t_status := t_completed |}.
Proof.
  intros Hrow Hamount Hprice Hqa Hqp Hqt Hbuyer Hseller Hge.
  destruct (select_available_credit_key _ _ _ _ Hrow) as (Hkey & _).
  unfold buy, buy_credit.
  eexists. split.
  - apply serve_of_inr.
    cbv [bind read lift ret require fresh write commit insert_transaction
         update_credit_status py_float_str py_float_of option_decimal py_ge
         decimal_cell].
    conn_simpl. rewrite Hrow, Hamount, Hprice, Hqa, Hqp, Hqt.
    conn_simpl. rewrite Hkey, Hbuyer, Hseller.
    cbn [andb]. rewrite Hge. reflexivity.
  - reflexivity.
Qed.

(** When the amount is below the lot's quantity, the split raises before the
    commit: [credit['credit_amount'] - amount] subtracts a float from a
    [Decimal].  Whatever was executed is rolled back. *)
Lemma buy_credit_partial w user_id text credit_id s credit p amount :
  select_available_credit credit_id (committed s) = Some (credit, p) ->
  float_of_str text = Some amount ->
  float_ge_decimal amount (c_amount credit) = inr false ->
  exists e s',
    buy w (Some user_id) POST (Some text) credit_id s = (BuyError e, s') /\
    committed s' = committed s.
Proof.
  intros Hrow Hamount Hge.
  unfold buy, buy_credit.
  match goal with
  | |- exists e s', serve ?body _ _ = _ /\ _ =>
      cut (exists e c, body (opened s) = (inl e, c) /\ durable c = committed s)
  end.
  { intros (e & c & Hrun & Hd). exists e, (closed c).
    split; [apply serve_of_inl; exact Hrun | exact Hd]. }
  cbv [bind read lift py_float_str]. conn_simpl. rewrite Hrow, Hamount.
  destruct (py_float_of (option_decimal (c_price credit))) as [e1 | price].
  { do 2 eexists. split; reflexivity. }
  match goal with
  | |- exists e c, match ?m ?c0 with _ => _ end = _ /\ _ =>
      pose proof (quiet_insert_transaction mysql_decimal _ _ _ _ _ _ _ _ c0
                  : durable (snd (m c0)) = _) as Hins;
      destruct (m c0) as [[e2 | []] c1]
  end; cbn [snd] in Hins.
  { do 2 eexists. split; [reflexivity | exact Hins]. }
  cbn [py_ge]. rewrite Hge. cbn [py_sub].
  do 2 eexists. split; [reflexivity | exact Hins].
Qed.

(** [x > d] and [x < d] decide the test [amount >= credit['credit_amount']]. *)
Lemma float_gt_ge x c :
  Spec.float_gt_decimal x c = true -> float_ge_decimal x c = inr true.
Proof.
  unfold Spec.float_gt_decimal, float_ge_decimal.
  destruct (Prim2SF x) as [sz | si | | sf m e]; try discriminate.
  - intros H. apply Z.ltb_lt in H. f_equal. apply Z.leb_le. lia.
  - intros ->. reflexivity.
  - destruct (compare_finite_decimal sf m e c); try discriminate. reflexivity.
Qed.

Lemma float_lt_ge x c :
  Spec.float_lt_decimal x c = true -> float_ge_decimal x c = inr false.
Proof.
  unfold Spec.float_lt_decimal, float_ge_decimal.
  destruct (Prim2SF x) as [sz | si | | sf m e]; try discriminate.
  - intros H. apply Z.ltb_lt in H. f_equal. apply Z.leb_gt. lia.
  - intros ->. reflexivity.
  - destruct (compare_finite_decimal sf m e c); try discriminate. reflexivity.
Qed.

(** The only commit of [buy_credit] is the one before 'Credit purchase
    successful!'. *)

Lemma only_ret {R : Type} (done x : R) : commits_only_with done (ret x).
Proof. intros c. right. reflexivity. Qed.

Lemma only_commit_ret {R : Type} (done : R) :
  commits_only_with done (bind commit (fun _ => ret done)).
Proof. intros c. left. reflexivity. Qed.

Lemma only_bind_quiet {A R : Type} (done : R) (m : sql A) (k : A -> sql R) :
  quiet m -> (forall x, commits_only_with done (k x)) ->
  commits_only_with done (bind m k).
Proof.
  intros Hm Hk c. unfold bind. specialize (Hm c).
  destruct (m c) as [[e | x] c1]; cbn [fst snd] in *.
  - right. exact Hm.
  - destruct (Hk x c1) as [Hdone | Hsame]; [left; exact Hdone |].
    right. rewrite Hsame. exact Hm.
Qed.

Lemma buy_credit_commits_once w session method form_amount credit_id s :
  fst (buy w session method form_amount credit_id s) = BuyDone
  \/ committed (snd (buy w session method form_amount credit_id s)) = committed s.
Proof.
  unfold buy, buy_credit.
  destruct session as [user_id |]; [| right; reflexivity].
  match goal with
  | |- fst (serve ?body _ _) = _ \/ _ =>
      assert (Hbody : commits_only_with BuyDone body)
  end.
  { apply only_bind_quiet; [auto with sql |].
    intros [[credit p] |]; [| apply only_ret].
    destruct method; [apply only_ret |].
    repeat first
      [ apply only_commit_ret
      | apply only_bind_quiet;
        [ first [ solve [auto with sql]
                | apply quiet_if; [solve [auto with sql] | quiet_chain] ]
        | intro ] ]. }
  unfold serve.
  destruct (Hbody (opened s)) as [Hdone | Hsame];
    match goal with
    | |- context [let '(r, c) := ?body (opened s) in _] =>
        destruct (body (opened s)) as [r c]
    end; cbn [fst snd closed committed] in *.
  - left. rewrite Hdone. reflexivity.
  - right. exact Hsame.
Qed.


(** C2 (as the code has it): a request for more than the lot holds is not
    refused.  When its transaction row is accepted, the purchase succeeds:
    one completed transaction for the requested amount is recorded, the lot
    is marked sold with its quantity unchanged, and no lot is added. *)
Theorem buy_credit_over_quantity w user_id text credit_id s credit p amount price qa qp qt :
  select_available_credit credit_id (committed s) = Some (credit, p) ->
  float_of_str text = Some amount ->
  c_price credit = Some price ->
  mysql_decimal 12 2 (PFloat amount) = Some qa ->
  mysql_decimal 10 2 (PFloat (float_of_decimal price)) = Some qp ->
  mysql_decimal 12 2 (PFloat (PrimFloat.mul amount (float_of_decimal price))) = Some qt ->
  is_user (committed s) user_id = true ->
  is_user (committed s) (p_user_id p) = true ->
  Spec.float_gt_decimal amount (c_amount credit) = true ->
  exists s',
    buy w (Some user_id) POST (Some text) credit_id s = (BuyDone, s') /\
    transactions (committed s') =
      (transactions (committed s) ++
      [ {| t_id := next_transaction (autoinc s); t_credit_id := credit_id;
           t_buyer_id := user_id; t_seller_id := p_user_id p;
           t_amount := qa; t_price_per_unit := qp; t_total_price := qt;
           t_date := now w; t_status := t_completed |} ])%list /\
    credits (committed s') =
      update_where c_id credit_id (set_credit_status sold) (credits (committed s)) /\
    map c_amount (credits (committed s')) = map c_amount (credits (committed s)).
Proof.
  intros Hrow Hamount Hprice Hqa Hqp Hqt Hbuyer Hseller Hgt.
  destruct (buy_credit_full w user_id text credit_id s credit p amount price qa qp qt)
    as (s' & Hrun & Hs'); try assumption.
  { apply float_gt_ge. exact Hgt. }
  exists s'. split; [exact Hrun |]. rewrite Hs'.
  cbn [sold_out with_credits with_transactions credits transactions].
  split; [reflexivity |]. split; [reflexivity |].
  unfold update_where. rewrite map_map. apply map_ext.
  intros c. destruct (c_id c =? credit_id); reflexivity.
Qed.

(** C3 (as the code has it): no step of [buy_credit] compares the buyer with
    the seller.  When the owner of a lot's project buys the whole lot and the
    transaction row is accepted, the purchase succeeds and records a
    completed transaction whose buyer is its seller. *)
Theorem buy_credit_by_seller w text credit_id s credit p amount price qa qp qt :
  select_available_credit credit_id (committed s) = Some (credit, p) ->
  float_of_str text = Some amount ->
  c_price credit = Some price ->
  mysql_decimal 12 2 (PFloat amount) = Some qa ->
  mysql_decimal 10 2 (PFloat (float_of_decimal price)) = Some qp ->
  mysql_decimal 12 2 (PFloat (PrimFloat.mul amount (float_of_decimal price))) = Some qt ->
  is_user (committed s) (p_user_id p) = true ->
  float_ge_decimal amount (c_amount credit) = inr true ->
  exists s',
    buy w (Some (p_user_id p)) POST (Some text) credit_id s = (BuyDone, s') /\
    transactions (committed s') =
      (transactions (committed s) ++
      [ {| t_id := next_transaction (autoinc s); t_credit_id := credit_id;
           t_buyer_id := p_user_id p; t_seller_id := p_user_id p;
           t_amount := qa; t_price_per_unit := qp; t_total_price := qt;
           t_date := now w; t_status := t_completed |} ])%list /\
    credits (committed s') =
      update_where c_id credit_id (set_credit_status sold) (credits (committed s)).
Proof.
  intros Hrow Hamount Hprice Hqa Hqp Hqt Hseller Hge.
  destruct (buy_credit_full w (p_user_id p) text credit_id s credit p amount price qa qp qt)
    as (s' & Hrun & Hs'); try assumption.
  exists s'. split; [exact Hrun |]. rewrite Hs'. split; reflexivity.
Qed.

(** C4 (what the code does instead): a purchase of less than the lot holds
    never commits.  The split evaluates [credit['credit_amount'] - amount],
    a [Decimal] minus a [float], which raises; the handler answers with an
    error and the connection is closed without a commit, so the ledger is as
    it was: no transaction, no change to the lot, no sibling lot. *)
Theorem buy_credit_split_never_commits w user_id text credit_id s credit p amount :
  select_available_credit credit_id (committed s) = Some (credit, p) ->
  float_of_str text = Some amount ->
  Spec.float_lt_decimal amount (c_amount credit) = true ->
  exists e s',
    buy w (Some user_id) POST (Some text) credit_id s = (BuyError e, s') /\
    committed s' = committed s.
Proof.
  intros Hrow Hamount Hlt.
  apply (buy_credit_partial w user_id text credit_id s credit p amount);
    try assumption.
  apply float_lt_ge. exact Hlt.
Qed.

(** C8 (as the code has it): the total price of a purchase is a binary64
    product.  The amount is read with [float()], the lot's price is
    converted with [float()], the two floats are multiplied, and the
    transaction's [total_price] cell is what the server makes of that
    float. *)
Theorem buy_credit_total_price_is_float_product w session method form_amount credit_id s s' :
  buy w session method form_amount credit_id s = (BuyDone, s') ->
  exists text amount credit p price row,
    form_amount = Some text /\
    float_of_str text = Some amount /\
    select_available_credit credit_id (committed s) = Some (credit, p) /\
    c_price credit = Some price /\
    transactions (committed s') = (transactions (committed s) ++ [row])%list /\
    mysql_decimal 12 2 (PFloat (PrimFloat.mul amount (float_of_decimal price)))
    = Some (t_total_price row).
Proof.
  intros H. apply buy_credit_done in H.
  destruct H as (u & credit & p & text & amount & price & qa & qp & qt & H).
  decompose [and] H. clear H.
  exists text, amount, credit, p, price.
  eexists. repeat (split; [eassumption |]).
  match goal with E : committed s' = _ |- _ => rewrite E end.
  split; [reflexivity | assumption].
Qed.

End Purchases.

(** *** Purchases on the seed data

    Lot 1 of [db_setup.py] holds 5000.00 credits at 25.00 and belongs to the
    project of user 1. *)

Section SeedPurchases.
Import Py Ledger Sql Web.


(** C2 fails: user 2 asks for 6000 credits of lot 1, which holds 5000, and
    the purchase is not refused.  It records a third transaction, for 6000.00, and marks the
    lot sold. *)
Lemma buy_credit_over_quantity_is_accepted :
  Spec.float_gt_decimal 6000 500000 = true
  /\ fst (Plain.buy_credit Plain.offline (Some 2) POST (Some "6000") 1 Plain.seed) = BuyDone
  /\ map t_amount
       (transactions (committed
          (snd (Plain.buy_credit Plain.offline (Some 2) POST (Some "6000") 1 Plain.seed))))
     = [100000; 50000; 600000]
  /\ map c_status
       (credits (committed
          (snd (Plain.buy_credit Plain.offline (Some 2) POST (Some "6000") 1 Plain.seed))))
     = [sold; available]
  /\ committed (snd (Plain.buy_credit Plain.offline (Some 2) POST (Some "6000") 1 Plain.seed))
     <> committed Plain.seed.
Proof.
  repeat split; try (vm_compute; reflexivity).
  intros H. apply (f_equal (fun t => List.length (transactions t))) in H.
  vm_compute in H. discriminate H.
Qed.

(** The same request, step by step. *)
Lemma buy_credit_over_quantity_seed :
  exists s',
    Plain.buy_credit Plain.offline (Some 2) POST (Some "6000") 1 Plain.seed = (BuyDone, s') /\
    transactions (committed s') =
      (transactions (committed Plain.seed) ++
       [ {| t_id := 3; t_credit_id := 1; t_buyer_id := 2; t_seller_id := 1;
            t_amount := 600000; t_price_per_unit := 2500; t_total_price := 15000000;
            t_date := Plain.noon; t_status := t_completed |} ])%list /\
    credits (committed s') =
      update_where c_id 1 (set_credit_status sold) (credits (committed Plain.seed)) /\
    map c_amount (credits (committed s')) = map c_amount (credits (committed Plain.seed)).
Proof.
  apply (buy_credit_over_quantity Plain.float_of_str Plain.mysql_decimal
           Plain.mysql_varchar Plain.offline 2 "6000" 1 Plain.seed
           Plain.lot_one Plain.project_one 6000%float 2500 600000 2500 15000000);
    vm_compute; reflexivity.
Defined.

(** C3 fails: user 1 owns the project of lot 1 and buys the lot.  The
    purchase is not refused; its transaction has user 1 as buyer and as
    seller. *)
Lemma buy_credit_by_seller_is_accepted :
  p_user_id Plain.project_one = 1
  /\ fst (Plain.buy_credit Plain.offline (Some 1) POST (Some "5000") 1 Plain.seed) = BuyDone
  /\ map (fun t => (t_buyer_id t, t_seller_id t))
       (transactions (committed
          (snd (Plain.buy_credit Plain.offline (Some 1) POST (Some "5000") 1 Plain.seed))))
     = [(2, 1); (1, 2); (1, 1)]
  /\ map c_status
       (credits (committed
          (snd (Plain.buy_credit Plain.offline (Some 1) POST (Some "5000") 1 Plain.seed))))
     = [sold; available].
Proof. repeat split; vm_compute; reflexivity. Qed.

(** The same request, step by step. *)
Lemma buy_credit_by_seller_seed :
  exists s',
    Plain.buy_credit Plain.offline (Some 1) POST (Some "5000") 1 Plain.seed = (BuyDone, s') /\
    transactions (committed s') =
      (transactions (committed Plain.seed) ++
       [ {| t_id := 3; t_credit_id := 1; t_buyer_id := 1; t_seller_id := 1;
            t_amount := 500000; t_price_per_unit := 2500; t_total_price := 12500000;
            t_date := Plain.noon; t_status := t_completed |} ])%list /\
    credits (committed s') =
      update_where c_id 1 (set_credit_status sold) (credits (committed Plain.seed)).
Proof.
  apply (buy_credit_by_seller Plain.float_of_str Plain.mysql_decimal
           Plain.mysql_varchar Plain.offline "5000" 1 Plain.seed
           Plain.lot_one Plain.project_one 5000%float 2500 500000 2500 12500000);
    vm_compute; reflexivity.
Defined.

(** User 2 asks for 1000 of the 5000 credits of lot 1: the request ends in
    an error and the ledger is as it was. *)
Lemma buy_credit_split_never_commits_seed :
  exists e s',
    Plain.buy_credit Plain.offline (Some 2) POST (Some "1000") 1 Plain.seed
    = (BuyError e, s') /\
    committed s' = committed Plain.seed.
Proof.
  apply (buy_credit_split_never_commits Plain.float_of_str Plain.mysql_decimal
           Plain.mysql_varchar Plain.offline 2 "1000" 1 Plain.seed
           Plain.lot_one Plain.project_one 1000%float);
    vm_compute; reflexivity.
Defined.

(** What that request answers: the [TypeError] of the subtraction. *)
Lemma buy_credit_split_raises_type_error :
  Plain.buy_credit Plain.offline (Some 2) POST (Some "1000") 1 Plain.seed
  = (BuyError TypeError,
     {| committed := committed Plain.seed;
        autoinc := {| next_project := 3; next_assessment := 3; next_credit := 3;
                      next_transaction := 4; next_observation := 3; next_log := 3 |} |}).
Proof. vm_compute. reflexivity. Qed.


(** C8 fails: user 2 asks for 5000.007 credits of lot 1, at 25.00.  The
    product of the two floats is 125000.17499999999, recorded as 125000.17;
    the exact product 125000.175 is recorded as 125000.18. *)
Lemma buy_credit_total_price_drifts :
  Plain.float_of_str "5000.007" = Some 5000.007%float
  /\ PrimFloat.mul 5000.007 (float_of_decimal 2500) = 125000.17499999999%float
  /\ fst (Plain.buy_credit Plain.offline (Some 2) POST (Some "5000.007") 1 Plain.seed)
     = BuyDone
  /\ map t_total_price
       (transactions (committed
          (snd (Plain.buy_credit Plain.offline (Some 2) POST (Some "5000.007") 1
                  Plain.seed))))
     = [2500000; 1500000; 12500017]
  /\ Spec.exact_total 5000007 3 2500 = 12500018.
Proof. repeat split; vm_compute; reflexivity. Qed.

(** The total of that purchase is the cell of the product of the floats. *)
Lemma buy_credit_total_price_is_float_product_seed :
  exists text amount credit p price row,
    Some "5000.007" = Some text /\
    Plain.float_of_str text = Some amount /\
    select_available_credit 1 (committed Plain.seed) = Some (credit, p) /\
    c_price credit = Some price /\
    transactions (committed
      (snd (Plain.buy_credit Plain.offline (Some 2) POST (Some "5000.007") 1 Plain.seed)))
    = (transactions (committed Plain.seed) ++ [row])%list /\
    Plain.mysql_decimal 12 2 (PFloat (PrimFloat.mul amount (float_of_decimal price)))
    = Some (t_total_price row).
Proof.
  apply (buy_credit_total_price_is_float_product Plain.float_of_str Plain.mysql_decimal
           Plain.mysql_varchar Plain.offline (Some 2) POST (Some "5000.007") 1 Plain.seed).
  vm_compute. reflexivity.
Defined.

End SeedPurchases.

(** ** The AI collaborator: [analyze_project] and [estimate_fallback] *)

Section Analysis.
Import Py Ledger Sql Web.
Variable float_of_str : string -> option float.

Lemma dict_get_remove_other d k k' x :
  k <> k' -> dict_get (dict_remove d k) k' x = dict_get d k' x.
Proof.
  intros Hk. induction d as [| [k0 v0] d IH]; simpl; [reflexivity |].
  destruct (String.eqb k0 k) eqn:E0.
  - apply String.eqb_eq in E0. subst k0.
    destruct (String.eqb k k') eqn:E1; [| exact IH].
    apply String.eqb_eq in E1. contradiction.
  - simpl. destruct (String.eqb k0 k'); [reflexivity | exact IH].
Qed.

Lemma dict_get_set_same d k v x : dict_get (dict_set d k v) k x = v.
Proof.
  induction d as [| [k0 v0] d IH]; simpl.
  - rewrite String.eqb_refl. reflexivity.
  - destruct (String.eqb k0 k) eqn:E0; simpl.
    + rewrite String.eqb_refl. reflexivity.
    + rewrite E0. exact IH.
Qed.

Lemma dict_get_set_other d k v k' x :
  k <> k' -> dict_get (dict_set d k v) k' x = dict_get d k' x.
Proof.
  intros Hk. induction d as [| [k0 v0] d IH]; simpl.
  - destruct (String.eqb k k') eqn:E; [| reflexivity].
    apply String.eqb_eq in E. contradiction.
  - destruct (String.eqb k0 k) eqn:E0; simpl.
    + apply String.eqb_eq in E0. subst k0.
      destruct (String.eqb k k') eqn:E1.
      * apply String.eqb_eq in E1. contradiction.
      * apply dict_get_remove_other. exact Hk.
    + destruct (String.eqb k0 k'); [reflexivity | exact IH].
Qed.

(** The table of [estimate_fallback] is the specification's. *)
Lemma rates_get_annual_rate t : rates_get rates t 1%float = Spec.annual_rate t.
Proof.
  unfold rates, Spec.annual_rate. cbn [rates_get].
  rewrite !(String.eqb_sym t).
  repeat match goal with
         | |- context [String.eqb ?a t] => destruct (String.eqb a t)
         end; reflexivity.
Qed.

Lemma estimate_fallback_rounds pd :
  estimate_fallback pd = py_round2 (Spec.fallback_estimate pd).
Proof.
  unfold estimate_fallback, Spec.fallback_estimate, Spec.area_in_acres.
  rewrite rates_get_annual_rate. reflexivity.
Qed.

(** C5 (as the code has it): when the [try] block of [analyze_project]
    raises -- the call fails, or its reply cannot be used -- the result is
    the fallback dict: its carbon estimate is area_in_acres x annual_rate
    rounded to two places by [round(_, 2)], its confidence score is 70, its
    methodology label is fixed and its model version is 'fallback'. *)
Theorem analyze_project_fallback reply pd e :
  analyze_project_try float_of_str reply = inl e ->
  analyze_project float_of_str reply pd = fallback_result pd
  /\ dict_get (analyze_project float_of_str reply pd) "carbon_estimate" PNone
     = PFloat (py_round2 (Spec.fallback_estimate pd))
  /\ dict_get (analyze_project float_of_str reply pd) "confidence_score" PNone = PInt 70
  /\ dict_get (analyze_project float_of_str reply pd) "methodology" PNone
     = PStr "AI-assisted estimation with standard factors"
  /\ dict_get (analyze_project float_of_str reply pd) "model_version" PNone
     = PStr "fallback".
Proof.
  intros H. unfold analyze_project. rewrite H.
  split; [reflexivity |].
  split; [cbn [fallback_result dict_get String.eqb Ascii.eqb Bool.eqb];
          rewrite estimate_fallback_rounds; reflexivity |].
  repeat split; reflexivity.
Qed.

(** C10: a reply that reads as a JSON object whose [carbon_estimate] is a
    string without 'tons CO2e/year' comes back as it is, with
    [carbon_estimate] set to 0.0 and [model_version] set to 'gpt-4', its
    other fields kept; it is not the fallback dict, whatever the fallback
    estimate would be. *)
Theorem analyze_project_unexpected_unit result text pd :
  dict_get result "carbon_estimate" (PStr "") = PStr text ->
  str_in "tons CO2e/year" text = false ->
  analyze_project float_of_str (AIContent (Some (PDict result))) pd
  = dict_set (dict_set result "model_version" (PStr "gpt-4"))
             "carbon_estimate" (PFloat 0)
  /\ dict_get (analyze_project float_of_str (AIContent (Some (PDict result))) pd)
              "carbon_estimate" PNone = PFloat 0
  /\ dict_get (analyze_project float_of_str (AIContent (Some (PDict result))) pd)
              "model_version" PNone = PStr "gpt-4"
  /\ (forall k x, k <> "carbon_estimate" -> k <> "model_version" ->
        dict_get (analyze_project float_of_str (AIContent (Some (PDict result))) pd) k x
        = dict_get result k x)
  /\ analyze_project float_of_str (AIContent (Some (PDict result))) pd
     <> fallback_result pd.
Proof.
  intros Hfield Hunit.
  assert (Hrun : analyze_project float_of_str (AIContent (Some (PDict result))) pd
                 = dict_set (dict_set result "model_version" (PStr "gpt-4"))
                            "carbon_estimate" (PFloat 0)).
  { unfold analyze_project, analyze_project_try. rewrite Hfield.
    cbn [py_in]. rewrite Hunit. reflexivity. }
  rewrite Hrun.
  split; [reflexivity |].
  split; [apply dict_get_set_same |].
  split.
  { rewrite dict_get_set_other by discriminate. apply dict_get_set_same. }
  split.
  { intros k x Hk1 Hk2.
    rewrite dict_get_set_other by (intros E; apply Hk1; symmetry; exact E).
    apply dict_get_set_other. intros E. apply Hk2. symmetry. exact E. }
  intros E.
  apply (f_equal (fun d => dict_get d "model_version" PNone)) in E.
  rewrite dict_get_set_other in E by discriminate.
  rewrite dict_get_set_same in E. discriminate E.
Qed.

End Analysis.

(** C5 fails as stated: for a hundredth of a hectare of forest the fallback
    estimate is 0.09, which is not 0.01 x 2.47 x 3.5; the specification's
    own example, 100 hectares of forest, gives 864.5 only after the
    rounding. *)
Lemma fallback_estimate_is_rounded :
  Py.dict_get (analyze_project Plain.float_of_str Web.AIRaises Plain.forest_small)
    "carbon_estimate" Py.PNone = Py.PFloat 0.09
  /\ Spec.fallback_estimate Plain.forest_small = 0.086450000000000013%float
  /\ PrimFloat.eqb (estimate_fallback Plain.forest_small)
       (Spec.fallback_estimate Plain.forest_small) = false
  /\ Spec.fallback_estimate Plain.forest_100ha = 864.50000000000011%float.
Proof. repeat split; vm_compute; reflexivity. Qed.

(** The AI call raises for 100 hectares of forest: the estimate is 864.5. *)
Lemma analyze_project_fallback_forest :
  analyze_project Plain.float_of_str Web.AIRaises Plain.forest_100ha
  = fallback_result Plain.forest_100ha
  /\ Py.dict_get (analyze_project Plain.float_of_str Web.AIRaises Plain.forest_100ha)
       "carbon_estimate" Py.PNone = Py.PFloat 864.5
  /\ Py.dict_get (analyze_project Plain.float_of_str Web.AIRaises Plain.forest_100ha)
       "confidence_score" Py.PNone = Py.PInt 70.
Proof.
  destruct (analyze_project_fallback Plain.float_of_str Web.AIRaises Plain.forest_100ha
              Py.APIError eq_refl) as (H1 & H2 & H3 & _).
  split; [exact H1 |]. split; [| exact H3].
  rewrite H2. vm_compute. reflexivity.
Defined.

(** A reply in another unit keeps its fields and gets a zero estimate. *)
Lemma analyze_project_unexpected_unit_reply :
  Py.dict_get
    (analyze_project Plain.float_of_str
       (Web.AIContent (Some (Py.PDict Plain.reply_other_unit))) Plain.forest_100ha)
    "carbon_estimate" Py.PNone = Py.PFloat 0
  /\ Py.dict_get
       (analyze_project Plain.float_of_str
          (Web.AIContent (Some (Py.PDict Plain.reply_other_unit))) Plain.forest_100ha)
       "model_version" Py.PNone = Py.PStr "gpt-4".
Proof.
  destruct (analyze_project_unexpected_unit Plain.float_of_str Plain.reply_other_unit
              "1200 tCO2e per year" Plain.forest_100ha eq_refl eq_refl)
    as (_ & H1 & H2 & _).
  split; [exact H1 | exact H2].
Defined.

(** ** What the reference server reads back of a float

    [generate_report] writes [float(carbon_estimate)] into a
    [DECIMAL(12,2)] column.  A two-place decimal below [10^10] has at most
    twelve digits, which binary64 carries: the reference server reads back
    the decimal [float] was given. *)

Section ReadBack.
Import Py.








End ReadBack.

(** ** The Credit Issuer: [generate_report] *)

Section Issuer.
Import Py Ledger Sql Web.
Variable mysql_decimal : Z -> Z -> pyval -> option Z.
Variable mysql_varchar : Z -> pyval -> option string.

Let report := generate_report mysql_decimal mysql_varchar.

Lemma has_key_update_where {A : Type} (key : A -> Z) k k' f (l : list A) :
  (forall r, key (f r) = key r) ->
  has_key key k (update_where key k' f l) = has_key key k l.
Proof.
  intros Hf. unfold has_key, update_where. induction l as [| r l IH]; simpl;
    [reflexivity |].
  rewrite IH. destruct (key r =? k'); [rewrite Hf |]; reflexivity.
Qed.

Lemma select_own_project_key project_id user_id t p :
  select_own_project project_id user_id t = Some p ->
  p_id p = project_id /\ p_user_id p = user_id /\ In p (projects t)
  /\ has_key p_id project_id (projects t) = true.
Proof.
  unfold select_own_project, has_key. intros H. apply find_some in H.
  destruct H as [Hin Hp]. apply andb_true_iff in Hp. destruct Hp as [Hid Hu].
  repeat split.
  - apply Z.eqb_eq. exact Hid.
  - apply Z.eqb_eq. exact Hu.
  - exact Hin.
  - apply existsb_exists. exists p. split; assumption.
Qed.

Lemma select_project_with_assessment_inv project_id user_id t p a :
  select_project_with_assessment project_id user_id t = Some (p, a) ->
  select_own_project project_id user_id t = Some p
  /\ latest_assessment (assessments t) project_id = Some a.
Proof.
  unfold select_project_with_assessment.
  destruct (select_own_project project_id user_id t) as [p0 |]; [| discriminate].
  destruct (latest_assessment (assessments t) project_id) as [a0 |]; [| discriminate].
  intros H. inversion H. split; reflexivity.
Qed.

(** [timedelta(days=365*5)] moves the date by 1825 days. *)
Lemma date_after_five_times_365 t :
  Cal.date_of (t + Cal.five_times_365 * 86400) = Cal.date_of t + 1825.
Proof.
  unfold Cal.date_of, Cal.five_times_365.
  rewrite Z.div_add by lia. lia.
Qed.

Lemma in_update_where {A : Type} (key : A -> Z) k f (l : list A) r :
  In r l -> key r = k -> In (f r) (update_where key k f l).
Proof.
  intros Hin Hk. unfold update_where.
  apply in_map_iff. exists r. split; [| exact Hin].
  rewrite Hk, Z.eqb_refl. reflexivity.
Qed.


(** Conversely, a report that is issued went through every step. *)
Lemma generate_report_issued w session project_id s s' :
  report w session project_id s = (ReportIssued, s') ->
  exists user_id p a,
    session = Some user_id /\
    select_project_with_assessment project_id user_id (committed s) = Some (p, a) /\
    projects (committed s') =
      update_where p_id project_id (set_project_status verified) (projects (committed s)).
Proof.
  unfold report, generate_report. intros H.
  destruct session as [user_id |]; [| discriminate H].
  apply serve_inr in H; [| discriminate].
  destruct H as (c & H & ->).
  sql_inv H. conn_simpl.
  exists user_id, p, a. repeat split; try assumption.
Qed.


End Issuer.

(** *** A report on the seed data

    User 1 asks for the report of project 1 at noon of 2026-11-03; its
    latest assessment estimates 5000.00. *)



(** ** Views of the ledger that a computation leaves alone *)

Section Stability.
Import Py Ledger Sql.
Context {X : Type} (f : tables -> X).

Lemma stable_ret {A : Type} (x : A) : stable f (ret x).
Proof. intros c y Hd Hw. split; assumption. Qed.

Lemma stable_raise {A : Type} (e : exn) : stable f (@raise A e).
Proof. intros c y Hd Hw. split; assumption. Qed.

Lemma stable_lift {A : Type} (r : result A) : stable f (lift r).
Proof. intros c y Hd Hw. split; assumption. Qed.

Lemma stable_read {A : Type} (q : tables -> A) : stable f (read q).
Proof. intros c y Hd Hw. split; assumption. Qed.

Lemma stable_last : stable f select_last_insert_id.
Proof. intros c y Hd Hw. split; assumption. Qed.

Lemma stable_fresh next bump : stable f (fresh next bump).
Proof. intros c y Hd Hw. split; assumption. Qed.

Lemma stable_require ok e : stable f (require ok e).
Proof. intros c y Hd Hw. split; assumption. Qed.

Lemma stable_commit : stable f commit.
Proof. intros c y Hd Hw. split; assumption. Qed.

Lemma stable_write (g : tables -> tables) :
  (forall t, f (g t) = f t) -> stable f (write g).
Proof.
  intros Hg c y Hd Hw. split; [assumption |].
  cbn [write snd working]. rewrite Hg. assumption.
Qed.

Lemma stable_bind {A B : Type} (m : sql A) (k : A -> sql B) :
  stable f m -> (forall x, stable f (k x)) -> stable f (bind m k).
Proof.
  intros Hm Hk c y Hd Hw. unfold bind. specialize (Hm c y Hd Hw).
  destruct (m c) as [[e | x] c1]; cbn [snd] in *; [exact Hm |].
  destruct Hm as [Hd1 Hw1]. exact (Hk x c1 y Hd1 Hw1).
Qed.

Lemma stable_try_except {A : Type} (m : sql A) (h : exn -> sql A) :
  stable f m -> (forall e, stable f (h e)) -> stable f (try_except m h).
Proof.
  intros Hm Hh c y Hd Hw. unfold try_except. specialize (Hm c y Hd Hw).
  destruct (m c) as [[e | x] c1]; cbn [snd] in *; [| exact Hm].
  destruct Hm as [Hd1 Hw1]. exact (Hh e c1 y Hd1 Hw1).
Qed.

End Stability.

#[export] Hint Resolve stable_ret stable_raise stable_lift stable_read stable_last
  stable_fresh stable_require stable_commit : sql.

(** Proves that a chain of statements leaves a view of the ledger alone. *)
Ltac stable_chain :=
  repeat (apply stable_bind; [| intro]);
  first [ apply stable_write; intros; reflexivity | solve [auto with sql] ].

(** ** The project lifecycle *)

Section Lifecycle.
Import Py Ledger Sql Web.
Variable float_of_str : string -> option float.
Variable mysql_decimal : Z -> Z -> pyval -> option Z.
Variable mysql_varchar : Z -> pyval -> option string.

Let assess := project_assessment float_of_str mysql_decimal mysql_varchar.
Let report := generate_report mysql_decimal mysql_varchar.

Lemma serve_store {R : Type} (body : sql R) (h : exn -> R) s :
  snd (serve body h s) = closed (snd (body (opened s))).
Proof. unfold serve. destruct (body (opened s)) as [r c]. reflexivity. Qed.

(** Whatever becomes of the assessment, the status written first stays. *)
Lemma project_assessment_projects w user_id project_id s p :
  select_own_project project_id user_id (committed s) = Some p ->
  projects (committed (snd (assess w (Some user_id) project_id s)))
  = update_where p_id project_id (set_project_status assessing) (projects (committed s)).
Proof.
  intros Hown. unfold assess, project_assessment.
  rewrite serve_store.
  erewrite bind_of_inr by reflexivity.
  conn_simpl. rewrite Hown.
  erewrite bind_of_inr by reflexivity.
  erewrite bind_of_inr by reflexivity.
  cbn [closed committed].
  match goal with
  | |- projects (durable (snd (?m ?c))) = ?x =>
      assert (Hm : stable projects m); [| exact (proj1 (Hm c x eq_refl eq_refl))]
  end.
  apply stable_try_except; [| intro; auto with sql].
  stable_chain.
Qed.

(** C9 (as the code has it): the handlers write a project's status without
    looking at it.  Viewing the assessment of one's project sets the status
    to assessing, and issuing its report sets it to verified, whatever the
    status was; no transition is refused. *)
Theorem project_status_is_overwritten :
  (forall w user_id project_id s p,
      select_own_project project_id user_id (committed s) = Some p ->
      projects (committed (snd (assess w (Some user_id) project_id s)))
      = update_where p_id project_id (set_project_status assessing)
          (projects (committed s))
      /\ In (set_project_status assessing p)
            (projects (committed (snd (assess w (Some user_id) project_id s)))))
  /\ (forall w session project_id s s',
        report w session project_id s = (ReportIssued, s') ->
        projects (committed s')
        = update_where p_id project_id (set_project_status verified)
            (projects (committed s))).
Proof.
  split.
  - intros w user_id project_id s p Hown.
    rewrite (project_assessment_projects w user_id project_id s p Hown).
    split; [reflexivity |].
    destruct (select_own_project_key _ _ _ _ Hown) as (Hid & _ & Hin & _).
    apply in_update_where; assumption.
  - intros w session project_id s s' H.
    apply generate_report_issued in H.
    destruct H as (u & p & a & _ & _ & H). exact H.
Qed.

End Lifecycle.

(** C9 fails: on the seed data project 1 goes from registered straight to
    verified when its report is issued, and back to assessing when its
    owner then views the assessment page; neither request is refused. *)
Lemma project_status_moves_backward :
  map Ledger.p_status (Ledger.projects (Ledger.committed Plain.seed))
  = [Ledger.registered; Ledger.registered]
  /\ fst (Plain.generate_report Plain.offline (Some 1) 1 Plain.seed) = Web.ReportIssued
  /\ map Ledger.p_status (Ledger.projects (Ledger.committed Plain.after_report))
     = [Ledger.verified; Ledger.registered]
  /\ (exists a, fst (Plain.project_assessment Plain.offline (Some 1) 1 Plain.after_report)
                = Web.AssessmentPage (Some a) None)
  /\ map Ledger.p_status
       (Ledger.projects (Ledger.committed
          (snd (Plain.project_assessment Plain.offline (Some 1) 1 Plain.after_report))))
     = [Ledger.assessing; Ledger.registered].
Proof.
  repeat split; try (vm_compute; reflexivity).
  eexists. vm_compute. reflexivity.
Qed.

(** The owner of project 1 views its assessment after the report. *)
Lemma project_status_is_overwritten_seed :
  Ledger.projects (Ledger.committed
    (snd (Plain.project_assessment Plain.offline (Some 1) 1 Plain.after_report)))
  = Ledger.update_where Ledger.p_id 1 (Ledger.set_project_status Ledger.assessing)
      (Ledger.projects (Ledger.committed Plain.after_report)).
Proof.
  refine (proj1 (proj1 (project_status_is_overwritten Plain.float_of_str
                          Plain.mysql_decimal Plain.mysql_varchar)
                   Plain.offline 1 1 Plain.after_report
                   (Ledger.set_project_status Ledger.verified Plain.project_one) _)).
  vm_compute. reflexivity.
Defined.

(** ** The rows a request adds *)

Section Recorder.
Import Py Ledger Sql Web.

Lemma bind_lift {A B : Type} (r : result A) (k : A -> sql B) c :
  bind (lift r) k c = match r with inl e => (inl e, c) | inr x => k x c end.
Proof. destruct r; reflexivity. Qed.

Lemma rows_added_none t0 t :
  observations t = observations t0 -> assessments t = assessments t0 ->
  logs t = logs t0 -> rows_added t0 t 0 0 0.
Proof.
  intros Ho Ha Hl. exists [], [], []. rewrite !app_nil_r. repeat split; assumption.
Qed.

Lemma rows_added_observation t0 t o :
  observations t = (observations t0 ++ [o])%list -> assessments t = assessments t0 ->
  logs t = logs t0 -> rows_added t0 t 1 0 0.
Proof.
  intros Ho Ha Hl. exists [o], [], []. rewrite !app_nil_r. repeat split; assumption.
Qed.

Lemma rows_added_assessment t0 t o a :
  observations t = (observations t0 ++ [o])%list ->
  assessments t = (assessments t0 ++ [a])%list ->
  logs t = logs t0 -> rows_added t0 t 1 1 0.
Proof.
  intros Ho Ha Hl. exists [o], [a], []. rewrite !app_nil_r. repeat split; assumption.
Qed.

Lemma rows_added_log t0 t o a l :
  observations t = (observations t0 ++ [o])%list ->
  assessments t = (assessments t0 ++ [a])%list ->
  logs t = (logs t0 ++ [l])%list -> rows_added t0 t 1 1 1.
Proof.
  intros Ho Ha Hl. exists [o], [a], [l]. repeat split; assumption.
Qed.

End Recorder.

(** ** More of [analyze_project] *)

Section Replies.
Import Py Ledger Sql Web.
Variable float_of_str : string -> option float.

(** X1: a reply whose [carbon_estimate] is a string that holds
    'tons CO2e/year' and starts with a number is read: the result is the
    reply with [carbon_estimate] set to the float of what stands before the
    first space and [model_version] set to 'gpt-4', its other fields kept. *)
Theorem analyze_project_reads_estimate result text x pd :
  dict_get result "carbon_estimate" (PStr "") = PStr text ->
  str_in "tons CO2e/year" text = true ->
  float_of_str (split_space_first text) = Some x ->
  analyze_project float_of_str (AIContent (Some (PDict result))) pd
  = dict_set (dict_set result "model_version" (PStr "gpt-4"))
             "carbon_estimate" (PFloat x)
  /\ dict_get (analyze_project float_of_str (AIContent (Some (PDict result))) pd)
              "carbon_estimate" PNone = PFloat x
  /\ dict_get (analyze_project float_of_str (AIContent (Some (PDict result))) pd)
              "model_version" PNone = PStr "gpt-4"
  /\ (forall k d, k <> "carbon_estimate" -> k <> "model_version" ->
        dict_get (analyze_project float_of_str (AIContent (Some (PDict result))) pd) k d
        = dict_get result k d).
Proof.
  intros Hfield Hunit Hx.
  assert (Hrun : analyze_project float_of_str (AIContent (Some (PDict result))) pd
                 = dict_set (dict_set result "model_version" (PStr "gpt-4"))
                            "carbon_estimate" (PFloat x)).
  { unfold analyze_project, analyze_project_try. rewrite Hfield.
    cbn [py_in py_split_first]. rewrite Hunit. unfold py_float_str. rewrite Hx.
    reflexivity. }
  rewrite Hrun.
  split; [reflexivity |].
  split; [apply dict_get_set_same |].
  split.
  { rewrite dict_get_set_other by discriminate. apply dict_get_set_same. }
  intros k d Hk1 Hk2.
  rewrite dict_get_set_other by (intros E; apply Hk1; symmetry; exact E).
  apply dict_get_set_other. intros E. apply Hk2. symmetry. exact E.
Qed.

(** X2: a reply that gives [carbon_estimate] as a JSON number, [true],
    [false] or [null] is thrown away: ['tons CO2e/year' in] such a value
    raises, and the result is the fallback dict. *)
Theorem analyze_project_number_falls_back result pd :
  match dict_get result "carbon_estimate" (PStr "") with
  | PNone | PBool _ | PInt _ | PFloat _ => true
  | _ => false
  end = true ->
  analyze_project float_of_str (AIContent (Some (PDict result))) pd = fallback_result pd.
Proof.
  unfold analyze_project, analyze_project_try.
  destruct (dict_get result "carbon_estimate" (PStr "")); intros H;
    try discriminate H; reflexivity.
Qed.

(** X3: a reply whose [carbon_estimate] holds 'tons CO2e/year' but does not
    start with a number that [float] reads is thrown away too: the result is
    the fallback dict. *)
Theorem analyze_project_unreadable_number_falls_back result text pd :
  dict_get result "carbon_estimate" (PStr "") = PStr text ->
  str_in "tons CO2e/year" text = true ->
  float_of_str (split_space_first text) = None ->
  analyze_project float_of_str (AIContent (Some (PDict result))) pd = fallback_result pd.
Proof.
  intros Hfield Hunit Hx.
  unfold analyze_project, analyze_project_try. rewrite Hfield.
  cbn [py_in py_split_first]. rewrite Hunit. unfold py_float_str. rewrite Hx.
  reflexivity.
Qed.

(** X4: whatever the AI collaborator does, the dict [analyze_project]
    returns holds a float under [carbon_estimate] and 'gpt-4' or 'fallback'
    under [model_version]. *)
Theorem analyze_project_result_shape reply pd :
  (exists x, dict_get (analyze_project float_of_str reply pd) "carbon_estimate" PNone
             = PFloat x)
  /\ (dict_get (analyze_project float_of_str reply pd) "model_version" PNone = PStr "gpt-4"
      \/ dict_get (analyze_project float_of_str reply pd) "model_version" PNone
         = PStr "fallback").
Proof.
  unfold analyze_project.
  destruct (analyze_project_try float_of_str reply) as [e | r] eqn:E.
  - split; [eexists; reflexivity | right; reflexivity].
  - assert (exists d x, r = dict_set (dict_set d "model_version" (PStr "gpt-4"))
                               "carbon_estimate" (PFloat x)) as (d & x & ->).
    { unfold analyze_project_try in E.
      destruct reply as [| [[| | | | | | | d] |]]; try discriminate E.
      destruct (py_in _ _) as [e1 | has]; [discriminate E |].
      match type of E with
      | match ?m with _ => _ end = _ => destruct m as [e2 | x]; [discriminate E |]
      end.
      inversion E. eauto. }
    split.
    + exists x. apply dict_get_set_same.
    + left. rewrite dict_get_set_other by discriminate. apply dict_get_set_same.
Qed.

End Replies.

(** '120.5 tons CO2e/year' is read as 120.5. *)
Lemma analyze_project_reads_estimate_reply :
  Py.dict_get
    (analyze_project Plain.float_of_str
       (Web.AIContent (Some (Py.PDict Plain.reply_with_unit))) Plain.forest_100ha)
    "carbon_estimate" Py.PNone = Py.PFloat 120.5
  /\ Py.dict_get
       (analyze_project Plain.float_of_str
          (Web.AIContent (Some (Py.PDict Plain.reply_with_unit))) Plain.forest_100ha)
       "confidence_score" Py.PNone = Py.PInt 85.
Proof.
  destruct (analyze_project_reads_estimate Plain.float_of_str Plain.reply_with_unit
              "120.5 tons CO2e/year" 120.5%float Plain.forest_100ha
              eq_refl eq_refl eq_refl) as (_ & H1 & _ & H2).
  split; [exact H1 |].
  rewrite H2 by discriminate. reflexivity.
Defined.

(** An estimate of 1200.5 given as a number: the result is the fallback
    estimate for the project, 864.5. *)
Lemma analyze_project_number_falls_back_reply :
  Py.dict_get
    (analyze_project Plain.float_of_str
       (Web.AIContent (Some (Py.PDict Plain.reply_with_number))) Plain.forest_100ha)
    "carbon_estimate" Py.PNone = Py.PFloat 864.5.
Proof.
  rewrite (analyze_project_number_falls_back Plain.float_of_str Plain.reply_with_number
             Plain.forest_100ha eq_refl).
  vm_compute. reflexivity.
Defined.

(** 'about 120 tons CO2e/year': the result is the fallback dict. *)
Lemma analyze_project_unreadable_number_falls_back_reply :
  analyze_project Plain.float_of_str
    (Web.AIContent (Some (Py.PDict Plain.reply_with_words))) Plain.forest_100ha
  = fallback_result Plain.forest_100ha.
Proof.
  apply (analyze_project_unreadable_number_falls_back Plain.float_of_str
           Plain.reply_with_words "about 120 tons CO2e/year" Plain.forest_100ha);
    reflexivity.
Defined.

(** ** More of [buy_credit] *)

Section Exchange.
Import Py Ledger Sql Web.
Variable float_of_str : string -> option float.
Variable mysql_decimal : Z -> Z -> pyval -> option Z.
Variable mysql_varchar : Z -> pyval -> option string.

Let buy := buy_credit float_of_str mysql_decimal mysql_varchar.

Lemma closed_opened s : closed (opened s) = s.
Proof. destruct s. reflexivity. Qed.

Lemma select_available_credit_none credit_id t :
  (forall c, In c (credits t) -> c_id c = credit_id -> c_status c <> available) ->
  select_available_credit credit_id t = None.
Proof.
  intros H. unfold select_available_credit.
  destruct (find _ (credits t)) as [c |] eqn:F; [| reflexivity].
  apply find_some in F. destruct F as [Hin Hc].
  apply andb_true_iff in Hc. destruct Hc as [Hid Hst].
  apply Z.eqb_eq in Hid. exfalso. apply (H c Hin Hid).
  destruct (c_status c); try discriminate Hst. reflexivity.
Qed.

(** When the query finds no available lot, the answer is 'Credit not
    available for purchase' and nothing is touched. *)
Lemma buy_credit_not_available w user_id method form_amount credit_id s :
  select_available_credit credit_id (committed s) = None ->
  buy w (Some user_id) method form_amount credit_id s = (BuyNotAvailable, s).
Proof.
  intros H. unfold buy, buy_credit.
  erewrite serve_of_inr; [rewrite closed_opened; reflexivity |].
  cbv [bind read]. conn_simpl. rewrite H. reflexivity.
Qed.

Lemma sold_lot_not_available credit_id t row c :
  In c (credits (sold_out t credit_id row)) -> c_id c = credit_id ->
  c_status c <> available.
Proof.
  unfold sold_out, update_where. cbn [credits with_credits].
  intros Hin Hid. apply in_map_iff in Hin. destruct Hin as (c0 & E & _).
  destruct (c_id c0 =? credit_id) eqn:E0.
  - subst c. discriminate.
  - subst c. apply Z.eqb_neq in E0. contradiction.
Qed.

(** X5: [buy_credit] is all or nothing.  When it answers 'Credit purchase
    successful!' the ledger has one more transaction, completed, for the lot
    and the buyer of the request, and the lot is marked sold; with any other
    answer the ledger is as it was. *)
Theorem buy_credit_all_or_nothing w session method form_amount credit_id s :
  match fst (buy w session method form_amount credit_id s) with
  | BuyDone =>
      exists row,
        committed (snd (buy w session method form_amount credit_id s))
        = sold_out (committed s) credit_id row
        /\ t_id row = next_transaction (autoinc s)
        /\ t_credit_id row = credit_id
        /\ session = Some (t_buyer_id row)
        /\ t_date row = now w
        /\ t_status row = t_completed
  | _ => committed (snd (buy w session method form_amount credit_id s)) = committed s
  end.
Proof.
  pose proof (buy_credit_commits_once float_of_str mysql_decimal mysql_varchar
                w session method form_amount credit_id s) as Honce.
  pose proof (buy_credit_done float_of_str mysql_decimal mysql_varchar
                w session method form_amount credit_id s) as Hdone.
  unfold buy.
  destruct (buy_credit float_of_str mysql_decimal mysql_varchar
              w session method form_amount credit_id s) as [out s'].
  cbn [fst snd] in *.
  destruct out;
    try (destruct Honce as [Honce | Honce]; [discriminate Honce | exact Honce]).
  destruct (Hdone s' eq_refl)
    as (u & credit & p & text & amount & price & qa & qp & qt & H).
  decompose [and] H. clear H.
  eexists. split; [eassumption |]. subst session. repeat split.
Qed.

(** X6: a lot that is unknown, or is not available (reserved, sold,
    expired), cannot be bought or even shown: the answer, to GET and to
    POST, is 'Credit not available for purchase', and the store is as it
    was. *)
Theorem buy_credit_unavailable_lot w user_id method form_amount credit_id s :
  (forall c, In c (credits (committed s)) -> c_id c = credit_id ->
             c_status c <> available) ->
  buy w (Some user_id) method form_amount credit_id s = (BuyNotAvailable, s).
Proof.
  intros H. apply buy_credit_not_available.
  apply select_available_credit_none. exact H.
Qed.

(** X7: a lot is sold once.  After a purchase that succeeded, every request
    for the same lot, by anyone, is answered 'Credit not available for
    purchase' and changes nothing. *)
Theorem buy_credit_no_second_sale w session method form_amount credit_id s s' :
  buy w session method form_amount credit_id s = (BuyDone, s') ->
  forall w' user_id' method' form_amount',
    buy w' (Some user_id') method' form_amount' credit_id s' = (BuyNotAvailable, s').
Proof.
  intros H w' user_id' method' form_amount'.
  apply buy_credit_done in H.
  destruct H as (u & credit & p & text & amount & price & qa & qp & qt & H).
  decompose [and] H. clear H.
  apply buy_credit_not_available. apply select_available_credit_none.
  match goal with E : committed s' = _ |- _ => rewrite E end.
  intros c. apply sold_lot_not_available.
Qed.

(** X8: a POST for an available lot is refused before anything is written
    when the form has no [amount] (KeyError), when [float] cannot read it
    (ValueError), or when the lot has no price (TypeError); the store,
    counters included, is as it was. *)
Theorem buy_credit_rejects_bad_form w user_id form_amount credit_id s credit p :
  select_available_credit credit_id (committed s) = Some (credit, p) ->
  (form_amount = None ->
   buy w (Some user_id) POST form_amount credit_id s = (BuyError KeyError, s))
  /\ (forall text, form_amount = Some text -> float_of_str text = None ->
      buy w (Some user_id) POST form_amount credit_id s = (BuyError ValueError, s))
  /\ (forall text amount, form_amount = Some text -> float_of_str text = Some amount ->
      c_price credit = None ->
      buy w (Some user_id) POST form_amount credit_id s = (BuyError TypeError, s)).
Proof.
  intros Hrow. unfold buy, buy_credit.
  split; [| split].
  - intros ->.
    erewrite serve_of_inl; [rewrite closed_opened; reflexivity |].
    cbv [bind read lift]. conn_simpl. rewrite Hrow. reflexivity.
  - intros text -> Htext.
    erewrite serve_of_inl; [rewrite closed_opened; reflexivity |].
    cbv [bind read lift py_float_str]. conn_simpl. rewrite Hrow, Htext. reflexivity.
  - intros text amount -> Htext Hprice.
    erewrite serve_of_inl; [rewrite closed_opened; reflexivity |].
    cbv [bind read lift py_float_str py_float_of option_decimal]. conn_simpl.
    rewrite Hrow, Htext, Hprice. reflexivity.
Qed.

(** X9: [buy_credit] never reads the expiry date of a lot.  A lot whose
    expiry date has passed and whose status is still available is sold like
    any other: the purchase of the whole lot succeeds, the lot is marked sold
    and a completed transaction dated now is recorded. *)
Theorem buy_credit_sells_an_expired_lot
    w user_id text credit_id s credit p amount price qa qp qt day :
  select_available_credit credit_id (committed s) = Some (credit, p) ->
  c_expiry_date credit = Some day ->
  day < Cal.date_of (now w) ->
  float_of_str text = Some amount ->
  c_price credit = Some price ->
  mysql_decimal 12 2 (PFloat amount) = Some qa ->
  mysql_decimal 10 2 (PFloat (float_of_decimal price)) = Some qp ->
  mysql_decimal 12 2 (PFloat (PrimFloat.mul amount (float_of_decimal price))) = Some qt ->
  is_user (committed s) user_id = true ->
  is_user (committed s) (p_user_id p) = true ->
  float_ge_decimal amount (c_amount credit) = inr true ->
  exists s',
    buy w (Some user_id) POST (Some text) credit_id s = (BuyDone, s') /\
    credits (committed s') =
      update_where c_id credit_id (set_credit_status sold) (credits (committed s)) /\
    transactions (committed s') =
      (transactions (committed s) ++
       [ {| t_id := next_transaction (autoinc s); t_credit_id := credit_id;
            t_buyer_id := user_id; t_seller_id := p_user_id p;
            t_amount := qa; t_price_per_unit := qp; t_total_price := qt;
            t_date := now w; t_status := t_completed |} ])%list.
Proof.
  intros Hrow _ _ Hamount Hprice Hqa Hqp Hqt Hbuyer Hseller Hge.
  destruct (buy_credit_full float_of_str mysql_decimal mysql_varchar
              w user_id text credit_id s credit p amount price qa qp qt)
    as (s' & Hrun & Hs'); try assumption.
  exists s'. split; [exact Hrun |]. rewrite Hs'.
  split; reflexivity.
Qed.

End Exchange.

(** No lot has the id 7. *)
Lemma buy_credit_unavailable_lot_seed :
  Plain.buy_credit Plain.offline (Some 2) Web.POST (Some "10") 7 Plain.seed
  = (Web.BuyNotAvailable, Plain.seed).
Proof.
  apply (buy_credit_unavailable_lot Plain.float_of_str Plain.mysql_decimal
           Plain.mysql_varchar Plain.offline 2 Web.POST (Some "10") 7 Plain.seed).
  intros c Hin Hid. cbn in Hin.
  destruct Hin as [<- | [<- | []]]; discriminate Hid.
Defined.

(** User 2 buys lot 1; user 1 then asks for it, an hour later. *)
Lemma buy_credit_no_second_sale_seed :
  Plain.buy_credit Plain.later (Some 1) Web.POST (Some "5000") 1
    (snd (Plain.buy_credit Plain.offline (Some 2) Web.POST (Some "5000") 1 Plain.seed))
  = (Web.BuyNotAvailable,
     snd (Plain.buy_credit Plain.offline (Some 2) Web.POST (Some "5000") 1 Plain.seed)).
Proof.
  apply (buy_credit_no_second_sale Plain.float_of_str Plain.mysql_decimal
           Plain.mysql_varchar Plain.offline (Some 2) Web.POST (Some "5000") 1 Plain.seed).
  vm_compute. reflexivity.
Defined.

(** An amount that is no number, for lot 1. *)
Lemma buy_credit_rejects_bad_form_seed :
  Plain.buy_credit Plain.offline (Some 2) Web.POST (Some "a lot") 1 Plain.seed
  = (Web.BuyError Py.ValueError, Plain.seed).
Proof.
  refine (proj1 (proj2 (buy_credit_rejects_bad_form Plain.float_of_str
                          Plain.mysql_decimal Plain.mysql_varchar Plain.offline 2
                          (Some "a lot") 1 Plain.seed Plain.lot_one Plain.project_one _))
                "a lot" eq_refl _);
    vm_compute; reflexivity.
Defined.

(** Lot 1 expired on 2028-01-01; user 2 buys it on 2029-06-01. *)
Lemma buy_credit_sells_an_expired_lot_seed :
  exists s',
    Plain.buy_credit Plain.after_expiry (Some 2) Web.POST (Some "5000") 1 Plain.seed
    = (Web.BuyDone, s') /\
    Ledger.credits (Ledger.committed s') =
      Ledger.update_where Ledger.c_id 1 (Ledger.set_credit_status Ledger.sold)
        (Ledger.credits (Ledger.committed Plain.seed)) /\
    Ledger.transactions (Ledger.committed s') =
      (Ledger.transactions (Ledger.committed Plain.seed) ++
       [ {| Ledger.t_id := 3; Ledger.t_credit_id := 1; Ledger.t_buyer_id := 2;
            Ledger.t_seller_id := 1; Ledger.t_amount := 500000;
            Ledger.t_price_per_unit := 2500; Ledger.t_total_price := 12500000;
            Ledger.t_date := Web.now Plain.after_expiry;
            Ledger.t_status := Ledger.t_completed |} ])%list.
Proof.
  apply (buy_credit_sells_an_expired_lot Plain.float_of_str Plain.mysql_decimal
           Plain.mysql_varchar Plain.after_expiry 2 "5000" 1 Plain.seed
           Plain.lot_one Plain.project_one 5000%float 2500 500000 2500 12500000
           (Cal.ymd2ord 2028 1 1));
    vm_compute; reflexivity.
Defined.

(** ** More of [generate_report] *)

Section Issued.
Import Py Ledger Sql Web.
Variable mysql_decimal : Z -> Z -> pyval -> option Z.
Variable mysql_varchar : Z -> pyval -> option string.

Let report := generate_report mysql_decimal mysql_varchar.

(** A report that was issued: every step it went through, and the ledger it
    left. *)
Lemma generate_report_issued_run w session project_id s s' :
  report w session project_id s = (ReportIssued, s') ->
  exists user_id p a q price url,
    session = Some user_id /\
    select_project_with_assessment project_id user_id (committed s) = Some (p, a) /\
    mysql_decimal 12 2 (PFloat (float_of_decimal (a_carbon_estimate a))) = Some q /\
    mysql_decimal 10 2 (PFloat 25) = Some price /\
    mysql_varchar 255 (PStr (report_url_for project_id (now w))) = Some url /\
    has_key a_id project_id (assessments (committed s)) = true /\
    existsb (fun c => String.eqb (c_certificate_id c)
                        (certificate_for project_id (token w)))
            (credits (committed s)) = false /\
    committed s' =
      with_credits
        (with_projects
           (with_assessments (committed s)
              (update_where a_id project_id (approve_assessment (Some url))
                 (assessments (committed s))))
           (update_where p_id project_id (set_project_status verified)
              (projects (committed s))))
        (credits (committed s) ++
         [ {| c_id := next_credit (autoinc s); c_project_id := project_id;
              c_assessment_id := project_id; c_amount := q;
              c_issuance_date := now w;
              c_expiry_date := Some (Cal.date_of (now w) + 1825);
              c_certificate_id := certificate_for project_id (token w);
              c_status := available; c_price := Some price;
              c_document_url := Some url |} ]).
Proof.
  unfold report, generate_report. intros H.
  destruct session as [user_id |]; [| discriminate H].
  apply serve_inr in H; [| discriminate].
  destruct H as (c & H & ->).
  sql_inv H. conn_simpl.
  destruct (select_project_with_assessment_inv _ _ _ _ _ Heqo) as [Hown _].
  destruct (select_own_project_key _ _ _ _ Hown) as (Hid & _).
  rewrite Hid in *.
  unfold varchar_cell_null in Step0, Step4.
  destruct (mysql_varchar 255 (PStr (report_url_for project_id (now w))))
    as [url |] eqn:Hurl; [| discriminate Step0].
  inversion Step0; subst; clear Step0. inversion Step4; subst; clear Step4.
  cbn [py_float_of] in Step. inversion Step; subst; clear Step.
  apply (decimal_cell_inr mysql_decimal) in Step1.
  unfold decimal_cell_null in Step2.
  destruct (mysql_decimal 10 2 (PFloat 25)) as [price |] eqn:Hprice;
    [| discriminate Step2].
  inversion Step2; subst; clear Step2.
  cbn [projects assessments credits with_projects with_assessments] in Step5.
  rewrite !has_key_update_where in Step5 by reflexivity.
  apply andb_true_iff in Step5. destruct Step5 as [Step5 Hcert].
  apply andb_true_iff in Step5. destruct Step5 as [_ Hfk].
  apply negb_true_iff in Hcert.
  exists user_id, p, a, x5, price, url.
  repeat (split; [first [reflexivity | assumption] |]).
  cbn [projects assessments credits with_projects with_assessments].
  rewrite date_after_five_times_365. reflexivity.
Qed.

(** The only commit of [generate_report] is the one before the credits are
    announced. *)
Lemma generate_report_commits_once w session project_id s :
  fst (report w session project_id s) = ReportIssued
  \/ committed (snd (report w session project_id s)) = committed s.
Proof.
  unfold report, generate_report.
  destruct session as [user_id |]; [| right; reflexivity].
  match goal with
  | |- fst (serve ?body _ _) = _ \/ _ =>
      assert (Hbody : commits_only_with ReportIssued body)
  end.
  { apply only_bind_quiet; [auto with sql |].
    intros [[p a] |]; [| apply only_ret].
    repeat first
      [ apply only_commit_ret
      | apply only_bind_quiet; [solve [auto with sql] | intro] ]. }
  unfold serve.
  destruct (Hbody (opened s)) as [Hdone | Hsame];
    match goal with
    | |- context [let '(r, c) := ?body (opened s) in _] =>
        destruct (body (opened s)) as [r c]
    end; cbn [fst snd closed committed] in *.
  - left. rewrite Hdone. reflexivity.
  - right. exact Hsame.
Qed.

End Issued.

(** ** The latest assessment of a project *)

Section Latest.
Import Py Ledger.

Lemma latest_assessment_app l a pid :
  latest_assessment (l ++ [a]) pid
  = if a_project_id a =? pid then
      match latest_assessment l pid with
      | Some b => if a_date b <=? a_date a then Some a else Some b
      | None => Some a
      end
    else latest_assessment l pid.
Proof. unfold latest_assessment. rewrite fold_left_app. reflexivity. Qed.

Lemma latest_assessment_in l pid b :
  latest_assessment l pid = Some b -> In b l /\ a_project_id b = pid.
Proof.
  revert b. induction l as [| a l IH] using rev_ind; intros b.
  - discriminate.
  - rewrite latest_assessment_app.
    destruct (a_project_id a =? pid) eqn:E.
    + apply Z.eqb_eq in E.
      destruct (latest_assessment l pid) as [b0 |].
      * destruct (a_date b0 <=? a_date a); intros H; injection H as <-.
        -- split; [apply in_or_app; right; left; reflexivity | exact E].
        -- destruct (IH b0 eq_refl) as [Hin Hp].
           split; [apply in_or_app; left; exact Hin | exact Hp].
      * intros H; injection H as <-.
        split; [apply in_or_app; right; left; reflexivity | exact E].
    + intros H. destruct (IH b H) as [Hin Hp].
      split; [apply in_or_app; left; exact Hin | exact Hp].
Qed.

Lemma latest_assessment_none l pid :
  (forall a, In a l -> a_project_id a <> pid) -> latest_assessment l pid = None.
Proof.
  intros H. destruct (latest_assessment l pid) as [b |] eqn:E; [| reflexivity].
  apply latest_assessment_in in E. destruct E as [Hin Hp].
  exfalso. exact (H b Hin Hp).
Qed.

Lemma latest_assessment_map (g : assessment -> assessment) l pid :
  (forall a, a_project_id (g a) = a_project_id a) ->
  (forall a, a_date (g a) = a_date a) ->
  latest_assessment (map g l) pid = option_map g (latest_assessment l pid).
Proof.
  intros Hp Hd. induction l as [| a l IH] using rev_ind; [reflexivity |].
  rewrite map_app. cbn [map]. rewrite !latest_assessment_app, IH, Hp, Hd.
  destruct (a_project_id a =? pid); [| reflexivity].
  destruct (latest_assessment l pid) as [b |]; cbn [option_map]; [| reflexivity].
  rewrite Hd. destruct (a_date b <=? a_date a); reflexivity.
Qed.

(** A row newer than every other row of its project is the latest. *)
Lemma latest_assessment_newest l a pid :
  a_project_id a = pid ->
  (forall b, In b l -> a_project_id b = pid -> a_date b < a_date a) ->
  latest_assessment (l ++ [a]) pid = Some a.
Proof.
  intros Hp Hnew. rewrite latest_assessment_app.
  rewrite (proj2 (Z.eqb_eq _ _) Hp).
  destruct (latest_assessment l pid) as [b |] eqn:E; [| reflexivity].
  apply latest_assessment_in in E. destruct E as [Hin Hb].
  specialize (Hnew b Hin Hb).
  destruct (a_date b <=? a_date a) eqn:L; [reflexivity |].
  apply Z.leb_gt in L. lia.
Qed.

End Latest.

(** ** The rows that statements leave *)

Section Rows.
Import Py Ledger Sql Web.
Variable mysql_decimal : Z -> Z -> pyval -> option Z.
Variable mysql_varchar : Z -> pyval -> option string.
Variable mysql_project : project_form -> option project_cells.

Lemma varchar_cell_inr n v z :
  varchar_cell mysql_varchar n v = inr z -> mysql_varchar n v = Some z.
Proof.
  unfold varchar_cell. destruct v; try discriminate;
    destruct (mysql_varchar n _); intros H; inversion H; reflexivity.
Qed.

Lemma json_cell_inr v x : json_cell v = inr x -> x = v /\ json_storable v = true.
Proof.
  unfold json_cell. destruct (json_storable v); intros H; inversion H.
  split; reflexivity.
Qed.

(** What an accepted [INSERT INTO projects] leaves: the row, with the next
    id, the form's cells and the status [registered]. *)
Lemma insert_project_inr uid form t c c' :
  insert_project mysql_project uid form t c = (inr tt, c') ->
  exists cells,
    mysql_project form = Some cells /\
    is_user (working c) uid = true /\
    c' = {| durable := durable c;
            working := with_projects (working c) (projects (working c) ++ [
              {| p_id := next_project (seqs c); p_user_id := uid;
                 p_name := f_project_name form;
                 p_type := k_type cells; p_lat := k_lat cells; p_lng := k_lng cells;
                 p_area_size := k_area_size cells; p_area_unit := k_area_unit cells;
                 p_description := f_description form;
                 p_start_date := k_start_date cells;
                 p_created_at := t; p_status := registered;
                 p_boundary := f_boundary_geojson form |}]);
            seqs := {| next_project := next_project (seqs c) + 1;
                       next_assessment := next_assessment (seqs c);
                       next_credit := next_credit (seqs c);
                       next_transaction := next_transaction (seqs c);
                       next_observation := next_observation (seqs c);
                       next_log := next_log (seqs c) |};
            last_insert_id := next_project (seqs c) |}.
Proof.
  intros H. sql_inv H. conn_simpl.
  destruct (mysql_project form) as [cells |]; [| discriminate].
  injection Step as <-.
  exists cells. repeat split. assumption.
Qed.

(** What an accepted [INSERT INTO satellite_data] leaves. *)
Lemma insert_observation_inr pid t sat c c' :
  insert_observation mysql_decimal mysql_varchar pid t sat c = (inr tt, c') ->
  exists ndvi cover cloud source raw processed,
    has_key p_id pid (projects (working c)) = true /\
    c' = {| durable := durable c;
            working := with_observations (working c) (observations (working c) ++ [
              {| o_id := next_observation (seqs c); o_project_id := pid;
                 o_capture_date := Cal.date_of t;
                 o_ndvi := ndvi; o_land_cover := cover; o_cloud_cover := cloud;
                 o_source := source; o_raw_url := raw; o_processed_url := processed |}]);
            seqs := {| next_project := next_project (seqs c);
                       next_assessment := next_assessment (seqs c);
                       next_credit := next_credit (seqs c);
                       next_transaction := next_transaction (seqs c);
                       next_observation := next_observation (seqs c) + 1;
                       next_log := next_log (seqs c) |};
            last_insert_id := next_observation (seqs c) |}.
Proof.
  intros H. sql_inv H. conn_simpl.
  do 6 eexists. split; [eassumption | reflexivity].
Qed.

(** What an accepted [INSERT INTO carbon_assessments] leaves: a pending
    row whose cells are read from the result of the analysis. *)
Lemma insert_assessment_inr pid t res zero c c' :
  insert_assessment mysql_decimal mysql_varchar pid t res zero c = (inr tt, c') ->
  exists estimate confidence methodology version,
    mysql_decimal 12 2 (dict_get res "carbon_estimate" zero) = Some estimate /\
    mysql_decimal 5 2 (dict_get res "confidence_score" zero) = Some confidence /\
    mysql_varchar 100 (dict_get res "methodology" (PStr "AI-based assessment"))
    = Some methodology /\
    mysql_varchar 50 (dict_get res "model_version" (PStr "gpt-4")) = Some version /\
    has_key p_id pid (projects (working c)) = true /\
    c' = {| durable := durable c;
            working := with_assessments (working c) (assessments (working c) ++ [
              {| a_id := next_assessment (seqs c); a_project_id := pid; a_date := t;
                 a_carbon_estimate := estimate; a_confidence_score := confidence;
                 a_methodology := methodology;
                 a_data_sources := dict_get res "data_sources" (PDict []);
                 a_model_version := version; a_verification := v_pending;
                 a_report_url := None |}]);
            seqs := {| next_project := next_project (seqs c);
                       next_assessment := next_assessment (seqs c) + 1;
                       next_credit := next_credit (seqs c);
                       next_transaction := next_transaction (seqs c);
                       next_observation := next_observation (seqs c);
                       next_log := next_log (seqs c) |};
            last_insert_id := next_assessment (seqs c) |}.
Proof.
  intros H. sql_inv H. conn_simpl.
  apply (decimal_cell_inr mysql_decimal) in Step, Step1.
  apply varchar_cell_inr in Step0, Step3.
  apply json_cell_inr in Step2. destruct Step2 as [-> _].
  do 4 eexists. repeat (split; [eassumption |]). reflexivity.
Qed.

(** What an accepted [INSERT INTO ai_verification_logs] leaves: a row that
    holds the input and the result of the analysis and names the assessment. *)
Lemma insert_log_inr pid aid t res pd zero c c' :
  insert_log mysql_decimal mysql_varchar pid aid t res pd zero c = (inr tt, c') ->
  exists model confidence,
    has_key p_id pid (projects (working c)) = true /\
    has_key a_id aid (assessments (working c)) = true /\
    c' = {| durable := durable c;
            working := with_logs (working c) (logs (working c) ++ [
              {| l_id := next_log (seqs c); l_project_id := pid;
                 l_assessment_id := Some aid; l_date := t; l_model_used := model;
                 l_input := project_data_dict pd; l_output := PDict res;
                 l_confidence_score := confidence; l_type := initial |}]);
            seqs := {| next_project := next_project (seqs c);
                       next_assessment := next_assessment (seqs c);
                       next_credit := next_credit (seqs c);
                       next_transaction := next_transaction (seqs c);
                       next_observation := next_observation (seqs c);
                       next_log := next_log (seqs c) + 1 |};
            last_insert_id := next_log (seqs c) |}.
Proof.
  intros H. sql_inv H. conn_simpl.
  apply json_cell_inr in Step0, Step1.
  destruct Step0 as [-> _]. destruct Step1 as [-> _].
  apply andb_true_iff in Step3. destruct Step3 as [Hpk Hfk].
  do 2 eexists. split; [exact Hpk |]. split; [exact Hfk | reflexivity].
Qed.

End Rows.

(** Splits the run of [m ;; k] that succeeded into the run of [m] and the
    run of [k]. *)
Ltac sql_step H y Run :=
  apply bind_inr in H;
  let c := fresh "c" in
  destruct H as (y & c & Run & H).

(** The same for a statement, which returns nothing. *)
Ltac sql_unit H Run :=
  apply bind_inr in H;
  let c := fresh "c" in
  destruct H as ([] & c & Run & H).

(** ** More of [project_assessment] *)

Section Views.
Import Py Ledger Sql Web.
Variable float_of_str : string -> option float.
Variable mysql_decimal : Z -> Z -> pyval -> option Z.
Variable mysql_varchar : Z -> pyval -> option string.

Let assess := project_assessment float_of_str mysql_decimal mysql_varchar.

Lemma try_except_inr {A : Type} (m : sql A) (h : exn -> sql A) c x c' :
  try_except m h c = (inr x, c') ->
  m c = (inr x, c') \/ exists e c1, m c = (inl e, c1) /\ h e c1 = (inr x, c').
Proof.
  unfold try_except. destruct (m c) as [[e | y] c1]; intros H.
  - right. exists e, c1. split; [reflexivity | exact H].
  - left. exact H.
Qed.

(** An assessment page without an error: every step it went through, and
    the ledger it left. *)
Lemma project_assessment_shown w session project_id s x s' :
  assess w session project_id s = (AssessmentPage x None, s') ->
  exists user_id p orow arow lrow,
    session = Some user_id /\
    select_own_project project_id user_id (committed s) = Some p /\
    a_id arow = next_assessment (autoinc s) /\
    a_project_id arow = project_id /\
    a_date arow = now w /\
    a_verification arow = v_pending /\
    a_report_url arow = None /\
    mysql_decimal 12 2
      (dict_get (analyze_project float_of_str (ai w)
                   {| pd_project_type := p_type p;
                      pd_area_size := float_of_decimal (p_area_size p);
                      pd_area_unit := p_area_unit p;
                      pd_satellite_data := satellite w |})
                "carbon_estimate" (PInt 0)) = Some (a_carbon_estimate arow) /\
    l_assessment_id lrow = Some (a_id arow) /\
    x = latest_assessment (assessments (committed s) ++ [arow]) project_id /\
    committed s' =
      with_logs
        (with_assessments
           (with_observations
              (with_projects (committed s)
                 (update_where p_id project_id (set_project_status assessing)
                    (projects (committed s))))
              (observations (committed s) ++ [orow]))
           (assessments (committed s) ++ [arow]))
        (logs (committed s) ++ [lrow]).
Proof.
  unfold assess, project_assessment. intros H.
  destruct session as [user_id |]; [| discriminate H].
  apply serve_inr in H; [| discriminate].
  destruct H as (c & H & ->).
  apply bind_inr in H. destruct H as (found & c0 & Hsel & H).
  sql_inv Hsel. conn_simpl.
  destruct (select_own_project project_id user_id (committed s)) as [p |] eqn:Hown;
    [| sql_inv H; discriminate].
  apply bind_inr in H. destruct H as ([] & c1 & Hup & H). sql_inv Hup.
  apply bind_inr in H. destruct H as ([] & c2 & Hco & H). sql_inv Hco.
  conn_simpl.
  apply try_except_inr in H. destruct H as [H | (e & c3 & _ & H)];
    [| sql_inv H; discriminate].
  sql_unit H Hobs.
  apply insert_observation_inr in Hobs.
  destruct Hobs as (ndvi & cover & cloud & source & raw & processed & Hofk & ->).
  sql_unit H Hco. sql_inv Hco. conn_simpl.
  sql_unit H Hass.
  apply insert_assessment_inr in Hass.
  destruct Hass as (est & conf & meth & ver & He & Hc & Hm & Hv & Hfk & ->).
  sql_unit H Hco. sql_inv Hco. conn_simpl.
  sql_step H aid Hlast. sql_inv Hlast. conn_simpl.
  sql_unit H Hlog.
  apply insert_log_inr in Hlog.
  destruct Hlog as (model & lconf & Hlpk & Hlfk & ->).
  sql_unit H Hco. sql_inv Hco. conn_simpl.
  sql_step H shown Hread. sql_inv Hread. conn_simpl.
  sql_inv H. conn_simpl.
  injection H as Hx. subst x.
  match goal with
  | |- context [with_observations _ (_ ++ [?o])] =>
      match goal with
      | |- context [with_assessments _ (_ ++ [?a])] =>
          match goal with
          | |- context [with_logs _ (_ ++ [?l])] => exists user_id, p, o, a, l
          end
      end
  end.
  split; [reflexivity |]. split; [exact Hown |].
  cbn [projects assessments observations logs with_projects with_assessments
       with_observations with_logs next_assessment next_log next_observation].
  repeat split; cbn; first [reflexivity | eassumption].
Qed.

(** X10: the assessment page shows the assessment that the request itself
    has just recorded from [analyze_project], when the clock is past the
    dates of the project's earlier assessments; the row is pending and has
    the next id. *)
Theorem project_assessment_shows_new_assessment w user_id project_id s x s' :
  assess w (Some user_id) project_id s = (AssessmentPage x None, s') ->
  (forall b, In b (assessments (committed s)) -> a_project_id b = project_id ->
             a_date b < now w) ->
  exists a p,
    x = Some a /\
    assessments (committed s') = (assessments (committed s) ++ [a])%list /\
    a_id a = next_assessment (autoinc s) /\
    a_project_id a = project_id /\
    a_date a = now w /\
    a_verification a = v_pending /\
    select_own_project project_id user_id (committed s) = Some p /\
    mysql_decimal 12 2
      (dict_get (analyze_project float_of_str (ai w)
                   {| pd_project_type := p_type p;
                      pd_area_size := float_of_decimal (p_area_size p);
                      pd_area_unit := p_area_unit p;
                      pd_satellite_data := satellite w |})
                "carbon_estimate" (PInt 0)) = Some (a_carbon_estimate a).
Proof.
  intros H Hnew. apply project_assessment_shown in H.
  destruct H as (u & p & orow & arow & lrow & Hu & Hown & Hid & Hp & Hd & Hv & _
                 & He & _ & Hx & Hs').
  injection Hu as <-.
  exists arow, p.
  split.
  { rewrite Hx. apply latest_assessment_newest; [exact Hp |].
    rewrite Hd. exact Hnew. }
  rewrite Hs'. cbn [assessments with_logs with_assessments].
  repeat (split; [first [reflexivity | assumption] |]). exact He.
Qed.

End Views.

(** The page user 1 gets shows assessment 3, the fallback estimate of
    project 1 (864.50), pending. *)
Lemma project_assessment_shows_new_assessment_seed :
  exists a p,
    fst (Plain.project_assessment Plain.offline (Some 1) 1 Plain.seed)
    = Web.AssessmentPage (Some a) None
    /\ Ledger.assessments (Ledger.committed Plain.after_view)
       = (Ledger.assessments (Ledger.committed Plain.seed) ++ [a])%list
    /\ Ledger.a_id a = 3 /\ Ledger.a_project_id a = 1
    /\ Ledger.a_verification a = Ledger.v_pending
    /\ select_own_project 1 1 (Ledger.committed Plain.seed) = Some p
    /\ Ledger.a_carbon_estimate a = 86450.
Proof.
  destruct (project_assessment_shows_new_assessment Plain.float_of_str
              Plain.mysql_decimal Plain.mysql_varchar Plain.offline 1 1 Plain.seed
              (Ledger.latest_assessment (Ledger.assessments
                 (Ledger.committed Plain.after_view)) 1)
              Plain.after_view)
    as (a & p & Hx & Ha & Hid & Hp & Hd & Hv & Hown & He).
  { vm_compute. reflexivity. }
  { intros b Hin _. cbn in Hin.
    destruct Hin as [<- | [<- | []]]; vm_compute; reflexivity. }
  exists a, p.
  split; [vm_compute in Hx |- *; rewrite Hx; reflexivity |].
  do 4 (split; [assumption |]).
  split; [exact Hown |].
  assert (K : Some (Ledger.a_carbon_estimate a) = Some 86450).
  { rewrite <- He. injection Hown as <-. vm_compute. reflexivity. }
  injection K as K. exact K.
Defined.

Section Reports.
Import Py Ledger Sql Web.
Variable float_of_str : string -> option float.
Variable mysql_decimal : Z -> Z -> pyval -> option Z.
Variable mysql_varchar : Z -> pyval -> option string.

Let assess := project_assessment float_of_str mysql_decimal mysql_varchar.
Let report := generate_report mysql_decimal mysql_varchar.

Lemma select_own_project_none project_id user_id t :
  (forall p, In p (projects t) -> p_id p = project_id -> p_user_id p <> user_id) ->
  select_own_project project_id user_id t = None.
Proof.
  intros H. unfold select_own_project.
  destruct (find _ (projects t)) as [p |] eqn:F; [| reflexivity].
  apply find_some in F. destruct F as [Hin Hp].
  apply andb_true_iff in Hp. destruct Hp as [Hid Hu].
  apply Z.eqb_eq in Hid, Hu. exfalso. exact (H p Hin Hid Hu).
Qed.

(** X12: a project that is not the session user's (another user's, or none)
    is 'not found': [project_assessment], [generate_report] and
    [project_details] answer so, show nothing and write nothing, not even
    the status. *)
Theorem project_of_another_user_is_not_found w user_id project_id s :
  (forall p, In p (projects (committed s)) -> p_id p = project_id ->
             p_user_id p <> user_id) ->
  assess w (Some user_id) project_id s = (AssessmentNotFound, s)
  /\ report w (Some user_id) project_id s = (ReportNotFound, s)
  /\ project_details (Some user_id) project_id s = (DetailsNotFound, s).
Proof.
  intros H. apply select_own_project_none in H.
  unfold assess, project_assessment, report, generate_report, project_details.
  split; [| split].
  - erewrite serve_of_inr; [rewrite closed_opened; reflexivity |].
    cbv [bind read]. conn_simpl. rewrite H. reflexivity.
  - erewrite serve_of_inr; [rewrite closed_opened; reflexivity |].
    cbv [bind read select_project_with_assessment]. conn_simpl. rewrite H. reflexivity.
  - erewrite serve_of_inr; [rewrite closed_opened; reflexivity |].
    cbv [bind read]. conn_simpl. rewrite H. reflexivity.
Qed.

(** X13: a project that has no assessment gets no report: the join is
    empty, the answer is 'Project not found or unauthorized', and nothing is
    written. *)
Theorem generate_report_needs_an_assessment w user_id project_id s :
  (forall a, In a (assessments (committed s)) -> a_project_id a <> project_id) ->
  report w (Some user_id) project_id s = (ReportNotFound, s).
Proof.
  intros H. apply latest_assessment_none in H.
  unfold report, generate_report.
  erewrite serve_of_inr; [rewrite closed_opened; reflexivity |].
  cbv [bind read select_project_with_assessment]. conn_simpl. rewrite H.
  destruct (select_own_project project_id user_id (committed s)); reflexivity.
Qed.

(** X14: [generate_report] is all or nothing.  When it answers that the
    credits are issued, the ledger has the assessment approved, the project
    verified and one more lot, available; with any other answer (also when
    the lot is refused after the two updates were executed) the ledger is as
    it was. *)
Theorem generate_report_all_or_nothing w session project_id s :
  match fst (report w session project_id s) with
  | ReportIssued =>
      exists lot url,
        committed (snd (report w session project_id s))
        = with_credits
            (with_projects
               (with_assessments (committed s)
                  (update_where a_id project_id (approve_assessment (Some url))
                     (assessments (committed s))))
               (update_where p_id project_id (set_project_status verified)
                  (projects (committed s))))
            (credits (committed s) ++ [lot])
        /\ c_id lot = next_credit (autoinc s)
        /\ c_project_id lot = project_id
        /\ c_status lot = available
  | _ => committed (snd (report w session project_id s)) = committed s
  end.
Proof.
  pose proof (generate_report_commits_once mysql_decimal mysql_varchar
                w session project_id s) as Honce.
  pose proof (generate_report_issued_run mysql_decimal mysql_varchar
                w session project_id s) as Hdone.
  unfold report.
  destruct (generate_report mysql_decimal mysql_varchar w session project_id s)
    as [out s'].
  cbn [fst snd] in *.
  destruct out;
    try (destruct Honce as [Honce | Honce]; [discriminate Honce | exact Honce]).
  destruct (Hdone s' eq_refl) as (u & p & a & q & price & url & H).
  decompose [and] H. clear H.
  do 2 eexists. split; [eassumption |]. repeat split.
Qed.

(** X15: the assessment that [generate_report] approves, and that the new
    lot names as its origin, is the one whose id equals the project's id
    ([project_data['id']] of the joined row is the project's id), whichever
    project that assessment belongs to; every other assessment, the
    project's latest included when its id differs, is left as it was. *)
Theorem generate_report_approves_by_project_id w session project_id s s' :
  report w session project_id s = (ReportIssued, s') ->
  exists url lot,
    assessments (committed s')
    = update_where a_id project_id (approve_assessment (Some url))
        (assessments (committed s))
    /\ credits (committed s') = (credits (committed s) ++ [lot])%list
    /\ c_project_id lot = project_id
    /\ c_assessment_id lot = project_id
    /\ (exists a, In a (assessments (committed s)) /\ a_id a = project_id)
    /\ (forall a, In a (assessments (committed s)) -> a_id a <> project_id ->
                  In a (assessments (committed s')))
    /\ (forall a, In a (assessments (committed s)) -> a_id a = project_id ->
                  In (approve_assessment (Some url) a) (assessments (committed s'))).
Proof.
  intros H. apply generate_report_issued_run in H.
  destruct H as (u & p & a & q & price & url & H).
  decompose [and] H. clear H.
  match goal with E : committed s' = _ |- _ => rewrite E end.
  cbn [assessments credits with_credits with_projects with_assessments].
  do 2 eexists. split; [reflexivity |]. split; [reflexivity |].
  cbn [c_project_id c_assessment_id].
  split; [reflexivity |]. split; [reflexivity |].
  split.
  { match goal with K : has_key a_id _ _ = true |- _ =>
      apply existsb_exists in K; destruct K as (a0 & Hin & Hk) end.
    exists a0. split; [exact Hin | apply Z.eqb_eq; exact Hk]. }
  split.
  - intros a0 Hin Hne. unfold update_where. apply in_map_iff.
    exists a0. split; [| exact Hin].
    destruct (a_id a0 =? project_id) eqn:E; [| reflexivity].
    apply Z.eqb_eq in E. contradiction.
  - intros a0 Hin He. apply in_update_where; assumption.
Qed.

End Reports.

(** User 2 asks for the assessment, the report and the details of project
    1, which is user 1's. *)
Lemma project_of_another_user_is_not_found_seed :
  Plain.project_assessment Plain.offline (Some 2) 1 Plain.seed
  = (Web.AssessmentNotFound, Plain.seed)
  /\ Plain.generate_report Plain.offline (Some 2) 1 Plain.seed
     = (Web.ReportNotFound, Plain.seed)
  /\ project_details (Some 2) 1 Plain.seed = (Web.DetailsNotFound, Plain.seed).
Proof.
  apply (project_of_another_user_is_not_found Plain.float_of_str Plain.mysql_decimal
           Plain.mysql_varchar Plain.offline 2 1 Plain.seed).
  intros p Hin Hid. cbn in Hin.
  destruct Hin as [<- | [<- | []]]; [discriminate | discriminate Hid].
Defined.

(** Project 3 was registered but its assessment was refused: no report. *)
Lemma generate_report_needs_an_assessment_unassessed :
  Plain.generate_report Plain.offline (Some 1) 3 Plain.unassessed
  = (Web.ReportNotFound, Plain.unassessed).
Proof.
  apply (generate_report_needs_an_assessment Plain.mysql_decimal Plain.mysql_varchar
           Plain.offline 1 3 Plain.unassessed).
  intros a Hin. vm_compute in Hin.
  destruct Hin as [<- | [<- | []]]; discriminate.
Defined.

(** User 2 has the report of project 3 issued.  The project's assessment is
    number 4; the report approves number 3, an assessment of project 1, and
    the lot of project 3 names number 3 as its origin. *)
Lemma generate_report_approves_by_project_id_registration :
  map (fun a => (Ledger.a_id a, Ledger.a_project_id a, Ledger.a_verification a))
      (Ledger.assessments (Ledger.committed Plain.after_registration))
  = [(1, 1, Ledger.v_approved); (2, 2, Ledger.v_approved);
     (3, 1, Ledger.v_pending); (4, 3, Ledger.v_pending)]
  /\ exists url lot,
       Ledger.assessments (Ledger.committed
         (snd (Plain.generate_report Plain.later (Some 2) 3 Plain.after_registration)))
       = Ledger.update_where Ledger.a_id 3 (Ledger.approve_assessment (Some url))
           (Ledger.assessments (Ledger.committed Plain.after_registration))
       /\ Ledger.credits (Ledger.committed
            (snd (Plain.generate_report Plain.later (Some 2) 3 Plain.after_registration)))
          = (Ledger.credits (Ledger.committed Plain.after_registration) ++ [lot])%list
       /\ Ledger.c_project_id lot = 3
       /\ Ledger.c_assessment_id lot = 3.
Proof.
  split; [vm_compute; reflexivity |].
  destruct (generate_report_approves_by_project_id Plain.mysql_decimal
              Plain.mysql_varchar Plain.later (Some 2) 3 Plain.after_registration
              (snd (Plain.generate_report Plain.later (Some 2) 3
                      Plain.after_registration)))
    as (url & lot & H1 & H2 & H3 & H4 & _).
  { vm_compute. reflexivity. }
  exists url, lot. repeat split; assumption.
Defined.

Section Reissue.
Import Py Ledger Sql Web.
Variable mysql_decimal : Z -> Z -> pyval -> option Z.
Variable mysql_varchar : Z -> pyval -> option string.

Let report := generate_report mysql_decimal mysql_varchar.

Lemma quantity_of_assessment_app aid l l' :
  quantity_of_assessment aid (l ++ l')
  = quantity_of_assessment aid l + quantity_of_assessment aid l'.
Proof.
  unfold quantity_of_assessment. rewrite filter_app, map_app.
  induction (map c_amount (filter (fun c => c_assessment_id c =? aid) l)) as [| x xs IH];
    simpl; [reflexivity | rewrite IH; lia].
Qed.

Lemma latest_assessment_approved k url l pid :
  latest_assessment (update_where a_id k (approve_assessment url) l) pid
  = option_map (fun a => if a_id a =? k then approve_assessment url a else a)
      (latest_assessment l pid).
Proof.
  unfold update_where. apply latest_assessment_map.
  - intros a. destruct (a_id a =? k); reflexivity.
  - intros a. destruct (a_id a =? k); reflexivity.
Qed.

(** X16: [generate_report] does not look at what was issued before.  A
    second report for the same project mints a second lot of the same
    quantity, for the same assessment number: the quantity issued under that
    number has grown by twice the lot. *)
Theorem generate_report_issues_again w1 w2 session1 session2 project_id s s1 s2 :
  report w1 session1 project_id s = (ReportIssued, s1) ->
  report w2 session2 project_id s1 = (ReportIssued, s2) ->
  exists lot1 lot2,
    credits (committed s2) = (credits (committed s) ++ [lot1; lot2])%list
    /\ c_amount lot2 = c_amount lot1
    /\ c_assessment_id lot1 = project_id /\ c_assessment_id lot2 = project_id
    /\ c_status lot1 = available /\ c_status lot2 = available
    /\ quantity_of_assessment project_id (credits (committed s2))
       = quantity_of_assessment project_id (credits (committed s)) + 2 * c_amount lot1.
Proof.
  intros H1 H2.
  apply generate_report_issued_run in H1, H2.
  destruct H1 as (u1 & p1 & a1 & q1 & price1 & url1 & _ & Hrow1 & Hq1 & _ & _ & _ & _ & Hs1).
  destruct H2 as (u2 & p2 & a2 & q2 & price2 & url2 & _ & Hrow2 & Hq2 & _ & _ & _ & _ & Hs2).
  apply select_project_with_assessment_inv in Hrow1, Hrow2.
  destruct Hrow1 as [_ Hl1]. destruct Hrow2 as [_ Hl2].
  rewrite Hs1 in Hl2. cbn [assessments with_credits with_projects with_assessments] in Hl2.
  rewrite latest_assessment_approved, Hl1 in Hl2. cbn [option_map] in Hl2.
  injection Hl2 as Ha2.
  assert (He : a_carbon_estimate a2 = a_carbon_estimate a1).
  { rewrite <- Ha2. destruct (a_id a1 =? project_id); reflexivity. }
  rewrite He, Hq1 in Hq2. injection Hq2 as <-.
  rewrite Hs2, Hs1.
  cbn [credits assessments projects with_credits with_projects with_assessments].
  do 2 eexists. split; [rewrite <- app_assoc; reflexivity |].
  cbn [c_amount c_assessment_id c_status].
  repeat (split; [reflexivity |]).
  rewrite !quantity_of_assessment_app.
  unfold quantity_of_assessment at 2 3. cbn [filter c_assessment_id].
  rewrite Z.eqb_refl. cbn [map fold_right c_amount]. lia.
Qed.

End Reissue.

(** User 1 has the report of project 1 issued at noon and again an hour
    later: two lots of 5000.00 are added to the 5000.00 of the seed lot. *)
Lemma generate_report_issues_again_seed :
  exists lot1 lot2,
    Ledger.credits (Ledger.committed
      (snd (Plain.generate_report Plain.later (Some 1) 1 Plain.after_report)))
    = (Ledger.credits (Ledger.committed Plain.seed) ++ [lot1; lot2])%list
    /\ Ledger.c_amount lot1 = 500000 /\ Ledger.c_amount lot2 = 500000
    /\ Ledger.quantity_of_assessment 1
         (Ledger.credits (Ledger.committed
            (snd (Plain.generate_report Plain.later (Some 1) 1 Plain.after_report))))
       = 1500000.
Proof.
  destruct (generate_report_issues_again Plain.mysql_decimal Plain.mysql_varchar
              Plain.offline Plain.later (Some 1) (Some 1) 1 Plain.seed
              Plain.after_report
              (snd (Plain.generate_report Plain.later (Some 1) 1 Plain.after_report)))
    as (lot1 & lot2 & Hc & Hq & _ & _ & _ & _ & Hsum).
  { vm_compute. reflexivity. }
  { vm_compute. reflexivity. }
  exists lot1, lot2.
  assert (H1 : Ledger.c_amount lot1 = 500000).
  { vm_compute in Hc. injection Hc as <- _. reflexivity. }
  split; [exact Hc |]. split; [exact H1 |].
  split; [rewrite Hq; exact H1 |].
  rewrite Hsum, H1. vm_compute. reflexivity.
Defined.

(** ** What each handler leaves alone *)

Section Frames.
Import Py Ledger Sql Web.
Variable float_of_str : string -> option float.
Variable mysql_decimal : Z -> Z -> pyval -> option Z.
Variable mysql_varchar : Z -> pyval -> option string.
Variable mysql_project : project_form -> option project_cells.

Let register :=
  register_project float_of_str mysql_decimal mysql_varchar mysql_project.
Let assess := project_assessment float_of_str mysql_decimal mysql_varchar.
Let report := generate_report mysql_decimal mysql_varchar.
Let buy := buy_credit float_of_str mysql_decimal mysql_varchar.

Lemma stable_if {X A : Type} (f : tables -> X) (b : bool) (m1 m2 : sql A) :
  stable f m1 -> stable f m2 -> stable f (if b then m1 else m2).
Proof. destruct b; trivial. Qed.

Lemma stable_serve {X R : Type} (f : tables -> X) (body : sql R) (h : exn -> R) s :
  stable f body ->
  f (committed (snd (serve body h s))) = f (committed s).
Proof.
  intros Hb. rewrite serve_store. cbn [closed committed].
  exact (proj1 (Hb (opened s) _ eq_refl eq_refl)).
Qed.

(** X17: each handler keeps to its tables, whatever the request and its
    outcome.  [register_project] and [project_assessment] never change
    users, lots or transactions; [generate_report] never changes users,
    transactions, observations or logs; [buy_credit] never changes users,
    projects, assessments, observations or logs. *)
Theorem handlers_keep_to_their_tables :
  (forall w session method form s,
      let s' := snd (register w session method form s) in
      users (committed s') = users (committed s)
      /\ credits (committed s') = credits (committed s)
      /\ transactions (committed s') = transactions (committed s))
  /\ (forall w session project_id s,
      let s' := snd (assess w session project_id s) in
      users (committed s') = users (committed s)
      /\ credits (committed s') = credits (committed s)
      /\ transactions (committed s') = transactions (committed s))
  /\ (forall w session project_id s,
      let s' := snd (report w session project_id s) in
      users (committed s') = users (committed s)
      /\ transactions (committed s') = transactions (committed s)
      /\ observations (committed s') = observations (committed s)
      /\ logs (committed s') = logs (committed s))
  /\ (forall w session method form_amount credit_id s,
      let s' := snd (buy w session method form_amount credit_id s) in
      users (committed s') = users (committed s)
      /\ projects (committed s') = projects (committed s)
      /\ assessments (committed s') = assessments (committed s)
      /\ observations (committed s') = observations (committed s)
      /\ logs (committed s') = logs (committed s)).
Proof.
  split; [| split; [| split]].
  - intros w session method form s s'. subst s'.
    assert (H : (fun t => (users t, credits t, transactions t))
                  (committed (snd (register w session method form s)))
                = (fun t => (users t, credits t, transactions t)) (committed s)).
    { unfold register, register_project.
      destruct session as [user_id |]; [destruct method |]; try reflexivity.
      apply (stable_serve (fun t => (users t, credits t, transactions t))).
      unfold insert_project, insert_observation, insert_assessment, insert_log,
        update_project_status.
      stable_chain. }
    cbv beta in H. inversion H. repeat split; assumption.
  - intros w session project_id s s'. subst s'.
    assert (H : (fun t => (users t, credits t, transactions t))
                  (committed (snd (assess w session project_id s)))
                = (fun t => (users t, credits t, transactions t)) (committed s)).
    { unfold assess, project_assessment.
      destruct session as [user_id |]; try reflexivity.
      apply (stable_serve (fun t => (users t, credits t, transactions t))).
      apply stable_bind; [auto with sql |].
      intros [p |]; [| auto with sql].
      unfold update_project_status.
      apply stable_bind; [apply stable_write; intros; reflexivity | intro].
      apply stable_bind; [auto with sql | intro].
      apply stable_try_except; [| intro; auto with sql].
      unfold insert_observation, insert_assessment, insert_log.
      stable_chain. }
    cbv beta in H. inversion H. repeat split; assumption.
  - intros w session project_id s s'. subst s'.
    assert (H : (fun t => (users t, transactions t, observations t, logs t))
                  (committed (snd (report w session project_id s)))
                = (fun t => (users t, transactions t, observations t, logs t))
                    (committed s)).
    { unfold report, generate_report.
      destruct session as [user_id |]; try reflexivity.
      apply (stable_serve (fun t => (users t, transactions t, observations t, logs t))).
      apply stable_bind; [auto with sql |].
      intros [[p a] |]; [| auto with sql].
      unfold update_assessment_report, update_project_status, insert_credit.
      stable_chain. }
    cbv beta in H. inversion H. repeat split; assumption.
  - intros w session method form_amount credit_id s s'. subst s'.
    assert (H : (fun t => (users t, projects t, assessments t, observations t, logs t))
                  (committed (snd (buy w session method form_amount credit_id s)))
                = (fun t => (users t, projects t, assessments t, observations t, logs t))
                    (committed s)).
    { unfold buy, buy_credit.
      destruct session as [user_id |]; try reflexivity.
      apply (stable_serve (fun t => (users t, projects t, assessments t, observations t, logs t))).
      apply stable_bind; [auto with sql |].
      intros [[credit p] |]; [| auto with sql].
      destruct method; [auto with sql |].
      unfold insert_transaction, update_credit_status, update_credit_amount,
        insert_credit.
      repeat (apply stable_bind; [| intro]);
        try solve [auto with sql];
        try (apply stable_write; intros; reflexivity).
      apply stable_if; stable_chain. }
    cbv beta in H. inversion H. repeat split; assumption.
Qed.

End Frames.

(** ** More of [register_project] *)

Section Registrations.
Import Py Ledger Sql Web.
Variable float_of_str : string -> option float.
Variable mysql_decimal : Z -> Z -> pyval -> option Z.
Variable mysql_varchar : Z -> pyval -> option string.
Variable mysql_project : project_form -> option project_cells.

Let register :=
  register_project float_of_str mysql_decimal mysql_varchar mysql_project.

Lemma py_float_str_inr s x :
  py_float_str float_of_str s = inr x -> float_of_str s = Some x.
Proof.
  unfold py_float_str. destruct (float_of_str s); intros H; inversion H; reflexivity.
Qed.

(** A registration that ends in the redirect went through every step. *)
Lemma register_project_done w session method form s project_id s' :
  register w session method form s = (RegisterDone project_id, s') ->
  exists user_id cells area orow estimate confidence methodology version lrow,
    session = Some user_id /\ method = POST /\
    mysql_project form = Some cells /\
    is_user (committed s) user_id = true /\
    float_of_str (f_area_size form) = Some area /\
    project_id = next_project (autoinc s) /\
    let result :=
      analyze_project float_of_str (ai w)
        {| pd_project_type := f_project_type form; pd_area_size := area;
           pd_area_unit := f_area_unit form; pd_satellite_data := satellite w |} in
    mysql_decimal 12 2 (dict_get result "carbon_estimate" (PFloat 0)) = Some estimate /\
    mysql_decimal 5 2 (dict_get result "confidence_score" (PFloat 0)) = Some confidence /\
    mysql_varchar 100 (dict_get result "methodology" (PStr "AI-based assessment"))
    = Some methodology /\
    mysql_varchar 50 (dict_get result "model_version" (PStr "gpt-4")) = Some version /\
    l_assessment_id lrow = Some (next_assessment (autoinc s)) /\
    l_project_id lrow = project_id /\
    l_output lrow = PDict result /\
    o_project_id orow = project_id /\
    committed s' =
      with_projects
        (with_logs
           (with_assessments
              (with_observations (committed s) (observations (committed s) ++ [orow]))
              (assessments (committed s) ++ [
                 {| a_id := next_assessment (autoinc s); a_project_id := project_id;
                    a_date := now w;
                    a_carbon_estimate := estimate; a_confidence_score := confidence;
                    a_methodology := methodology;
                    a_data_sources := dict_get result "data_sources" (PDict []);
                    a_model_version := version; a_verification := v_pending;
                    a_report_url := None |}]))
           (logs (committed s) ++ [lrow]))
        (update_where p_id project_id (set_project_status assessing)
           (projects (committed s) ++ [
              {| p_id := project_id; p_user_id := user_id;
                 p_name := f_project_name form;
                 p_type := k_type cells; p_lat := k_lat cells; p_lng := k_lng cells;
                 p_area_size := k_area_size cells; p_area_unit := k_area_unit cells;
                 p_description := f_description form;
                 p_start_date := k_start_date cells;
                 p_created_at := now w; p_status := registered;
                 p_boundary := f_boundary_geojson form |}])).
Proof.
  unfold register, register_project. intros H.
  destruct session as [user_id |]; [| discriminate H].
  destruct method; [discriminate H |].
  apply serve_inr in H; [| discriminate].
  destruct H as (c & H & ->).
  sql_unit H Hproj.
  apply insert_project_inr in Hproj.
  destruct Hproj as (cells & Hcells & Huser & ->).
  sql_unit H Hco. sql_inv Hco. conn_simpl.
  sql_step H new_id Hlast. sql_inv Hlast. conn_simpl.
  sql_step H lat Hlat. sql_inv Hlat.
  sql_step H lng Hlng. sql_inv Hlng.
  sql_step H ar Har. sql_inv Har.
  sql_unit H Hobs.
  apply insert_observation_inr in Hobs.
  destruct Hobs as (ndvi & cover & cloud & source & raw & processed & _ & ->).
  sql_unit H Hco. sql_inv Hco. conn_simpl.
  sql_step H area Harea. sql_inv Harea. apply py_float_str_inr in Harea.
  sql_unit H Hass.
  apply insert_assessment_inr in Hass.
  destruct Hass as (est & conf & meth & ver & He & Hc & Hm & Hv & _ & ->).
  sql_unit H Hco. sql_inv Hco. conn_simpl.
  sql_step H new_id Hlast. sql_inv Hlast. conn_simpl.
  sql_unit H Hlog.
  apply insert_log_inr in Hlog.
  destruct Hlog as (model & lconf & _ & _ & ->).
  sql_unit H Hco. sql_inv Hco. conn_simpl.
  sql_unit H Hup. sql_inv Hup. conn_simpl.
  sql_unit H Hco. sql_inv Hco. conn_simpl.
  sql_inv H. conn_simpl.
  injection H as <-.
  cbn [projects assessments observations logs with_projects with_assessments
       with_observations with_logs next_project next_assessment next_log
       next_observation] in *.
  match goal with
  | |- context [with_observations _ (_ ++ [?o])] =>
      match goal with
      | |- context [with_logs _ (_ ++ [?l])] =>
          exists user_id, cells, area, o, est, conf, meth, ver, l
      end
  end.
  cbv zeta.
  repeat (split; [first [reflexivity | assumption] |]).
  reflexivity.
Qed.

Lemma update_where_fresh {A : Type} (key : A -> Z) k f (l : list A) r :
  (forall x, In x l -> key x <> k) -> key r = k ->
  update_where key k f (l ++ [r]) = (l ++ [f r])%list.
Proof.
  intros Hl Hr. unfold update_where. rewrite map_app. cbn [map].
  rewrite Hr, Z.eqb_refl. f_equal.
  rewrite <- (map_id l) at 2. apply map_ext_in.
  intros x Hin. destruct (key x =? k) eqn:E; [| reflexivity].
  apply Z.eqb_eq in E. exfalso. exact (Hl x Hin E).
Qed.

(** X18: what a completed registration has written, when no project has
    the next id yet: one project, owned by the session's user, under the id
    the redirect names, now [assessing]; one pending assessment of it, whose
    estimate is the cell of what [analyze_project] returned for the form's
    type, area and unit; one observation; and one log that names the
    assessment and holds the result. *)
Theorem register_project_done_writes w session method form s project_id s' :
  register w session method form s = (RegisterDone project_id, s') ->
  (forall p, In p (projects (committed s)) -> p_id p <> next_project (autoinc s)) ->
  exists p a o l area,
    projects (committed s') = (projects (committed s) ++ [p])%list
    /\ assessments (committed s') = (assessments (committed s) ++ [a])%list
    /\ observations (committed s') = (observations (committed s) ++ [o])%list
    /\ logs (committed s') = (logs (committed s) ++ [l])%list
    /\ p_id p = project_id /\ project_id = next_project (autoinc s)
    /\ session = Some (p_user_id p)
    /\ p_status p = assessing
    /\ p_name p = f_project_name form
    /\ a_id a = next_assessment (autoinc s)
    /\ a_project_id a = project_id /\ o_project_id o = project_id
    /\ l_project_id l = project_id /\ l_assessment_id l = Some (a_id a)
    /\ a_verification a = v_pending
    /\ float_of_str (f_area_size form) = Some area
    /\ mysql_decimal 12 2
         (dict_get (analyze_project float_of_str (ai w)
                      {| pd_project_type := f_project_type form; pd_area_size := area;
                         pd_area_unit := f_area_unit form;
                         pd_satellite_data := satellite w |})
                   "carbon_estimate" (PFloat 0)) = Some (a_carbon_estimate a)
    /\ l_output l
       = PDict (analyze_project float_of_str (ai w)
                  {| pd_project_type := f_project_type form; pd_area_size := area;
                     pd_area_unit := f_area_unit form;
                     pd_satellite_data := satellite w |}).
Proof.
  intros H Hfresh. apply register_project_done in H.
  destruct H as (user_id & cells & area & orow & est & conf & meth & ver & lrow & H).
  cbv zeta in H.
  destruct H as (-> & -> & Hcells & Huser & Harea & -> & He & Hc & Hm & Hv
                 & Hl1 & Hl2 & Hl3 & Ho & Hs').
  rewrite Hs'.
  cbn [projects assessments observations logs with_projects with_assessments
       with_observations with_logs].
  rewrite update_where_fresh by (first [exact Hfresh | reflexivity]).
  do 4 eexists. exists area.
  repeat (split; [first [reflexivity | assumption] |]). assumption.
Qed.

End Registrations.

(** User 1 registers the mangrove belt with the AI unreachable: project 3,
    assessing, with the fallback estimate 864.50. *)
Lemma register_project_done_writes_seed :
  exists p a,
    Ledger.projects (Ledger.committed
      (snd (Plain.register_project Plain.offline (Some 1) Web.POST Plain.mangrove_form
              Plain.seed)))
    = (Ledger.projects (Ledger.committed Plain.seed) ++ [p])%list
    /\ Ledger.assessments (Ledger.committed
         (snd (Plain.register_project Plain.offline (Some 1) Web.POST Plain.mangrove_form
                 Plain.seed)))
       = (Ledger.assessments (Ledger.committed Plain.seed) ++ [a])%list
    /\ Ledger.p_id p = 3 /\ Ledger.p_user_id p = 1
    /\ Ledger.p_status p = Ledger.assessing
    /\ Ledger.a_project_id a = 3
    /\ Ledger.a_carbon_estimate a = 86450.
Proof.
  destruct (register_project_done_writes Plain.float_of_str Plain.mysql_decimal
              Plain.mysql_varchar Plain.mysql_project Plain.offline (Some 1) Web.POST
              Plain.mangrove_form Plain.seed 3
              (snd (Plain.register_project Plain.offline (Some 1) Web.POST
                      Plain.mangrove_form Plain.seed)))
    as (p & a & o & l & area & Hp & Ha & _ & _ & Hid & _ & Hu & Hst & _ & _ & Hap & _
        & _ & _ & _ & Harea & He & _).
  { vm_compute. reflexivity. }
  { intros p Hin. cbn in Hin.
    destruct Hin as [<- | [<- | []]]; discriminate. }
  exists p, a.
  split; [exact Hp |]. split; [exact Ha |]. split; [exact Hid |].
  split; [injection Hu as Hu; symmetry; exact Hu |].
  split; [exact Hst |]. split; [exact Hap |].
  assert (K : Some (Ledger.a_carbon_estimate a) = Some 86450).
  { rewrite <- He. vm_compute in Harea. injection Harea as <-. vm_compute. reflexivity. }
  injection K as K. exact K.
Defined.

(** ** The integrity of the ledger *)

Section Integrity.
Import Py Ledger Sql Web.

Lemma map_update_where {A B : Type} (g : A -> B) (key : A -> Z) k f (l : list A) :
  (forall r, g (f r) = g r) -> map g (update_where key k f l) = map g l.
Proof.
  intros Hg. unfold update_where. rewrite map_map. apply map_ext.
  intros r. destruct (key r =? k); [apply Hg | reflexivity].
Qed.

Lemma Forall_update_where {A : Type} (P : A -> Prop) (key : A -> Z) k f (l : list A) :
  (forall r, P r -> P (f r)) -> Forall P l -> Forall P (update_where key k f l).
Proof.
  intros Hf H. unfold update_where. apply Forall_map.
  apply (Forall_impl _ (P := P)); [| exact H].
  intros r Hr. destruct (key r =? k); [apply Hf |]; exact Hr.
Qed.

Lemma has_key_app {A : Type} (key : A -> Z) k (l l' : list A) :
  has_key key k l = true -> has_key key k (l ++ l') = true.
Proof. unfold has_key. rewrite existsb_app. intros ->. reflexivity. Qed.

Lemma keyed_mono {A : Type} (key : A -> Z) n n' (l : list A) :
  n <= n' -> keyed key n l -> keyed key n' l.
Proof.
  intros Hn [Hd Hb]. split; [exact Hd |].
  apply (Forall_impl _ (P := fun r => key r < n)); [intros r Hr; lia | exact Hb].
Qed.

Lemma keyed_app {A : Type} (key : A -> Z) n (l : list A) r :
  key r = n -> keyed key n l -> keyed key (n + 1) (l ++ [r]).
Proof.
  intros Hr [Hd Hb]. split.
  - rewrite map_app. cbn [map].
    apply NoDup_app; [exact Hd | repeat constructor; intros [] | ].
    intros k Hin [Hk | []]. apply in_map_iff in Hin. destruct Hin as (x & Hx & Hin).
    rewrite Forall_forall in Hb. specialize (Hb x Hin). lia.
  - apply Forall_app. split.
    + apply (Forall_impl _ (P := fun r => key r < n)); [intros x Hx; lia | exact Hb].
    + repeat constructor. lia.
Qed.

Lemma keyed_update {A : Type} (key : A -> Z) n k f (l : list A) :
  (forall r, key (f r) = key r) -> keyed key n l -> keyed key n (update_where key k f l).
Proof.
  intros Hf [Hd Hb]. split.
  - rewrite map_update_where by exact Hf. exact Hd.
  - apply Forall_update_where; [| exact Hb]. intros r Hr. rewrite Hf. exact Hr.
Qed.

Lemma refers_app_source {A B : Type} (fk : A -> Z) (key : B -> Z) l r target :
  has_key key (fk r) target = true ->
  refers fk key l target -> refers fk key (l ++ [r]) target.
Proof.
  intros Hr H. apply Forall_app. split; [exact H | repeat constructor; exact Hr].
Qed.

Lemma refers_app_target {A B : Type} (fk : A -> Z) (key : B -> Z) l target extra :
  refers fk key l target -> refers fk key l (target ++ extra).
Proof.
  apply Forall_impl. intros r. apply has_key_app.
Qed.

Lemma refers_update_source {A B : Type} (fk : A -> Z) (key : B -> Z) (k0 : A -> Z) k f
    l target :
  (forall r, fk (f r) = fk r) ->
  refers fk key l target -> refers fk key (update_where k0 k f l) target.
Proof.
  intros Hf. apply Forall_update_where. intros r Hr. rewrite Hf. exact Hr.
Qed.

Lemma refers_update_target {A B : Type} (fk : A -> Z) (key : B -> Z) k f l target :
  (forall r, key (f r) = key r) ->
  refers fk key l target -> refers fk key l (update_where key k f target).
Proof.
  intros Hf. apply Forall_impl. intros r Hr.
  rewrite has_key_update_where by exact Hf. exact Hr.
Qed.

Lemma log_assessment_target l (t t' : list assessment) :
  (forall k, has_key a_id k t = true -> has_key a_id k t' = true) ->
  Forall (fun r : verification_log =>
            match l_assessment_id r with
            | Some a => has_key a_id a t = true
            | None => True
            end) l ->
  Forall (fun r : verification_log =>
            match l_assessment_id r with
            | Some a => has_key a_id a t' = true
            | None => True
            end) l.
Proof.
  intros Ht. apply Forall_impl. intros r.
  destruct (l_assessment_id r); [apply Ht | trivial].
Qed.

(** Solves one clause of [consistent_tables] after a table gained a row or
    had rows updated in place. *)
Ltac integrity_clause :=
  cbn [users projects assessments credits transactions observations logs
       with_projects with_assessments with_credits with_transactions
       with_observations with_logs
       next_project next_assessment next_credit next_transaction
       next_observation next_log];
  first
    [ assumption
    | apply keyed_app; [reflexivity | assumption]
    | apply keyed_update; [intros; reflexivity | assumption]
    | apply refers_app_source; assumption
    | apply refers_app_target; assumption
    | apply refers_update_source; [intros; reflexivity | assumption]
    | apply refers_update_target; [intros; reflexivity | assumption]
    | apply Forall_app; split; [assumption | repeat constructor; assumption]
    | apply Forall_update_where; [intros ? Hr; exact Hr | assumption]
    | eapply log_assessment_target; [| eassumption]; intros ?;
      first [ apply has_key_app
            | intros Hk; rewrite has_key_update_where by reflexivity; exact Hk ]
    | rewrite map_update_where by reflexivity; assumption ].

Lemma consistent_tables_mono n n' t :
  next_project n <= next_project n' -> next_assessment n <= next_assessment n' ->
  next_credit n <= next_credit n' -> next_transaction n <= next_transaction n' ->
  next_observation n <= next_observation n' -> next_log n <= next_log n' ->
  consistent_tables n t -> consistent_tables n' t.
Proof.
  intros L1 L2 L3 L4 L5 L6 []. constructor; try assumption;
    eapply keyed_mono; eassumption.
Qed.

Lemma consistent_add_project n t row :
  p_id row = next_project n -> is_user t (p_user_id row) = true ->
  consistent_tables n t ->
  consistent_tables
    {| next_project := next_project n + 1; next_assessment := next_assessment n;
       next_credit := next_credit n; next_transaction := next_transaction n;
       next_observation := next_observation n; next_log := next_log n |}
    (with_projects t (projects t ++ [row])).
Proof.
  intros Hid Hu []. constructor; try integrity_clause.
  rewrite <- Hid. apply keyed_app; [reflexivity |]. rewrite Hid. assumption.
Qed.

Lemma consistent_add_assessment n t row :
  a_id row = next_assessment n ->
  has_key p_id (a_project_id row) (projects t) = true ->
  consistent_tables n t ->
  consistent_tables
    {| next_project := next_project n; next_assessment := next_assessment n + 1;
       next_credit := next_credit n; next_transaction := next_transaction n;
       next_observation := next_observation n; next_log := next_log n |}
    (with_assessments t (assessments t ++ [row])).
Proof.
  intros Hid Hfk []. constructor; try integrity_clause.
  rewrite <- Hid. apply keyed_app; [reflexivity |]. rewrite Hid. assumption.
Qed.

Lemma consistent_add_observation n t row :
  o_id row = next_observation n ->
  has_key p_id (o_project_id row) (projects t) = true ->
  consistent_tables n t ->
  consistent_tables
    {| next_project := next_project n; next_assessment := next_assessment n;
       next_credit := next_credit n; next_transaction := next_transaction n;
       next_observation := next_observation n + 1; next_log := next_log n |}
    (with_observations t (observations t ++ [row])).
Proof.
  intros Hid Hfk []. constructor; try integrity_clause.
  rewrite <- Hid. apply keyed_app; [reflexivity |]. rewrite Hid. assumption.
Qed.

Lemma consistent_add_log n t row :
  l_id row = next_log n ->
  has_key p_id (l_project_id row) (projects t) = true ->
  match l_assessment_id row with
  | Some a => has_key a_id a (assessments t) = true
  | None => True
  end ->
  consistent_tables n t ->
  consistent_tables
    {| next_project := next_project n; next_assessment := next_assessment n;
       next_credit := next_credit n; next_transaction := next_transaction n;
       next_observation := next_observation n; next_log := next_log n + 1 |}
    (with_logs t (logs t ++ [row])).
Proof.
  intros Hid Hfk Hfa []. constructor; try integrity_clause.
  rewrite <- Hid. apply keyed_app; [reflexivity |]. rewrite Hid. assumption.
Qed.

Lemma consistent_add_credit n t row :
  c_id row = next_credit n ->
  has_key p_id (c_project_id row) (projects t) = true ->
  has_key a_id (c_assessment_id row) (assessments t) = true ->
  existsb (fun c => String.eqb (c_certificate_id c) (c_certificate_id row)) (credits t)
  = false ->
  consistent_tables n t ->
  consistent_tables
    {| next_project := next_project n; next_assessment := next_assessment n;
       next_credit := next_credit n + 1; next_transaction := next_transaction n;
       next_observation := next_observation n; next_log := next_log n |}
    (with_credits t (credits t ++ [row])).
Proof.
  intros Hid Hfp Hfa Hcert []. constructor; try integrity_clause.
  - rewrite <- Hid. apply keyed_app; [reflexivity |]. rewrite Hid. assumption.
  - cbn [credits with_credits]. rewrite map_app. cbn [map].
    apply NoDup_app; [assumption | repeat constructor; intros [] |].
    intros k Hin [Hk | []]. subst k.
    apply in_map_iff in Hin. destruct Hin as (c & Hc & Hin).
    assert (E : existsb (fun c0 => String.eqb (c_certificate_id c0) (c_certificate_id row))
                        (credits t) = true).
    { apply existsb_exists. exists c. split; [exact Hin |].
      rewrite Hc. apply String.eqb_refl. }
    rewrite E in Hcert. discriminate Hcert.
Qed.

Lemma consistent_add_transaction n t row :
  t_id row = next_transaction n ->
  has_key c_id (t_credit_id row) (credits t) = true ->
  is_user t (t_buyer_id row) = true -> is_user t (t_seller_id row) = true ->
  consistent_tables n t ->
  consistent_tables
    {| next_project := next_project n; next_assessment := next_assessment n;
       next_credit := next_credit n; next_transaction := next_transaction n + 1;
       next_observation := next_observation n; next_log := next_log n |}
    (with_transactions t (transactions t ++ [row])).
Proof.
  intros Hid Hfc Hb Hs []. constructor; try integrity_clause.
  rewrite <- Hid. apply keyed_app; [reflexivity |]. rewrite Hid. assumption.
Qed.

Lemma consistent_project_status n t k st :
  consistent_tables n t ->
  consistent_tables n
    (with_projects t (update_where p_id k (set_project_status st) (projects t))).
Proof. intros []. constructor; integrity_clause. Qed.

Lemma consistent_approve n t k url :
  consistent_tables n t ->
  consistent_tables n
    (with_assessments t (update_where a_id k (approve_assessment url) (assessments t))).
Proof. intros []. constructor; integrity_clause. Qed.

Lemma consistent_credit_status n t k st :
  consistent_tables n t ->
  consistent_tables n
    (with_credits t (update_where c_id k (set_credit_status st) (credits t))).
Proof. intros []. constructor; integrity_clause. Qed.

Lemma consistent_credit_amount n t k q :
  consistent_tables n t ->
  consistent_tables n
    (with_credits t (update_where c_id k (set_credit_amount q) (credits t))).
Proof. intros []. constructor; integrity_clause. Qed.

End Integrity.

Section Keeping.
Import Py Ledger Sql Web.
Variable float_of_str : string -> option float.
Variable mysql_decimal : Z -> Z -> pyval -> option Z.
Variable mysql_varchar : Z -> pyval -> option string.
Variable mysql_project : project_form -> option project_cells.

(** A refused statement leaves the connection as it was: the checks come
    before the row. *)
Ltac refused H :=
  cbv [bind lift read require fresh write] in H;
  repeat match type of H with
         | context [match ?x with _ => _ end] => destruct x
         | context [if ?x then _ else _] => destruct x
         end;
  inversion H; reflexivity.

Lemma insert_project_inl uid form t c e c' :
  insert_project mysql_project uid form t c = (inl e, c') -> c' = c.
Proof. unfold insert_project. intros H. refused H. Qed.

Lemma insert_observation_inl pid t sat c e c' :
  insert_observation mysql_decimal mysql_varchar pid t sat c = (inl e, c') -> c' = c.
Proof. unfold insert_observation. intros H. refused H. Qed.

Lemma insert_assessment_inl pid t res zero c e c' :
  insert_assessment mysql_decimal mysql_varchar pid t res zero c = (inl e, c') -> c' = c.
Proof. unfold insert_assessment. intros H. refused H. Qed.

Lemma insert_log_inl pid aid t res pd zero c e c' :
  insert_log mysql_decimal mysql_varchar pid aid t res pd zero c = (inl e, c') -> c' = c.
Proof. unfold insert_log. intros H. refused H. Qed.

Lemma insert_credit_inl pid aid a i ex cert st p u c e c' :
  insert_credit mysql_decimal mysql_varchar pid aid a i ex cert st p u c = (inl e, c') ->
  c' = c.
Proof. unfold insert_credit. intros H. refused H. Qed.

Lemma insert_transaction_inl cid b sl a p tp t st c e c' :
  insert_transaction mysql_decimal cid b sl a p tp t st c = (inl e, c') -> c' = c.
Proof. unfold insert_transaction. intros H. refused H. Qed.

Lemma update_assessment_report_inl k url c e c' :
  update_assessment_report mysql_varchar k url c = (inl e, c') -> c' = c.
Proof. unfold update_assessment_report. intros H. refused H. Qed.

Lemma update_credit_amount_inl k a c e c' :
  update_credit_amount mysql_decimal k a c = (inl e, c') -> c' = c.
Proof. unfold update_credit_amount. intros H. refused H. Qed.

(** What an accepted [INSERT INTO carbon_credits] leaves. *)
Lemma insert_credit_inr pid aid amount i ex cert st price url c c' :
  insert_credit mysql_decimal mysql_varchar pid aid amount i ex cert st price url c
  = (inr tt, c') ->
  exists quantity price_cell url_cell,
    decimal_cell mysql_decimal 12 2 amount = inr quantity /\
    has_key p_id pid (projects (working c)) = true /\
    has_key a_id aid (assessments (working c)) = true /\
    existsb (fun x => String.eqb (c_certificate_id x) cert) (credits (working c)) = false /\
    c' = {| durable := durable c;
            working := with_credits (working c) (credits (working c) ++ [
              {| c_id := next_credit (seqs c); c_project_id := pid;
                 c_assessment_id := aid; c_amount := quantity; c_issuance_date := i;
                 c_expiry_date := ex; c_certificate_id := cert; c_status := st;
                 c_price := price_cell; c_document_url := url_cell |}]);
            seqs := {| next_project := next_project (seqs c);
                       next_assessment := next_assessment (seqs c);
                       next_credit := next_credit (seqs c) + 1;
                       next_transaction := next_transaction (seqs c);
                       next_observation := next_observation (seqs c);
                       next_log := next_log (seqs c) |};
            last_insert_id := next_credit (seqs c) |}.
Proof.
  intros H. sql_inv H. conn_simpl.
  apply andb_true_iff in Step2. destruct Step2 as [Step2 Hcert].
  apply andb_true_iff in Step2. destruct Step2 as [Hp Ha].
  apply negb_true_iff in Hcert.
  do 3 eexists. repeat (split; [eassumption |]). reflexivity.
Qed.

(** What an accepted [INSERT INTO transactions] leaves. *)
Lemma insert_transaction_inr cid b sl amount price total t st c c' :
  insert_transaction mysql_decimal cid b sl amount price total t st c = (inr tt, c') ->
  exists qa qp qt,
    has_key c_id cid (credits (working c)) = true /\
    is_user (working c) b = true /\ is_user (working c) sl = true /\
    c' = {| durable := durable c;
            working := with_transactions (working c) (transactions (working c) ++ [
              {| t_id := next_transaction (seqs c); t_credit_id := cid; t_buyer_id := b;
                 t_seller_id := sl; t_amount := qa; t_price_per_unit := qp;
                 t_total_price := qt; t_date := t; t_status := st |}]);
            seqs := {| next_project := next_project (seqs c);
                       next_assessment := next_assessment (seqs c);
                       next_credit := next_credit (seqs c);
                       next_transaction := next_transaction (seqs c) + 1;
                       next_observation := next_observation (seqs c);
                       next_log := next_log (seqs c) |};
            last_insert_id := next_transaction (seqs c) |}.
Proof.
  intros H. sql_inv H. conn_simpl.
  apply andb_true_iff in Step2. destruct Step2 as [Step2 Hs].
  apply andb_true_iff in Step2. destruct Step2 as [Hc Hb].
  do 3 eexists. repeat (split; [eassumption |]). reflexivity.
Qed.

(** Each statement keeps the connection consistent. *)

Ltac bumped H :=
  eapply consistent_tables_mono; [.. | exact H];
  cbn [next_project next_assessment next_credit next_transaction
       next_observation next_log]; lia.

Lemma keeps_insert_project uid form t :
  keeps_consistent (insert_project mysql_project uid form t).
Proof.
  intros c [Hd Hw].
  destruct (insert_project mysql_project uid form t c) as [[e | []] c'] eqn:E;
    cbn [snd].
  - apply insert_project_inl in E. subst c'. split; assumption.
  - apply (insert_project_inr mysql_project) in E.
    destruct E as (cells & _ & Hu & ->). split; conn_simpl.
    + bumped Hd.
    + apply consistent_add_project; [reflexivity | exact Hu | exact Hw].
Qed.

Lemma keeps_insert_observation pid t sat :
  keeps_consistent (insert_observation mysql_decimal mysql_varchar pid t sat).
Proof.
  intros c [Hd Hw].
  destruct (insert_observation mysql_decimal mysql_varchar pid t sat c)
    as [[e | []] c'] eqn:E; cbn [snd].
  - apply insert_observation_inl in E. subst c'. split; assumption.
  - apply insert_observation_inr in E.
    destruct E as (? & ? & ? & ? & ? & ? & Hfk & ->). split; conn_simpl.
    + bumped Hd.
    + apply consistent_add_observation; [reflexivity | exact Hfk | exact Hw].
Qed.

Lemma keeps_insert_assessment pid t res zero :
  keeps_consistent (insert_assessment mysql_decimal mysql_varchar pid t res zero).
Proof.
  intros c [Hd Hw].
  destruct (insert_assessment mysql_decimal mysql_varchar pid t res zero c)
    as [[e | []] c'] eqn:E; cbn [snd].
  - apply insert_assessment_inl in E. subst c'. split; assumption.
  - apply insert_assessment_inr in E.
    destruct E as (? & ? & ? & ? & _ & _ & _ & _ & Hfk & ->). split; conn_simpl.
    + bumped Hd.
    + apply consistent_add_assessment; [reflexivity | exact Hfk | exact Hw].
Qed.

Lemma keeps_insert_log pid aid t res pd zero :
  keeps_consistent (insert_log mysql_decimal mysql_varchar pid aid t res pd zero).
Proof.
  intros c [Hd Hw].
  destruct (insert_log mysql_decimal mysql_varchar pid aid t res pd zero c)
    as [[e | []] c'] eqn:E; cbn [snd].
  - apply insert_log_inl in E. subst c'. split; assumption.
  - apply insert_log_inr in E.
    destruct E as (? & ? & Hfp & Hfa & ->). split; conn_simpl.
    + bumped Hd.
    + apply consistent_add_log; [reflexivity | exact Hfp | exact Hfa | exact Hw].
Qed.

Lemma keeps_insert_credit pid aid amount i ex cert st price url :
  keeps_consistent
    (insert_credit mysql_decimal mysql_varchar pid aid amount i ex cert st price url).
Proof.
  intros c [Hd Hw].
  destruct (insert_credit mysql_decimal mysql_varchar pid aid amount i ex cert st price url c)
    as [[e | []] c'] eqn:E; cbn [snd].
  - apply insert_credit_inl in E. subst c'. split; assumption.
  - apply insert_credit_inr in E.
    destruct E as (? & ? & ? & _ & Hfp & Hfa & Hcert & ->). split; conn_simpl.
    + bumped Hd.
    + apply consistent_add_credit;
        [reflexivity | exact Hfp | exact Hfa | exact Hcert | exact Hw].
Qed.

Lemma keeps_insert_transaction cid b sl amount price total t st :
  keeps_consistent (insert_transaction mysql_decimal cid b sl amount price total t st).
Proof.
  intros c [Hd Hw].
  destruct (insert_transaction mysql_decimal cid b sl amount price total t st c)
    as [[e | []] c'] eqn:E; cbn [snd].
  - apply insert_transaction_inl in E. subst c'. split; assumption.
  - apply insert_transaction_inr in E.
    destruct E as (? & ? & ? & Hfc & Hb & Hs & ->). split; conn_simpl.
    + bumped Hd.
    + apply consistent_add_transaction;
        [reflexivity | exact Hfc | exact Hb | exact Hs | exact Hw].
Qed.

Lemma keeps_update_project_status pid st :
  keeps_consistent (update_project_status pid st).
Proof.
  intros c [Hd Hw]. split; cbn; [exact Hd | apply consistent_project_status; exact Hw].
Qed.

Lemma keeps_update_credit_status cid st :
  keeps_consistent (update_credit_status cid st).
Proof.
  intros c [Hd Hw]. split; cbn; [exact Hd | apply consistent_credit_status; exact Hw].
Qed.

Lemma keeps_update_assessment_report k url :
  keeps_consistent (update_assessment_report mysql_varchar k url).
Proof.
  intros c [Hd Hw]. unfold update_assessment_report, bind, lift, write.
  destruct (varchar_cell_null mysql_varchar 255 url) as [e | cell]; cbn [snd];
    [split; assumption |].
  split; cbn; [exact Hd | apply consistent_approve; exact Hw].
Qed.

Lemma keeps_update_credit_amount k amount :
  keeps_consistent (update_credit_amount mysql_decimal k amount).
Proof.
  intros c [Hd Hw]. unfold update_credit_amount, bind, lift, write.
  destruct (decimal_cell mysql_decimal 12 2 amount) as [e | q]; cbn [snd];
    [split; assumption |].
  split; cbn; [exact Hd | apply consistent_credit_amount; exact Hw].
Qed.

(** The other steps of a connection. *)

Lemma keeps_ret {A : Type} (x : A) : keeps_consistent (ret x).
Proof. intros c H. exact H. Qed.

Lemma keeps_lift {A : Type} (r : result A) : keeps_consistent (lift r).
Proof. intros c H. exact H. Qed.

Lemma keeps_read {A : Type} (q : tables -> A) : keeps_consistent (read q).
Proof. intros c H. exact H. Qed.

Lemma keeps_last : keeps_consistent select_last_insert_id.
Proof. intros c H. exact H. Qed.

Lemma keeps_commit : keeps_consistent commit.
Proof. intros c [Hd Hw]. split; exact Hw. Qed.

Lemma keeps_bind {A B : Type} (m : sql A) (k : A -> sql B) :
  keeps_consistent m -> (forall x, keeps_consistent (k x)) ->
  keeps_consistent (bind m k).
Proof.
  intros Hm Hk c H. unfold bind. specialize (Hm c H).
  destruct (m c) as [[e | x] c1]; cbn [snd] in *; [exact Hm |].
  exact (Hk x c1 Hm).
Qed.

Lemma keeps_try_except {A : Type} (m : sql A) (h : exn -> sql A) :
  keeps_consistent m -> (forall e, keeps_consistent (h e)) ->
  keeps_consistent (try_except m h).
Proof.
  intros Hm Hh c H. unfold try_except. specialize (Hm c H).
  destruct (m c) as [[e | x] c1]; cbn [snd] in *; [| exact Hm].
  exact (Hh e c1 Hm).
Qed.

Lemma keeps_if {A : Type} (b : bool) (m1 m2 : sql A) :
  keeps_consistent m1 -> keeps_consistent m2 ->
  keeps_consistent (if b then m1 else m2).
Proof. destruct b; trivial. Qed.

Lemma keeps_serve {R : Type} (body : sql R) (h : exn -> R) s :
  keeps_consistent body -> consistent s -> consistent (snd (serve body h s)).
Proof.
  intros Hb Hs. rewrite serve_store.
  destruct (Hb (opened s)) as [Hd _]; [split; exact Hs |].
  exact Hd.
Qed.

End Keeping.

#[export] Hint Resolve keeps_insert_project keeps_insert_observation
  keeps_insert_assessment keeps_insert_log keeps_insert_credit
  keeps_insert_transaction keeps_update_project_status keeps_update_credit_status
  keeps_update_assessment_report keeps_update_credit_amount
  keeps_ret keeps_lift keeps_read keeps_last keeps_commit : sql.

Section Invariant.
Import Py Ledger Sql Web.
Variable float_of_str : string -> option float.
Variable mysql_decimal : Z -> Z -> pyval -> option Z.
Variable mysql_varchar : Z -> pyval -> option string.
Variable mysql_project : project_form -> option project_cells.

Let register :=
  register_project float_of_str mysql_decimal mysql_varchar mysql_project.
Let assess := project_assessment float_of_str mysql_decimal mysql_varchar.
Let report := generate_report mysql_decimal mysql_varchar.
Let buy := buy_credit float_of_str mysql_decimal mysql_varchar.

Ltac keeps_chain :=
  cbv zeta;
  repeat first
    [ solve [auto with sql]
    | apply keeps_bind; [solve [auto with sql] | intro] ].

(** X20: the four handlers keep the integrity that the schema of
    [db_setup.py] declares.  From a ledger whose primary keys are distinct
    and below the counters, whose foreign keys name rows that are there and
    whose certificate ids are distinct, every request, whatever its outcome,
    leaves such a ledger. *)
Theorem handlers_keep_the_ledger_consistent s :
  consistent s ->
  (forall w session method form,
      consistent (snd (register w session method form s)))
  /\ (forall w session project_id,
        consistent (snd (assess w session project_id s)))
  /\ (forall w session project_id,
        consistent (snd (report w session project_id s)))
  /\ (forall w session method form_amount credit_id,
        consistent (snd (buy w session method form_amount credit_id s))).
Proof.
  intros Hs. split; [| split; [| split]].
  - intros w session method form. unfold register, register_project.
    destruct session as [user_id |]; [destruct method |]; try exact Hs.
    apply keeps_serve; [| exact Hs]. keeps_chain.
  - intros w session project_id. unfold assess, project_assessment.
    destruct session as [user_id |]; try exact Hs.
    apply keeps_serve; [| exact Hs].
    apply keeps_bind; [auto with sql |].
    intros [p |]; [| auto with sql].
    apply keeps_bind; [auto with sql | intro].
    apply keeps_bind; [auto with sql | intro].
    apply keeps_try_except; [| intro; auto with sql].
    keeps_chain.
  - intros w session project_id. unfold report, generate_report.
    destruct session as [user_id |]; try exact Hs.
    apply keeps_serve; [| exact Hs].
    apply keeps_bind; [auto with sql |].
    intros [[p a] |]; [| auto with sql].
    keeps_chain.
  - intros w session method form_amount credit_id. unfold buy, buy_credit.
    destruct session as [user_id |]; try exact Hs.
    apply keeps_serve; [| exact Hs].
    apply keeps_bind; [auto with sql |].
    intros [[credit p] |]; [| auto with sql].
    destruct method; [auto with sql |].
    repeat (apply keeps_bind; [solve [auto with sql] | intro]).
    apply keeps_bind; [| intro; keeps_chain].
    apply keeps_if; keeps_chain.
Qed.

End Invariant.

(** The rows [db_setup.py] inserts satisfy the keys it declares. *)
Lemma seed_consistent : consistent Plain.seed.
Proof.
  constructor; unfold keyed, refers; cbn;
    repeat first
      [ split
      | apply Forall_cons
      | apply Forall_nil
      | apply NoDup_cons
      | apply NoDup_nil
      | reflexivity
      | lia
      | (intros H; cbn in H; intuition discriminate) ].
Qed.

(** After the purchase of lot 1 by user 2 the seed ledger is still
    consistent. *)
Lemma handlers_keep_the_ledger_consistent_seed :
  consistent
    (snd (Plain.buy_credit Plain.offline (Some 2) Web.POST (Some "5000") 1 Plain.seed)).
Proof.
  exact (proj2 (proj2 (proj2
           (handlers_keep_the_ledger_consistent Plain.float_of_str Plain.mysql_decimal
              Plain.mysql_varchar Plain.mysql_project Plain.seed seed_consistent)))
           Plain.offline (Some 2) Web.POST (Some "5000") 1).
Defined.

(** ** Pages that read the ledger: [marketplace], [project_details], [dashboard] *)

Section Ordering.
Import Ledger.
Context {A : Type} (key : A -> Z).

Lemma in_insert_desc x y l : In y (insert_desc key x l) <-> y = x \/ In y l.
Proof.
  induction l as [| z l IH]; cbn [insert_desc].
  - cbn. intuition.
  - destruct (key z <=? key x); cbn [In]; [intuition |].
    rewrite IH. intuition.
Qed.

Lemma in_order_by_desc y l : In y (order_by_desc key l) <-> In y l.
Proof.
  induction l as [| x l IH]; cbn [order_by_desc fold_right]; [reflexivity |].
  fold (order_by_desc key l). rewrite in_insert_desc, IH. cbn [In]. intuition.
Qed.

(** A row newer than every row of the table comes first. *)
Lemma order_by_desc_newest l x :
  (forall y, In y l -> key y < key x) ->
  order_by_desc key (l ++ [x]) = x :: order_by_desc key l.
Proof.
  induction l as [| a l IH]; intros Hnew; [reflexivity |].
  cbn [app order_by_desc fold_right]. fold (order_by_desc key (l ++ [x])).
  fold (order_by_desc key l).
  rewrite IH by (intros y Hy; apply Hnew; right; exact Hy).
  cbn [insert_desc].
  assert (Ha : key a < key x) by (apply Hnew; left; reflexivity).
  destruct (key x <=? key a) eqn:E; [apply Z.leb_le in E; lia | reflexivity].
Qed.

(** Distinct keys name distinct rows. *)
Lemma find_by_unique (l : list A) r :
  NoDup (map key l) -> In r l -> find_by key (key r) l = Some r.
Proof.
  unfold find_by. induction l as [| a l IH]; intros Hd Hin; [destruct Hin |].
  cbn [find]. cbn [map] in Hd. inversion Hd as [| ? ? Hna Hd']; subst.
  destruct Hin as [-> | Hin].
  - rewrite Z.eqb_refl. reflexivity.
  - destruct (key a =? key r) eqn:E; [| exact (IH Hd' Hin)].
    apply Z.eqb_eq in E. exfalso. apply Hna. rewrite E.
    apply in_map. exact Hin.
Qed.

Lemma find_by_in k (l : list A) r :
  find_by key k l = Some r -> In r l /\ key r = k.
Proof.
  unfold find_by. intros H. apply find_some in H. destruct H as [Hin Hk].
  split; [exact Hin | apply Z.eqb_eq; exact Hk].
Qed.

Lemma find_by_none k (l : list A) :
  (forall r, In r l -> key r <> k) -> find_by key k l = None.
Proof.
  intros H. destruct (find_by key k l) as [r |] eqn:F; [| reflexivity].
  apply find_by_in in F. destruct F as [Hin Hk]. exfalso. exact (H r Hin Hk).
Qed.

Lemma find_by_app k (l l' : list A) :
  find_by key k (l ++ l')
  = match find_by key k l with Some r => Some r | None => find_by key k l' end.
Proof.
  unfold find_by. induction l as [| a l IH]; [reflexivity |].
  cbn [app find]. destruct (key a =? k); [reflexivity | exact IH].
Qed.

Lemma find_by_update_where k k' f (l : list A) :
  (forall r, key (f r) = key r) ->
  find_by key k (update_where key k' f l)
  = option_map (fun r => if key r =? k' then f r else r) (find_by key k l).
Proof.
  intros Hf. unfold find_by, update_where.
  induction l as [| a l IH]; [reflexivity |].
  cbn [map find].
  destruct (key a =? k') eqn:E; [rewrite Hf |];
    destruct (key a =? k); cbn [option_map]; try rewrite E; first [reflexivity | exact IH].
Qed.

End Ordering.

Section Pages.
Import Py Ledger Sql Web.
Variable float_of_str : string -> option float.
Variable mysql_decimal : Z -> Z -> pyval -> option Z.
Variable mysql_varchar : Z -> pyval -> option string.
Variable mysql_project : project_form -> option project_cells.

Let register :=
  register_project float_of_str mysql_decimal mysql_varchar mysql_project.
Let report := generate_report mysql_decimal mysql_varchar.
Let buy := buy_credit float_of_str mysql_decimal mysql_varchar.

Lemma marketplace_page s :
  marketplace s = (MarketPage (select_marketplace (committed s)), s).
Proof.
  unfold marketplace. erewrite serve_of_inr by reflexivity.
  rewrite closed_opened. reflexivity.
Qed.

(** The rows of the marketplace: the available lots, each with its project,
    whose owner is a user. *)
Lemma in_select_marketplace t c p :
  In (c, p) (select_marketplace t)
  <-> In c (credits t) /\ c_status c = available
      /\ find_by p_id (c_project_id c) (projects t) = Some p
      /\ is_user t (p_user_id p) = true.
Proof.
  unfold select_marketplace. rewrite in_order_by_desc, in_flat_map. split.
  - intros (c0 & Hin & Hrow).
    destruct (credit_status_eqb (c_status c0) available) eqn:Hst; [| destruct Hrow].
    destruct (find_by p_id (c_project_id c0) (projects t)) as [p0 |] eqn:Hp;
      [| destruct Hrow].
    destruct (is_user t (p_user_id p0)) eqn:Hu; [| destruct Hrow].
    destruct Hrow as [E | []]. injection E as <- <-.
    repeat split; try assumption.
    destruct (c_status c0); try discriminate Hst. reflexivity.
  - intros (Hin & Hst & Hp & Hu). exists c. split; [exact Hin |].
    rewrite Hst. cbn [credit_status_eqb]. rewrite Hp, Hu. left. reflexivity.
Qed.

(** X21: a lot that was bought is gone from the marketplace, and the rest
    of the page is as it was: the page after the purchase lists exactly the
    rows of the page before it whose lot is another one. *)
Theorem marketplace_drops_the_sold_lot w session method form_amount credit_id s s' :
  buy w session method form_amount credit_id s = (BuyDone, s') ->
  exists before after,
    marketplace s = (MarketPage before, s)
    /\ marketplace s' = (MarketPage after, s')
    /\ forall c p, In (c, p) after <-> In (c, p) before /\ c_id c <> credit_id.
Proof.
  intros H. apply buy_credit_done in H.
  destruct H as (u & credit & p0 & text & amount & price & qa & qp & qt & H).
  decompose [and] H. clear H.
  do 2 eexists. split; [apply marketplace_page |]. split; [apply marketplace_page |].
  intros c p. rewrite !in_select_marketplace.
  match goal with E : committed s' = _ |- _ => rewrite E end.
  unfold sold_out.
  cbn [credits projects with_credits with_transactions].
  change (is_user (with_credits ?t ?l) ?x) with (is_user (committed s) x).
  unfold update_where. rewrite in_map_iff. split.
  - intros ((c0 & E & Hin) & Hst & Hp & Hu).
    destruct (c_id c0 =? credit_id) eqn:Hid.
    + subst c. discriminate Hst.
    + subst c0. apply Z.eqb_neq in Hid. repeat split; assumption.
  - intros ((Hin & Hst & Hp & Hu) & Hne). repeat split; try assumption.
    exists c. split; [| exact Hin].
    apply Z.eqb_neq in Hne. rewrite Hne. reflexivity.
Qed.

(** X22: on a consistent ledger, the lot that [generate_report] has issued
    is on the marketplace at once, beside its project, which is now
    verified and belongs to the session's user. *)
Theorem marketplace_lists_the_issued_lot w session project_id s s' :
  consistent s ->
  report w session project_id s = (ReportIssued, s') ->
  exists lot p page,
    credits (committed s') = (credits (committed s) ++ [lot])%list
    /\ marketplace s' = (MarketPage page, s')
    /\ In (lot, p) page
    /\ p_id p = project_id /\ p_status p = verified
    /\ session = Some (p_user_id p)
    /\ c_issuance_date lot = now w.
Proof.
  intros Hs H. apply generate_report_issued_run in H.
  destruct H as (u & p & a & q & price & url & -> & Hrow & _ & _ & _ & _ & _ & Hs').
  apply select_project_with_assessment_inv in Hrow. destruct Hrow as [Hown _].
  destruct (select_own_project_key _ _ _ _ Hown) as (Hid & Hu & Hin & _).
  destruct Hs as [[Hd _] _ _ _ _ _ Howner _ _ _ _ _ _ _ _ _].
  do 2 eexists. exists (select_marketplace (committed s')).
  split; [rewrite Hs'; reflexivity |].
  split; [apply marketplace_page |].
  split.
  - apply in_select_marketplace. rewrite Hs'.
    cbn [credits projects with_credits with_projects with_assessments c_status
         c_project_id].
    change (is_user (with_credits ?t ?l) ?x) with (is_user (committed s) x).
    split; [apply in_or_app; right; left; reflexivity |].
    split; [reflexivity |].
    rewrite find_by_update_where by reflexivity.
    rewrite <- Hid at 1. rewrite (find_by_unique p_id _ p Hd Hin).
    cbn [option_map]. rewrite Hid, Z.eqb_refl.
    split; [reflexivity |]. cbn [set_project_status p_user_id].
    rewrite Forall_forall in Howner. exact (Howner p Hin).
  - cbn [set_project_status p_id p_status p_user_id c_issuance_date].
    repeat split; try assumption. rewrite Hu. reflexivity.
Qed.

Lemma project_details_page user_id project_id s p :
  select_own_project project_id user_id (committed s) = Some p ->
  project_details (Some user_id) project_id s
  = (DetailsPage p
       (order_by_desc a_date
          (filter (fun a => a_project_id a =? project_id) (assessments (committed s))))
       (order_by_desc c_issuance_date
          (filter (fun c => c_project_id c =? project_id) (credits (committed s))))
       (order_by_desc o_capture_date
          (filter (fun o => o_project_id o =? project_id) (observations (committed s)))),
     s).
Proof.
  intros Hown. unfold project_details.
  erewrite serve_of_inr; [rewrite closed_opened; reflexivity |].
  cbv [bind read ret]. conn_simpl. rewrite Hown. reflexivity.
Qed.

Lemma refers_fresh {B C : Type} (fk : B -> Z) (key : C -> Z) n (l : list B)
    (target : list C) :
  refers fk key l target -> keyed key n target ->
  forall r, In r l -> fk r <> n.
Proof.
  intros Hr [_ Hb] r Hin. unfold refers in Hr.
  rewrite Forall_forall in Hr, Hb. specialize (Hr r Hin).
  apply existsb_exists in Hr. destruct Hr as (x & Hx & Hk).
  apply Z.eqb_eq in Hk. specialize (Hb x Hx). lia.
Qed.

Lemma find_over_app {B : Type} (f : B -> bool) (l l' : list B) :
  find f (l ++ l') = match find f l with Some r => Some r | None => find f l' end.
Proof.
  induction l as [| a l IH]; [reflexivity |].
  cbn [app find]. destruct (f a); [reflexivity | exact IH].
Qed.

Lemma filter_none {B : Type} (f : B -> bool) (l : list B) :
  (forall r, In r l -> f r = false) -> filter f l = [].
Proof.
  induction l as [| a l IH]; intros H; [reflexivity |].
  cbn [filter]. rewrite (H a (or_introl eq_refl)).
  apply IH. intros r Hr. apply H. right. exact Hr.
Qed.

(** X23: round trip.  On a consistent ledger, the details page of a
    project that has just been registered shows, to the user who registered
    it, the project ([assessing]), the one assessment and the one
    observation the registration wrote, and no lot. *)
Theorem project_details_after_registration w session method form s project_id s' :
  consistent s ->
  register w session method form s = (RegisterDone project_id, s') ->
  exists p a o,
    project_details session project_id s' = (DetailsPage p [a] [] [o], s')
    /\ projects (committed s') = (projects (committed s) ++ [p])%list
    /\ assessments (committed s') = (assessments (committed s) ++ [a])%list
    /\ observations (committed s') = (observations (committed s) ++ [o])%list
    /\ p_status p = assessing.
Proof.
  intros Hs H.
  destruct Hs as [Kp _ _ _ _ _ _ Ra Rc _ _ _ Ro _ _ _].
  pose proof (refers_fresh _ _ _ _ _ Ra Kp) as Fa.
  pose proof (refers_fresh _ _ _ _ _ Rc Kp) as Fc.
  pose proof (refers_fresh _ _ _ _ _ Ro Kp) as Fo.
  assert (Fp : forall p, In p (projects (committed s)) ->
                         p_id p <> next_project (autoinc s)).
  { intros p Hin. destruct Kp as [_ Hb]. rewrite Forall_forall in Hb.
    specialize (Hb p Hin). lia. }
  apply register_project_done in H.
  destruct H as (user_id & cells & area & orow & est & conf & meth & ver & lrow & H).
  cbv zeta in H.
  destruct H as (-> & -> & _ & _ & _ & -> & _ & _ & _ & _ & _ & _ & _ & Ho & Hs').
  assert (Hp' : projects (committed s')
                = (projects (committed s) ++ [
                     {| p_id := next_project (autoinc s); p_user_id := user_id;
                        p_name := f_project_name form;
                        p_type := k_type cells; p_lat := k_lat cells;
                        p_lng := k_lng cells;
                        p_area_size := k_area_size cells;
                        p_area_unit := k_area_unit cells;
                        p_description := f_description form;
                        p_start_date := k_start_date cells;
                        p_created_at := now w; p_status := assessing;
                        p_boundary := f_boundary_geojson form |}])%list).
  { rewrite Hs'. cbn [projects with_projects].
    rewrite update_where_fresh by (first [exact Fp | reflexivity]). reflexivity. }
  do 3 eexists. split.
  - erewrite project_details_page.
    + rewrite Hs'.
      cbn [projects assessments observations logs credits with_projects with_assessments
           with_observations with_logs].
      rewrite !filter_app.
      rewrite (filter_none _ (assessments (committed s))),
              (filter_none _ (credits (committed s))),
              (filter_none _ (observations (committed s))).
      * cbn [filter app a_project_id]. rewrite Ho, Z.eqb_refl. reflexivity.
      * intros r Hr. apply Z.eqb_neq. exact (Fo r Hr).
      * intros r Hr. apply Z.eqb_neq. exact (Fc r Hr).
      * intros r Hr. apply Z.eqb_neq. exact (Fa r Hr).
    + unfold select_own_project. rewrite Hp'.
      rewrite find_over_app.
      match goal with
      | |- match find ?f ?l with _ => _ end = _ =>
          destruct (find f l) as [p0 |] eqn:F
      end.
      * apply find_some in F. destruct F as [Hin Hk].
        apply andb_true_iff in Hk. destruct Hk as [Hk _].
        apply Z.eqb_eq in Hk. exfalso. exact (Fp p0 Hin Hk).
      * cbn [find p_id p_user_id]. rewrite !Z.eqb_refl. reflexivity.
  - split; [exact Hp' |]. rewrite Hs'.
    cbn [projects assessments observations logs with_projects with_assessments
         with_observations with_logs].
    repeat split.
Qed.

Lemma dashboard_page user_id s :
  dashboard (Some user_id) s
  = (DashboardPage (select_user_projects user_id (committed s))
       (select_user_credits user_id (committed s))
       (select_user_transactions user_id (committed s)), s).
Proof.
  unfold dashboard. erewrite serve_of_inr by reflexivity.
  rewrite closed_opened. reflexivity.
Qed.

Lemma select_available_credit_project credit_id t credit p :
  select_available_credit credit_id t = Some (credit, p) ->
  find_by p_id (c_project_id credit) (projects t) = Some p.
Proof.
  unfold select_available_credit.
  destruct (find _ (credits t)) as [c |]; [| discriminate].
  destruct (find_by p_id (c_project_id c) (projects t)) as [p0 |] eqn:F; [| discriminate].
  intros H. injection H as <- <-. exact F.
Qed.

(** X24: on a consistent ledger, after a purchase the new transaction
    heads the transactions of the dashboard of the buyer and of the seller,
    joined with the lot (now sold) and its project, when the clock is past
    the dates of the earlier transactions. *)
Theorem dashboard_shows_the_purchase w session method form_amount credit_id s s' :
  consistent s ->
  (forall x, In x (transactions (committed s)) -> t_date x < now w) ->
  buy w session method form_amount credit_id s = (BuyDone, s') ->
  exists row lot p,
    transactions (committed s') = (transactions (committed s) ++ [row])%list
    /\ session = Some (t_buyer_id row)
    /\ t_seller_id row = p_user_id p
    /\ c_id lot = credit_id /\ c_status lot = sold
    /\ forall user_id, user_id = t_buyer_id row \/ user_id = t_seller_id row ->
       exists projects credits rest,
         dashboard (Some user_id) s'
         = (DashboardPage projects credits ((row, lot, p) :: rest), s').
Proof.
  intros Hs Hold H. apply buy_credit_done in H.
  destruct H as (u & credit & p & text & amount & price & qa & qp & qt & H).
  destruct H as (-> & _ & _ & Hrow & _ & _ & _ & _ & _ & _ & _ & _ & Hs').
  destruct Hs as [_ _ [Kc _] _ _ _ _ _ _ _ _ _ _ _ _ _].
  destruct (select_available_credit_key _ _ _ _ Hrow) as (_ & Hid & _ & Hin).
  pose proof (select_available_credit_project _ _ _ _ Hrow) as Hp.
  do 2 eexists. exists p.
  split; [rewrite Hs'; reflexivity |].
  cbn [t_buyer_id t_seller_id].
  split; [reflexivity |]. split; [reflexivity |].
  split; [| split]; cycle 2.
  - intros user_id Hparty. rewrite dashboard_page.
    do 3 eexists. f_equal. f_equal.
    unfold select_user_transactions. rewrite Hs'. unfold sold_out.
    cbn [transactions credits projects with_credits with_transactions].
    rewrite flat_map_app. cbn [flat_map t_seller_id t_buyer_id t_credit_id].
    assert (Hu : (p_user_id p =? user_id) || (u =? user_id) = true).
    { apply orb_true_iff. destruct Hparty as [-> | ->];
        [right | left]; apply Z.eqb_refl. }
    rewrite Hu.
    rewrite find_by_update_where by reflexivity.
    rewrite <- Hid at 1. rewrite (find_by_unique c_id _ credit Kc Hin).
    cbn [option_map]. rewrite Hid, Z.eqb_refl.
    cbn [set_credit_status c_project_id]. rewrite Hp.
    rewrite app_nil_r.
    rewrite order_by_desc_newest.
    + reflexivity.
    + intros [[x c0] p0] Hx. cbn [fst t_date].
      apply in_flat_map in Hx. destruct Hx as (x0 & Hx0 & Hx).
      destruct ((t_seller_id x0 =? user_id) || (t_buyer_id x0 =? user_id));
        [| destruct Hx].
      destruct (find_by c_id (t_credit_id x0) _) as [c1 |]; [| destruct Hx].
      destruct (find_by p_id (c_project_id c1) _) as [p1 |]; [| destruct Hx].
      destruct Hx as [E | []]. injection E as <- _ _. exact (Hold x0 Hx0).
  - exact Hid.
  - reflexivity.
Qed.

End Pages.

(** User 2 buys lot 1: the marketplace is left with lot 2. *)
Lemma marketplace_drops_the_sold_lot_seed :
  exists before after,
    marketplace Plain.seed = (Web.MarketPage before, Plain.seed)
    /\ fst (marketplace
              (snd (Plain.buy_credit Plain.offline (Some 2) Web.POST (Some "5000") 1
                      Plain.seed)))
       = Web.MarketPage after
    /\ map (fun r => Ledger.c_id (fst r)) before = [1; 2]
    /\ map (fun r => Ledger.c_id (fst r)) after = [2]
    /\ forall c p, In (c, p) after <-> In (c, p) before /\ Ledger.c_id c <> 1.
Proof.
  destruct (marketplace_drops_the_sold_lot Plain.float_of_str Plain.mysql_decimal
              Plain.mysql_varchar Plain.offline (Some 2) Web.POST (Some "5000") 1
              Plain.seed
              (snd (Plain.buy_credit Plain.offline (Some 2) Web.POST (Some "5000") 1
                      Plain.seed)))
    as (before & after & Hb & Ha & H).
  { vm_compute. reflexivity. }
  exists before, after.
  split; [exact Hb |]. split; [rewrite Ha; reflexivity |].
  split; [vm_compute in Hb; injection Hb as <-; reflexivity |].
  split; [vm_compute in Ha; injection Ha as <-; reflexivity |].
  exact H.
Defined.

(** User 1 has the report of project 1 issued: the new lot is offered. *)
Lemma marketplace_lists_the_issued_lot_seed :
  exists lot p page,
    Ledger.credits (Ledger.committed Plain.after_report)
    = (Ledger.credits (Ledger.committed Plain.seed) ++ [lot])%list
    /\ marketplace Plain.after_report = (Web.MarketPage page, Plain.after_report)
    /\ In (lot, p) page
    /\ Ledger.p_id p = 1 /\ Ledger.p_status p = Ledger.verified.
Proof.
  destruct (marketplace_lists_the_issued_lot Plain.mysql_decimal Plain.mysql_varchar
              Plain.offline (Some 1) 1 Plain.seed Plain.after_report seed_consistent)
    as (lot & p & page & Hc & Hm & Hin & Hid & Hst & _).
  { vm_compute. reflexivity. }
  exists lot, p, page. repeat split; assumption.
Defined.

(** User 1 registers the mangrove belt and opens its details page. *)
Lemma project_details_after_registration_seed :
  exists p a o,
    project_details (Some 1) 3
      (snd (Plain.register_project Plain.offline (Some 1) Web.POST Plain.mangrove_form
              Plain.seed))
    = (Web.DetailsPage p [a] [] [o],
       snd (Plain.register_project Plain.offline (Some 1) Web.POST Plain.mangrove_form
              Plain.seed))
    /\ Ledger.p_status p = Ledger.assessing.
Proof.
  destruct (project_details_after_registration Plain.float_of_str Plain.mysql_decimal
              Plain.mysql_varchar Plain.mysql_project Plain.offline (Some 1) Web.POST
              Plain.mangrove_form Plain.seed 3
              (snd (Plain.register_project Plain.offline (Some 1) Web.POST
                      Plain.mangrove_form Plain.seed)) seed_consistent)
    as (p & a & o & Hd & _ & _ & _ & Hst).
  { vm_compute. reflexivity. }
  exists p, a, o. split; assumption.
Defined.

(** User 2 buys lot 1 of user 1 at noon: the purchase heads both
    dashboards. *)
Lemma dashboard_shows_the_purchase_seed :
  exists row lot p,
    Ledger.t_buyer_id row = 2 /\ Ledger.t_seller_id row = 1
    /\ Ledger.c_id lot = 1 /\ Ledger.c_status lot = Ledger.sold
    /\ (exists projects credits rest,
          dashboard (Some 2)
            (snd (Plain.buy_credit Plain.offline (Some 2) Web.POST (Some "5000") 1
                    Plain.seed))
          = (Web.DashboardPage projects credits ((row, lot, p) :: rest),
             snd (Plain.buy_credit Plain.offline (Some 2) Web.POST (Some "5000") 1
                    Plain.seed)))
    /\ (exists projects credits rest,
          dashboard (Some 1)
            (snd (Plain.buy_credit Plain.offline (Some 2) Web.POST (Some "5000") 1
                    Plain.seed))
          = (Web.DashboardPage projects credits ((row, lot, p) :: rest),
             snd (Plain.buy_credit Plain.offline (Some 2) Web.POST (Some "5000") 1
                    Plain.seed))).
Proof.
  destruct (dashboard_shows_the_purchase Plain.float_of_str Plain.mysql_decimal
              Plain.mysql_varchar Plain.offline (Some 2) Web.POST (Some "5000") 1
              Plain.seed
              (snd (Plain.buy_credit Plain.offline (Some 2) Web.POST (Some "5000") 1
                      Plain.seed)) seed_consistent)
    as (row & lot & p & Ht & Hb & Hs & Hid & Hst & Hd).
  { intros x Hin. cbn in Hin.
    destruct Hin as [<- | [<- | []]]; vm_compute; reflexivity. }
  { vm_compute. reflexivity. }
  assert (Hs1 : Ledger.t_seller_id row = 1).
  { vm_compute in Ht. injection Ht as <-. reflexivity. }
  injection Hb as Hb.
  exists row, lot, p.
  split; [symmetry; exact Hb |]. split; [exact Hs1 |].
  split; [exact Hid |]. split; [exact Hst |].
  split.
  - apply Hd. left. exact Hb.
  - apply Hd. right. symmetry. exact Hs1.
Defined.

(** ** Accounts: [register], [login], [logout] *)

Section Accounts.
Import Py Web Members.
Variable same_text : string -> string -> bool.
Variable generate_password_hash : string -> string -> string.
Variable check_password_hash : string -> string -> bool.
Variable mysql_varchar : Z -> pyval -> option string.
Variable mysql_user_type : string -> option user_type.

Let signup := register same_text generate_password_hash mysql_varchar mysql_user_type.
Let signin := login same_text check_password_hash.

Lemma select_user_by_email_none email d :
  existsb (fun u => same_text (u_email u) email) (members d) = false ->
  select_user_by_email same_text email d = None.
Proof.
  intros H. unfold select_user_by_email.
  destruct (find _ (members d)) as [u |] eqn:F; [| reflexivity].
  apply find_some in F. destruct F as [Hin Hu].
  assert (E : existsb (fun u => same_text (u_email u) email) (members d) = true).
  { apply existsb_exists. exists u. split; assumption. }
  rewrite E in H. discriminate H.
Qed.

Lemma select_user_by_email_new email d u :
  select_user_by_email same_text email d = None ->
  same_text (u_email u) email = true ->
  select_user_by_email same_text email
    {| members := members d ++ [u]; next_user := next_user d + 1 |} = Some u.
Proof.
  unfold select_user_by_email. cbn [members]. intros Hnone Hu.
  rewrite find_over_app, Hnone. cbn [find]. rewrite Hu. reflexivity.
Qed.

(** A registration that is accepted: the row it adds, and the session it
    opens. *)
Lemma register_accepted salt t form session d name hash type :
  select_user_by_email same_text (s_email form) d = None ->
  mysql_varchar 100 (PStr (s_username form)) = Some name ->
  mysql_varchar 100 (PStr (s_email form)) = Some (s_email form) ->
  mysql_varchar 200 (PStr (generate_password_hash salt (s_password form))) = Some hash ->
  mysql_user_type (s_user_type form) = Some type ->
  existsb (fun u => same_text (u_username u) name) (members d) = false ->
  same_text (s_email form) (s_email form) = true ->
  signup salt t POST form session d
  = (SignupDone,
     Some {| session_user_id := next_user d; session_username := s_username form |},
     {| members := members d ++ [
          {| u_id := next_user d; u_username := name; u_email := s_email form;
             u_password_hash := hash; u_created_at := t; u_type := type;
             u_profile_img_url := None; u_verification := u_pending |}];
        next_user := next_user d + 1 |}).
Proof.
  intros Hnew Hname Hmail Hhash Htype Hfree Hrefl.
  unfold signup, register. rewrite Hnew.
  unfold insert_user. rewrite Hname, Hmail, Hhash, Htype.
  assert (Hdup : existsb (fun u => same_text (u_username u) name
                                   || same_text (u_email u) (s_email form))
                         (members d) = false).
  { apply not_true_is_false. intros E. apply existsb_exists in E.
    destruct E as (u & Hin & Hu). apply orb_true_iff in Hu. destruct Hu as [Hu | Hu].
    - assert (E : existsb (fun u => same_text (u_username u) name) (members d) = true)
        by (apply existsb_exists; exists u; split; assumption).
      rewrite E in Hfree. discriminate Hfree.
    - unfold select_user_by_email in Hnew.
      apply (find_none _ _ Hnew) in Hin. rewrite Hin in Hu. discriminate Hu. }
  rewrite Hdup.
  erewrite select_user_by_email_new; [reflexivity | exact Hnew | exact Hrefl].
Qed.

(** X25: round trip.  Who has registered (a new email, a free user name, a
    form the table accepts) is in the session under the next id, and can
    then log in with the same email and password, which opens a session
    under the same id; a password that the hash rejects is answered
    'Invalid email or password' and leaves the session as it was. *)
Theorem register_then_login salt t form session d name hash type :
  select_user_by_email same_text (s_email form) d = None ->
  mysql_varchar 100 (PStr (s_username form)) = Some name ->
  mysql_varchar 100 (PStr (s_email form)) = Some (s_email form) ->
  mysql_varchar 200 (PStr (generate_password_hash salt (s_password form))) = Some hash ->
  mysql_user_type (s_user_type form) = Some type ->
  existsb (fun u => same_text (u_username u) name) (members d) = false ->
  same_text (s_email form) (s_email form) = true ->
  check_password_hash hash (s_password form) = true ->
  exists d',
    signup salt t POST form session d
    = (SignupDone,
       Some {| session_user_id := next_user d; session_username := s_username form |}, d')
    /\ user_ids d' = (user_ids d ++ [next_user d])%list
    /\ (forall session',
          signin POST (s_email form) (s_password form) session' d'
          = (LoginDone,
             Some {| session_user_id := next_user d; session_username := name |}))
    /\ (forall password session',
          check_password_hash hash password = false ->
          signin POST (s_email form) password session' d' = (LoginInvalid, session')).
Proof.
  intros Hnew Hname Hmail Hhash Htype Hfree Hrefl Hcheck.
  eexists. split; [eapply register_accepted; eassumption |].
  split.
  - unfold user_ids. cbn [members]. rewrite map_app. reflexivity.
  - split.
    + intros session'. unfold signin, login.
      erewrite select_user_by_email_new; [| exact Hnew | exact Hrefl].
      cbn [u_password_hash u_id u_username]. rewrite Hcheck. reflexivity.
    + intros password session' Hbad. unfold signin, login.
      erewrite select_user_by_email_new; [| exact Hnew | exact Hrefl].
      cbn [u_password_hash]. rewrite Hbad. reflexivity.
Qed.

(** A registration that succeeded found no row with its email, had its
    row accepted, and then found the row. *)
Lemma register_done salt t method form session d session' d' :
  signup salt t method form session d = (SignupDone, session', d') ->
  method = POST
  /\ select_user_by_email same_text (s_email form) d = None
  /\ insert_user same_text mysql_varchar mysql_user_type (s_username form) (s_email form)
       (generate_password_hash salt (s_password form)) (s_user_type form) t d = inr d'
  /\ exists u, select_user_by_email same_text (s_email form) d' = Some u
               /\ session' = Some {| session_user_id := u_id u;
                                     session_username := s_username form |}.
Proof.
  unfold signup, register. destruct method; [discriminate |].
  destruct (select_user_by_email same_text (s_email form) d); [discriminate |].
  destruct (insert_user _ _ _ _ _ _ _ _ d) as [e | d1]; [discriminate |].
  destruct (select_user_by_email same_text (s_email form) d1) as [u |] eqn:F;
    [| discriminate].
  intros H. injection H as <- <-.
  repeat split. exists u. split; [exact F | reflexivity].
Qed.

Lemma insert_user_inr name email hash type t d d' :
  insert_user same_text mysql_varchar mysql_user_type name email hash type t d = inr d' ->
  exists u,
    d' = {| members := members d ++ [u]; next_user := next_user d + 1 |}
    /\ u_id u = next_user d
    /\ mysql_varchar 100 (PStr name) = Some (u_username u)
    /\ mysql_varchar 100 (PStr email) = Some (u_email u)
    /\ mysql_varchar 200 (PStr hash) = Some (u_password_hash u)
    /\ existsb (fun x => same_text (u_username x) (u_username u)
                         || same_text (u_email x) (u_email u)) (members d) = false.
Proof.
  unfold insert_user.
  destruct (mysql_varchar 100 (PStr name)) as [n |]; [| discriminate].
  destruct (mysql_varchar 100 (PStr email)) as [m |]; [| discriminate].
  destruct (mysql_varchar 200 (PStr hash)) as [h |]; [| discriminate].
  destruct (mysql_user_type type) as [ty |]; [| discriminate].
  destruct (existsb _ (members d)) eqn:E; [discriminate |].
  intros H. injection H as <-. eexists. split; [reflexivity |].
  cbn [u_id u_username u_email u_password_hash]. repeat split. exact E.
Qed.

(** X26: an email registers once.  After a registration that succeeded, a
    second one with the same email is answered 'Email already registered',
    whatever the rest of its form, and adds nothing. *)
Theorem register_email_once salt t method form session d session' d' :
  signup salt t method form session d = (SignupDone, session', d') ->
  forall salt' t' form' session'',
    s_email form' = s_email form ->
    signup salt' t' POST form' session'' d' = (SignupEmailTaken, session'', d').
Proof.
  intros H salt' t' form' session'' Hmail. apply register_done in H.
  destruct H as (_ & _ & _ & u & Hu & _).
  unfold signup, register. rewrite Hmail, Hu. reflexivity.
Qed.

(** X27: a user name registers once, though [register] looks only for the
    email.  With another email, the row of a second registration under the
    same name is refused by the table's [UNIQUE] key: the answer is the
    error, no row is added and the session is as it was. *)
Theorem register_username_once salt t method form session d session' d' :
  signup salt t method form session d = (SignupDone, session', d') ->
  forall salt' t' form' session'' name hash type,
    select_user_by_email same_text (s_email form') d' = None ->
    mysql_varchar 100 (PStr (s_username form)) = Some name ->
    s_username form' = s_username form ->
    (exists mail, mysql_varchar 100 (PStr (s_email form')) = Some mail) ->
    mysql_varchar 200 (PStr (generate_password_hash salt' (s_password form'))) = Some hash ->
    mysql_user_type (s_user_type form') = Some type ->
    same_text name name = true ->
    fst (signup salt' t' POST form' session'' d')
    = (SignupError IntegrityError, session'')
    /\ members (snd (signup salt' t' POST form' session'' d')) = members d'.
Proof.
  intros H salt' t' form' session'' name hash type Hnew Hname Hsame [mail Hmail]
    Hhash Htype Hrefl.
  enough (E : signup salt' t' POST form' session'' d'
              = (SignupError IntegrityError, session'', d'))
    by (rewrite E; split; reflexivity).
  apply register_done in H. destruct H as (_ & _ & Hins & _).
  apply insert_user_inr in Hins.
  destruct Hins as (u & -> & _ & Hn & _ & _ & _).
  rewrite Hname in Hn. injection Hn as Hn.
  unfold signup, register. rewrite Hnew.
  unfold insert_user. rewrite Hsame, Hname, Hmail, Hhash, Htype.
  cbn [members]. rewrite existsb_app. cbn [existsb].
  rewrite <- Hn, Hrefl. cbn [orb]. rewrite orb_true_r. reflexivity.
Qed.

End Accounts.

Section Gate.
Import Py Ledger Sql Web Members.
Variable float_of_str : string -> option float.
Variable mysql_decimal : Z -> Z -> pyval -> option Z.
Variable mysql_varchar : Z -> pyval -> option string.
Variable mysql_project : project_form -> option project_cells.

(** After [logout] the session is empty; and without a session every page
    of the ledger answers with the login redirect and leaves the store as it
    is, except the marketplace, which asks for no session. *)
Lemma logout_closes_the_ledger session w method form form_amount project_id credit_id s :
  let anonymous := user_id_of (logout session) in
  is_logged_in (logout session) = false
  /\ dashboard anonymous s = (DashboardLogin, s)
  /\ register_project float_of_str mysql_decimal mysql_varchar mysql_project
       w anonymous method form s = (RegisterLogin, s)
  /\ project_assessment float_of_str mysql_decimal mysql_varchar
       w anonymous project_id s = (AssessmentLogin, s)
  /\ generate_report mysql_decimal mysql_varchar w anonymous project_id s
     = (ReportLogin, s)
  /\ project_details anonymous project_id s = (DetailsLogin, s)
  /\ buy_credit float_of_str mysql_decimal mysql_varchar
       w anonymous method form_amount credit_id s = (BuyLogin, s)
  /\ marketplace s = (MarketPage (select_marketplace (committed s)), s).
Proof.
  cbv zeta. repeat split. apply marketplace_page.
Qed.

End Gate.

(** Amina registers on the seed users and logs in. *)
Lemma register_then_login_amina :
  exists d',
    Plain.register "na" Plain.noon Web.POST Plain.amina None Plain.seed_members
    = (Members.SignupDone,
       Some {| Members.session_user_id := 3; Members.session_username := "amina" |}, d')
    /\ Members.user_ids d' = [1; 2; 3]
    /\ Plain.login Web.POST "amina@example.com" "s3cret" None d'
       = (Members.LoginDone,
          Some {| Members.session_user_id := 3; Members.session_username := "amina" |})
    /\ Plain.login Web.POST "amina@example.com" "guess" None d'
       = (Members.LoginInvalid, None).
Proof.
  destruct (register_then_login Plain.same_text Plain.generate_password_hash
              Plain.check_password_hash Plain.mysql_varchar Plain.mysql_user_type
              "na" Plain.noon Plain.amina None Plain.seed_members
              "amina" "s3cret$na" Members.individual
              eq_refl eq_refl eq_refl eq_refl eq_refl eq_refl eq_refl eq_refl)
    as (d' & Hr & Hids & Hok & Hbad).
  exists d'. split; [exact Hr |]. split; [exact Hids |].
  split; [apply Hok | apply Hbad; reflexivity].
Defined.

(** A second registration with Amina's email, under another name. *)
Lemma register_email_once_amina :
  Plain.register "cl" Plain.noon Web.POST
    {| Members.s_username := "other"; Members.s_email := "amina@example.com";
       Members.s_password := "pw"; Members.s_user_type := "organization" |}
    None
    (snd (Plain.register "na" Plain.noon Web.POST Plain.amina None Plain.seed_members))
  = (Members.SignupEmailTaken, None,
     snd (Plain.register "na" Plain.noon Web.POST Plain.amina None Plain.seed_members)).
Proof.
  apply (register_email_once Plain.same_text Plain.generate_password_hash
           Plain.mysql_varchar Plain.mysql_user_type "na" Plain.noon Web.POST
           Plain.amina None Plain.seed_members
           (Some {| Members.session_user_id := 3; Members.session_username := "amina" |}));
    reflexivity.
Defined.

(** A second registration under Amina's name, with another email. *)
Lemma register_username_once_amina :
  fst (Plain.register "cl" Plain.noon Web.POST Plain.amina_again None
         (snd (Plain.register "na" Plain.noon Web.POST Plain.amina None
                 Plain.seed_members)))
  = (Members.SignupError Py.IntegrityError, None)
  /\ Members.members
       (snd (Plain.register "cl" Plain.noon Web.POST Plain.amina_again None
               (snd (Plain.register "na" Plain.noon Web.POST Plain.amina None
                       Plain.seed_members))))
     = Members.members
         (snd (Plain.register "na" Plain.noon Web.POST Plain.amina None
                 Plain.seed_members)).
Proof.
  apply (register_username_once Plain.same_text Plain.generate_password_hash
           Plain.mysql_varchar Plain.mysql_user_type "na" Plain.noon Web.POST
           Plain.amina None Plain.seed_members
           (Some {| Members.session_user_id := 3; Members.session_username := "amina" |})
           (snd (Plain.register "na" Plain.noon Web.POST Plain.amina None
                   Plain.seed_members))
           eq_refl "cl" Plain.noon Plain.amina_again None
           "amina" "other$cl" Members.organization);
    try reflexivity.
  exists "amina@example.org". reflexivity.
Defined.

(** ** The statuses the handlers write *)

Section Kept.
Import Py Ledger Sql.
Variable I : tables -> Prop.

Lemma kept_ret {A : Type} (x : A) : kept I (ret x).
Proof. intros c Hd Hw. split; assumption. Qed.

Lemma kept_raise {A : Type} (e : exn) : kept I (@raise A e).
Proof. intros c Hd Hw. split; assumption. Qed.

Lemma kept_lift {A : Type} (r : result A) : kept I (lift r).
Proof. intros c Hd Hw. split; assumption. Qed.

Lemma kept_read {A : Type} (q : tables -> A) : kept I (read q).
Proof. intros c Hd Hw. split; assumption. Qed.

Lemma kept_last : kept I select_last_insert_id.
Proof. intros c Hd Hw. split; assumption. Qed.

Lemma kept_fresh next bump : kept I (fresh next bump).
Proof. intros c Hd Hw. split; assumption. Qed.

Lemma kept_require ok e : kept I (require ok e).
Proof. intros c Hd Hw. split; assumption. Qed.

Lemma kept_commit : kept I commit.
Proof. intros c Hd Hw. split; assumption. Qed.

Lemma kept_write (g : tables -> tables) :
  (forall t, I t -> I (g t)) -> kept I (write g).
Proof. intros Hg c Hd Hw. split; [assumption | apply Hg; assumption]. Qed.

Lemma kept_bind {A B : Type} (m : sql A) (k : A -> sql B) :
  kept I m -> (forall x, kept I (k x)) -> kept I (bind m k).
Proof.
  intros Hm Hk c Hd Hw. unfold bind. specialize (Hm c Hd Hw).
  destruct (m c) as [[e | x] c1]; cbn [snd] in *; [exact Hm |].
  destruct Hm as [Hd1 Hw1]. exact (Hk x c1 Hd1 Hw1).
Qed.

Lemma kept_try_except {A : Type} (m : sql A) (h : exn -> sql A) :
  kept I m -> (forall e, kept I (h e)) -> kept I (try_except m h).
Proof.
  intros Hm Hh c Hd Hw. unfold try_except. specialize (Hm c Hd Hw).
  destruct (m c) as [[e | x] c1]; cbn [snd] in *; [| exact Hm].
  destruct Hm as [Hd1 Hw1]. exact (Hh e c1 Hd1 Hw1).
Qed.

Lemma kept_if {A : Type} (b : bool) (m1 m2 : sql A) :
  kept I m1 -> kept I m2 -> kept I (if b then m1 else m2).
Proof. destruct b; trivial. Qed.

Lemma kept_serve {R : Type} (body : sql R) (h : exn -> R) s :
  kept I body -> I (committed s) -> I (committed (snd (serve body h s))).
Proof.
  intros Hb Hs. rewrite serve_store. cbn [closed committed].
  exact (proj1 (Hb (opened s) Hs Hs)).
Qed.

End Kept.

#[export] Hint Resolve kept_ret kept_raise kept_lift kept_read kept_last kept_fresh
  kept_require kept_commit : sql.

Section Statuses.
Import Py Ledger Sql Web.
Variable float_of_str : string -> option float.
Variable mysql_decimal : Z -> Z -> pyval -> option Z.
Variable mysql_varchar : Z -> pyval -> option string.
Variable mysql_project : project_form -> option project_cells.

Let register :=
  register_project float_of_str mysql_decimal mysql_varchar mysql_project.
Let assess := project_assessment float_of_str mysql_decimal mysql_varchar.
Let report := generate_report mysql_decimal mysql_varchar.
Let buy := buy_credit float_of_str mysql_decimal mysql_varchar.

Lemma forallb_update_where {A : Type} (ok : A -> bool) (key : A -> Z) k f (l : list A) :
  (forall r, ok (f r) = true) ->
  forallb ok l = true -> forallb ok (update_where key k f l) = true.
Proof.
  intros Hf H. unfold update_where. rewrite forallb_forall in *.
  intros x Hx. apply in_map_iff in Hx. destruct Hx as (r & <- & Hr).
  destruct (key r =? k); [apply Hf | apply H; exact Hr].
Qed.

Lemma forallb_update_same {A : Type} (ok : A -> bool) (key : A -> Z) k f (l : list A) :
  (forall r, ok (f r) = ok r) ->
  forallb ok l = true -> forallb ok (update_where key k f l) = true.
Proof.
  intros Hf H. unfold update_where. rewrite forallb_forall in *.
  intros x Hx. apply in_map_iff in Hx. destruct Hx as (r & <- & Hr).
  destruct (key r =? k); [rewrite Hf |]; apply H; exact Hr.
Qed.

Lemma forallb_snoc {A : Type} (ok : A -> bool) (l : list A) r :
  ok r = true -> forallb ok l = true -> forallb ok (l ++ [r]) = true.
Proof. intros Hr H. rewrite forallb_app, H. cbn. rewrite Hr. reflexivity. Qed.

(** One write of a handler keeps the written statuses. *)
Ltac status_write :=
  apply kept_write; intros t Ht; unfold written_statuses in *;
  cbn [projects assessments credits transactions logs observations
       with_projects with_assessments with_credits with_transactions
       with_observations with_logs];
  repeat match goal with
         | H : _ && _ = true |- _ => apply andb_true_iff in H; destruct H
         end;
  repeat (apply andb_true_iff; split);
  first
    [ assumption
    | apply forallb_snoc; [reflexivity | assumption]
    | apply forallb_update_where; [intros; reflexivity | assumption]
    | apply forallb_update_same; [intros; reflexivity | assumption] ].

Ltac status_chain :=
  cbv zeta;
  repeat first
    [ solve [auto with sql]
    | status_write
    | apply kept_if
    | apply kept_bind; [| intro] ].

(** X28: the handlers write few of the statuses the schema allows.  When the
    published ledger holds only projects that are registered, assessing or
    verified, assessments that are pending or approved, lots that are
    available or sold, completed transactions and initial verification logs,
    it still does after any request to [register_project],
    [project_assessment], [generate_report] or [buy_credit], whatever the
    answer: no handler makes a project active or completed, rejects an
    assessment, reserves or expires a lot, or leaves a transaction pending or
    cancelled. *)
Theorem handlers_write_few_statuses s :
  written_statuses (committed s) = true ->
  (forall w session method form,
      written_statuses (committed (snd (register w session method form s))) = true)
  /\ (forall w session project_id,
        written_statuses (committed (snd (assess w session project_id s))) = true)
  /\ (forall w session project_id,
        written_statuses (committed (snd (report w session project_id s))) = true)
  /\ (forall w session method form_amount credit_id,
        written_statuses
          (committed (snd (buy w session method form_amount credit_id s))) = true).
Proof.
  intros Hs. split; [| split; [| split]].
  - intros w session method form. unfold register, register_project.
    destruct session as [user_id |]; [destruct method |]; try exact Hs.
    apply (kept_serve (fun t => written_statuses t = true)); [| exact Hs].
    unfold insert_project, insert_observation, insert_assessment, insert_log,
      update_project_status.
    status_chain.
  - intros w session project_id. unfold assess, project_assessment.
    destruct session as [user_id |]; try exact Hs.
    apply (kept_serve (fun t => written_statuses t = true)); [| exact Hs].
    apply kept_bind; [auto with sql |].
    intros [p |]; [| auto with sql].
    unfold insert_observation, insert_assessment, insert_log, update_project_status.
    apply kept_bind; [status_write | intro].
    apply kept_bind; [auto with sql | intro].
    apply kept_try_except; [| intro; auto with sql].
    status_chain.
  - intros w session project_id. unfold report, generate_report.
    destruct session as [user_id |]; try exact Hs.
    apply (kept_serve (fun t => written_statuses t = true)); [| exact Hs].
    apply kept_bind; [auto with sql |].
    intros [[p a] |]; [| auto with sql].
    unfold update_assessment_report, update_project_status, insert_credit.
    status_chain.
  - intros w session method form_amount credit_id. unfold buy, buy_credit.
    destruct session as [user_id |]; try exact Hs.
    apply (kept_serve (fun t => written_statuses t = true)); [| exact Hs].
    apply kept_bind; [auto with sql |].
    intros [[credit p] |]; [| auto with sql].
    destruct method; [auto with sql |].
    unfold insert_transaction, update_credit_status, update_credit_amount, insert_credit.
    status_chain.
Qed.

End Statuses.

(** The seed ledger holds only such statuses, and so does the ledger after
    the report of project 1. *)
Lemma handlers_write_few_statuses_seed :
  written_statuses
    (Ledger.committed (snd (Plain.generate_report Plain.offline (Some 1) 1 Plain.seed)))
  = true.
Proof.
  exact (proj1 (proj2 (proj2
           (handlers_write_few_statuses Plain.float_of_str Plain.mysql_decimal
              Plain.mysql_varchar Plain.mysql_project Plain.seed eq_refl)))
           Plain.offline (Some 1) 1).
Defined.

(** ** The Assessment Recorder: where a request stops

    [register_project] and [project_assessment] commit after every
    [INSERT].  A request that fails has stopped at the first statement the
    server refuses, and what was inserted before it stays. *)

(** A row refused although the rows it refers to are there is refused for
    what it holds, on every connection. *)
Ltac refusal H Hk :=
  unfold refuses; intros c';
  cbv [Sql.bind Sql.lift Sql.read Sql.require Sql.fresh Sql.write] in H |- *;
  rewrite ?Hk in H;
  repeat match goal with
         | |- context [match ?x with _ => _ end] => destruct x
         end;
  cbn [fst andb] in H |- *;
  first [exact H | discriminate H].

(** [conn_simpl], and the counters. *)
Ltac seq_simpl :=
  conn_simpl;
  cbn [Ledger.next_project Ledger.next_assessment Ledger.next_credit
       Ledger.next_transaction Ledger.next_observation Ledger.next_log] in *.

Section Stops.
Import Py Ledger Sql Web.
Variable float_of_str : string -> option float.
Variable mysql_decimal : Z -> Z -> pyval -> option Z.
Variable mysql_varchar : Z -> pyval -> option string.
Variable mysql_project : project_form -> option project_cells.

Let register :=
  register_project float_of_str mysql_decimal mysql_varchar mysql_project.
Let assess := project_assessment float_of_str mysql_decimal mysql_varchar.

Lemma insert_observation_refuses pid t sat c e :
  fst (insert_observation mysql_decimal mysql_varchar pid t sat c) = inl e ->
  has_key p_id pid (projects (working c)) = true ->
  refuses (insert_observation mysql_decimal mysql_varchar pid t sat) e.
Proof. unfold insert_observation. intros H Hk. refusal H Hk. Qed.

Lemma insert_assessment_refuses pid t res zero c e :
  fst (insert_assessment mysql_decimal mysql_varchar pid t res zero c) = inl e ->
  has_key p_id pid (projects (working c)) = true ->
  refuses (insert_assessment mysql_decimal mysql_varchar pid t res zero) e.
Proof. unfold insert_assessment. intros H Hk. refusal H Hk. Qed.

Lemma insert_log_refuses pid aid t res pd zero c e :
  fst (insert_log mysql_decimal mysql_varchar pid aid t res pd zero c) = inl e ->
  has_key p_id pid (projects (working c)) && has_key a_id aid (assessments (working c))
  = true ->
  refuses (insert_log mysql_decimal mysql_varchar pid aid t res pd zero) e.
Proof. unfold insert_log. intros H Hk. refusal H Hk. Qed.

(** The row just inserted is there for the foreign keys that follow. *)
Lemma has_key_last {A : Type} (key : A -> Z) k (l : list A) r :
  key r = k -> has_key key k (l ++ [r]) = true.
Proof.
  intros <-. unfold has_key. rewrite existsb_app. cbn [existsb].
  rewrite Z.eqb_refl. rewrite orb_true_r. reflexivity.
Qed.

(** A registration by a logged-in user, step by step: the statement it
    stops at, what it answers and what it leaves. *)
Lemma register_project_trace w user_id form s :
  let out := fst (register w (Some user_id) POST form s) in
  let s' := snd (register w (Some user_id) POST form s) in
  let project_id := next_project (autoinc s) in
  let assessment_id := next_assessment (autoinc s) in
  (exists e,
      fst (insert_project mysql_project user_id form (now w) (opened s)) = inl e
      /\ out = RegisterForm (Some e)
      /\ committed s' = committed s)
  \/ (exists p,
        fst (insert_project mysql_project user_id form (now w) (opened s)) = inr tt
        /\ p_id p = project_id /\ p_user_id p = user_id
        /\ p_name p = f_project_name form /\ p_status p = registered
        /\ ((out = RegisterForm (Some ValueError)
             /\ (float_of_str (f_latitude form) = None
                 \/ float_of_str (f_longitude form) = None
                 \/ float_of_str (f_area_size form) = None)
             /\ projects (committed s') = (projects (committed s) ++ [p])%list
             /\ rows_added (committed s) (committed s') 0 0 0)
            \/ (exists area,
                  float_of_str (f_latitude form) <> None
                  /\ float_of_str (f_longitude form) <> None
                  /\ float_of_str (f_area_size form) = Some area
                  /\ let pd :=
                       {| pd_project_type := f_project_type form; pd_area_size := area;
                          pd_area_unit := f_area_unit form;
                          pd_satellite_data := satellite w |} in
                     let result := analyze_project float_of_str (ai w) pd in
                     (exists e,
                         refuses (insert_observation mysql_decimal mysql_varchar
                    project_id (now w) (satellite w)) e
                         /\ out = RegisterForm (Some e)
                         /\ projects (committed s') = (projects (committed s) ++ [p])%list
                         /\ rows_added (committed s) (committed s') 0 0 0)
                     \/ (exists e,
                            refuses (insert_assessment mysql_decimal mysql_varchar
                    project_id (now w) result (PFloat 0)) e
                            /\ out = RegisterForm (Some e)
                            /\ projects (committed s')
                               = (projects (committed s) ++ [p])%list
                            /\ rows_added (committed s) (committed s') 1 0 0)
                     \/ (exists e,
                            refuses (insert_log mysql_decimal mysql_varchar
                    project_id assessment_id (now w) result pd (PFloat 0)) e
                            /\ out = RegisterForm (Some e)
                            /\ projects (committed s')
                               = (projects (committed s) ++ [p])%list
                            /\ rows_added (committed s) (committed s') 1 1 0)
                     \/ (out = RegisterDone project_id
                         /\ projects (committed s')
                            = update_where p_id project_id (set_project_status assessing)
                                (projects (committed s) ++ [p])
                         /\ rows_added (committed s) (committed s') 1 1 1)))).
Proof.
  cbv zeta. unfold register, register_project, serve.
  match goal with
  | |- context [let '(r, c) := ?body (opened s) in _] =>
      destruct (body (opened s)) as [r c] eqn:Hrun
  end.
  cbn [fst snd].
  (* INSERT INTO projects; commit; LAST_INSERT_ID() *)
  destruct (insert_project mysql_project user_id form (now w) (opened s))
    as [[e1 | []] c1] eqn:E1.
  { rewrite (bind_of_inl _ _ _ _ _ E1) in Hrun.
    apply insert_project_inl in E1. subst c1.
    inversion Hrun; subst r c. left. exists e1. repeat split. }
  rewrite (bind_of_inr _ _ _ _ _ E1) in Hrun.
  apply insert_project_inr in E1. destruct E1 as (cells & Hcells & Huser & ->).
  erewrite bind_of_inr in Hrun by reflexivity.
  erewrite bind_of_inr in Hrun by reflexivity.
  seq_simpl.
  right.
  match type of Hrun with
  | context [with_projects _ (_ ++ [?row])] => exists row
  end.
  do 5 (split; [reflexivity |]).
  match type of Hrun with
  | context [with_projects _ (_ ++ [?row])] => set (prow := row) in *
  end.
  (* float(lat), float(lng), float(area_size) *)
  unfold py_float_str in Hrun.
  rewrite bind_lift in Hrun.
  destruct (float_of_str (f_latitude form)) as [lat |] eqn:Elat.
  2:{ inversion Hrun; subst r c. left. seq_simpl.
      repeat split; [left; reflexivity | apply rows_added_none; reflexivity]. }
  rewrite bind_lift in Hrun.
  destruct (float_of_str (f_longitude form)) as [lng |] eqn:Elng.
  2:{ inversion Hrun; subst r c. left. seq_simpl.
      repeat split; [right; left; reflexivity | apply rows_added_none; reflexivity]. }
  rewrite bind_lift in Hrun.
  destruct (float_of_str (f_area_size form)) as [area |] eqn:Earea.
  2:{ inversion Hrun; subst r c. left. seq_simpl.
      repeat split; [right; right; reflexivity | apply rows_added_none; reflexivity]. }
  right. exists area.
  do 3 (split; [first [discriminate | reflexivity] |]).
  (* INSERT INTO satellite_data; commit *)
  lazymatch type of Hrun with
  | bind (insert_observation ?md ?mv ?pid ?t ?sat) _ ?c2 = _ =>
      destruct (insert_observation md mv pid t sat c2) as [[e3 | []] c3] eqn:E3
  end.
  { rewrite (bind_of_inl _ _ _ _ _ E3) in Hrun.
    pose proof (insert_observation_inl _ _ _ _ _ _ _ _ E3) as ->.
    inversion Hrun; subst r c. left. exists e3. seq_simpl.
    split.
    - eapply insert_observation_refuses; [rewrite E3; reflexivity |].
      cbn [working projects with_projects]. apply has_key_last. reflexivity.
    - repeat split. apply rows_added_none; reflexivity. }
  rewrite (bind_of_inr _ _ _ _ _ E3) in Hrun.
  apply insert_observation_inr in E3.
  destruct E3 as (ndvi & cover & cloud & source & raw & processed & _ & ->).
  erewrite bind_of_inr in Hrun by reflexivity.
  rewrite bind_lift in Hrun.
  seq_simpl.
  match type of Hrun with
  | context [with_observations _ (_ ++ [?row])] => set (orow := row) in *
  end.
  (* INSERT INTO carbon_assessments; commit; LAST_INSERT_ID() *)
  lazymatch type of Hrun with
  | bind (insert_assessment ?md ?mv ?pid ?t ?res ?zero) _ ?c4 = _ =>
      destruct (insert_assessment md mv pid t res zero c4) as [[e5 | []] c5] eqn:E5
  end.
  { rewrite (bind_of_inl _ _ _ _ _ E5) in Hrun.
    pose proof (insert_assessment_inl _ _ _ _ _ _ _ _ _ E5) as ->.
    inversion Hrun; subst r c. right. left. exists e5. seq_simpl.
    split.
    - eapply insert_assessment_refuses; [rewrite E5; reflexivity |].
      cbn [working projects with_projects with_observations].
      apply has_key_last. reflexivity.
    - repeat split. eapply rows_added_observation; reflexivity. }
  rewrite (bind_of_inr _ _ _ _ _ E5) in Hrun.
  apply insert_assessment_inr in E5.
  destruct E5 as (est & conf & meth & ver & _ & _ & _ & _ & _ & ->).
  erewrite bind_of_inr in Hrun by reflexivity.
  erewrite bind_of_inr in Hrun by reflexivity.
  seq_simpl.
  match type of Hrun with
  | context [with_assessments _ (_ ++ [?row])] => set (arow := row) in *
  end.
  (* INSERT INTO ai_verification_logs; commit *)
  lazymatch type of Hrun with
  | bind (insert_log ?md ?mv ?pid ?aid ?t ?res ?pd ?zero) _ ?c6 = _ =>
      destruct (insert_log md mv pid aid t res pd zero c6) as [[e7 | []] c7] eqn:E7
  end.
  { rewrite (bind_of_inl _ _ _ _ _ E7) in Hrun.
    pose proof (insert_log_inl _ _ _ _ _ _ _ _ _ _ _ E7) as ->.
    inversion Hrun; subst r c. right. right. left. exists e7. seq_simpl.
    split.
    - eapply insert_log_refuses; [rewrite E7; reflexivity |].
      cbn [working projects assessments with_projects with_observations
           with_assessments].
      apply andb_true_iff. split; apply has_key_last; reflexivity.
    - repeat split. eapply rows_added_assessment; reflexivity. }
  rewrite (bind_of_inr _ _ _ _ _ E7) in Hrun.
  apply insert_log_inr in E7.
  destruct E7 as (model & lconf & _ & _ & ->).
  erewrite bind_of_inr in Hrun by reflexivity.
  (* UPDATE projects SET status = 'assessing'; commit *)
  erewrite bind_of_inr in Hrun by reflexivity.
  erewrite bind_of_inr in Hrun by reflexivity.
  unfold ret in Hrun. inversion Hrun; subst r c.
  right. right. right. seq_simpl.
  repeat split. eapply rows_added_log; reflexivity.
Qed.

(** X11: opening the assessment page of one's project writes, row by row.
    A page shown without an error has added one observation, one assessment
    and one verification log, and the assessment it shows is one of the
    project.  A page shown with an error has stopped at the first [INSERT]
    the server refuses, with that error, and has added exactly the rows
    inserted before it: nothing when the observation is refused, the
    observation when the assessment is refused, the observation and the
    assessment when the log is refused.  The owner gets no other answer. *)
Theorem project_assessment_records_each_view w user_id project_id s p :
  select_own_project project_id user_id (committed s) = Some p ->
  let s' := snd (assess w (Some user_id) project_id s) in
  let pd :=
    {| pd_project_type := p_type p;
       pd_area_size := float_of_decimal (p_area_size p);
       pd_area_unit := p_area_unit p;
       pd_satellite_data := satellite w |} in
  let result := analyze_project float_of_str (ai w) pd in
  match fst (assess w (Some user_id) project_id s) with
  | AssessmentPage (Some a) None =>
      rows_added (committed s) (committed s') 1 1 1
      /\ In a (assessments (committed s'))
      /\ a_project_id a = project_id
  | AssessmentPage None (Some e) =>
      (rows_added (committed s) (committed s') 0 0 0
       /\ refuses (insert_observation mysql_decimal mysql_varchar
                    project_id (now w) (satellite w)) e)
      \/ (rows_added (committed s) (committed s') 1 0 0
          /\ refuses (insert_assessment mysql_decimal mysql_varchar
                    project_id (now w) result (PInt 0)) e)
      \/ (rows_added (committed s) (committed s') 1 1 0
          /\ refuses (insert_log mysql_decimal mysql_varchar
                    project_id (next_assessment (autoinc s)) (now w) result pd (PInt 0)) e)
  | _ => False
  end.
Proof.
  intros Hown.
  assert (Hkey : has_key p_id project_id
                   (update_where p_id project_id (set_project_status assessing)
                      (projects (committed s))) = true).
  { rewrite has_key_update_where by reflexivity.
    apply (select_own_project_key _ _ _ _ Hown). }
  cbv zeta. unfold assess, project_assessment, serve.
  match goal with
  | |- context [let '(r, c) := ?body (opened s) in _] =>
      destruct (body (opened s)) as [r c] eqn:Hrun
  end.
  cbn [fst snd].
  erewrite bind_of_inr in Hrun by reflexivity. seq_simpl. rewrite Hown in Hrun.
  erewrite bind_of_inr in Hrun by reflexivity.
  erewrite bind_of_inr in Hrun by reflexivity. seq_simpl.
  unfold try_except in Hrun.
  (* INSERT INTO satellite_data; commit *)
  lazymatch type of Hrun with
  | match bind (insert_observation ?md ?mv ?pid ?t ?sat) _ ?c2 with _ => _ end = _ =>
      destruct (insert_observation md mv pid t sat c2) as [[e3 | []] c3] eqn:E3
  end.
  { rewrite (bind_of_inl _ _ _ _ _ E3) in Hrun.
    pose proof (insert_observation_inl _ _ _ _ _ _ _ _ E3) as ->.
    inversion Hrun; subst r c. left. seq_simpl.
    split; [apply rows_added_none; reflexivity |].
    eapply insert_observation_refuses; [rewrite E3; reflexivity |].
    cbn [working projects with_projects]. exact Hkey. }
  rewrite (bind_of_inr _ _ _ _ _ E3) in Hrun.
  apply insert_observation_inr in E3.
  destruct E3 as (ndvi & cover & cloud & source & raw & processed & _ & ->).
  erewrite bind_of_inr in Hrun by reflexivity.
  seq_simpl.
  (* INSERT INTO carbon_assessments; commit; LAST_INSERT_ID() *)
  lazymatch type of Hrun with
  | match bind (insert_assessment ?md ?mv ?pid ?t ?res ?zero) _ ?c4 with _ => _ end = _ =>
      destruct (insert_assessment md mv pid t res zero c4) as [[e5 | []] c5] eqn:E5
  end.
  { rewrite (bind_of_inl _ _ _ _ _ E5) in Hrun.
    pose proof (insert_assessment_inl _ _ _ _ _ _ _ _ _ E5) as ->.
    inversion Hrun; subst r c. right. left. seq_simpl.
    split; [eapply rows_added_observation; reflexivity |].
    eapply insert_assessment_refuses; [rewrite E5; reflexivity |].
    cbn [working projects with_projects with_observations]. exact Hkey. }
  rewrite (bind_of_inr _ _ _ _ _ E5) in Hrun.
  apply insert_assessment_inr in E5.
  destruct E5 as (est & conf & meth & ver & _ & _ & _ & _ & _ & ->).
  erewrite bind_of_inr in Hrun by reflexivity.
  erewrite bind_of_inr in Hrun by reflexivity.
  seq_simpl.
  (* INSERT INTO ai_verification_logs; commit *)
  lazymatch type of Hrun with
  | match bind (insert_log ?md ?mv ?pid ?aid ?t ?res ?pd ?zero) _ ?c6 with _ => _ end = _ =>
      destruct (insert_log md mv pid aid t res pd zero c6) as [[e7 | []] c7] eqn:E7
  end.
  { rewrite (bind_of_inl _ _ _ _ _ E7) in Hrun.
    pose proof (insert_log_inl _ _ _ _ _ _ _ _ _ _ _ E7) as ->.
    inversion Hrun; subst r c. right. right. seq_simpl.
    split; [eapply rows_added_assessment; reflexivity |].
    eapply insert_log_refuses; [rewrite E7; reflexivity |].
    cbn [working projects assessments with_projects with_observations
         with_assessments].
    apply andb_true_iff. split; [exact Hkey | apply has_key_last; reflexivity]. }
  rewrite (bind_of_inr _ _ _ _ _ E7) in Hrun.
  apply insert_log_inr in E7.
  destruct E7 as (model & lconf & _ & _ & ->).
  erewrite bind_of_inr in Hrun by reflexivity.
  (* SELECT ... ORDER BY assessment_date DESC LIMIT 1 *)
  erewrite bind_of_inr in Hrun by reflexivity.
  unfold ret in Hrun. inversion Hrun; subst r c.
  seq_simpl.
  cbn [projects assessments observations logs with_projects with_assessments
       with_observations with_logs].
  rewrite latest_assessment_app. cbn [a_project_id a_date].
  rewrite Z.eqb_refl.
  assert (Hrows : forall t0 o a l,
             rows_added t0
               (with_logs
                  (with_assessments
                     (with_observations
                        (with_projects t0
                           (update_where p_id project_id (set_project_status assessing)
                              (projects t0)))
                        (observations t0 ++ [o]))
                     (assessments t0 ++ [a]))
                  (logs t0 ++ [l])) 1 1 1).
  { intros t0 o a l. eapply rows_added_log; reflexivity. }
  destruct (latest_assessment (assessments (committed s)) project_id) as [b |] eqn:L.
  - apply latest_assessment_in in L. destruct L as [Hin Hb].
    destruct (a_date b <=? now w).
    + split; [apply Hrows |].
      split; [apply in_or_app; right; left; reflexivity | reflexivity].
    + split; [apply Hrows |].
      split; [apply in_or_app; left; exact Hin | exact Hb].
  - split; [apply Hrows |].
    split; [apply in_or_app; right; left; reflexivity | reflexivity].
Qed.

(** C6 (as the code has it): [register_project] commits after every
    insertion and rolls nothing back.  An invocation that ends in the
    redirect to the assessment page has added exactly one observation, one
    assessment and one verification log; whatever the outcome, what it has
    published is a beginning of that sequence.  And once the project row is
    accepted and the three numbers of the form are read, the invocation stops
    at the first [INSERT] the server refuses, answers with that error, and
    leaves exactly the rows inserted before it: nothing when the observation
    is refused, the observation when the assessment is refused, the
    observation and the assessment when the log is refused. *)
Theorem register_project_commits_row_by_row w session method form s :
  (forall project_id,
      fst (register w session method form s) = RegisterDone project_id ->
      rows_added (committed s) (committed (snd (register w session method form s))) 1 1 1)
  /\ (rows_added (committed s) (committed (snd (register w session method form s))) 0 0 0
      \/ rows_added (committed s) (committed (snd (register w session method form s))) 1 0 0
      \/ rows_added (committed s) (committed (snd (register w session method form s))) 1 1 0
      \/ rows_added (committed s) (committed (snd (register w session method form s))) 1 1 1)
  /\ (forall user_id area,
        session = Some user_id -> method = POST ->
        fst (insert_project mysql_project user_id form (now w) (opened s)) = inr tt ->
        float_of_str (f_latitude form) <> None ->
        float_of_str (f_longitude form) <> None ->
        float_of_str (f_area_size form) = Some area ->
        let out := fst (register w session method form s) in
        let s' := snd (register w session method form s) in
        let project_id := next_project (autoinc s) in
        let assessment_id := next_assessment (autoinc s) in
        let pd :=
          {| pd_project_type := f_project_type form; pd_area_size := area;
             pd_area_unit := f_area_unit form; pd_satellite_data := satellite w |} in
        let result := analyze_project float_of_str (ai w) pd in
        (exists e,
            refuses (insert_observation mysql_decimal mysql_varchar
                    project_id (now w) (satellite w)) e
            /\ out = RegisterForm (Some e)
            /\ rows_added (committed s) (committed s') 0 0 0)
        \/ (exists e,
               refuses (insert_assessment mysql_decimal mysql_varchar
                    project_id (now w) result (PFloat 0)) e
               /\ out = RegisterForm (Some e)
               /\ rows_added (committed s) (committed s') 1 0 0)
        \/ (exists e,
               refuses (insert_log mysql_decimal mysql_varchar
                    project_id assessment_id (now w) result pd (PFloat 0)) e
               /\ out = RegisterForm (Some e)
               /\ rows_added (committed s) (committed s') 1 1 0)
        \/ (out = RegisterDone project_id
            /\ rows_added (committed s) (committed s') 1 1 1)).
Proof.
  destruct session as [user_id |]; [destruct method |].
  - split; [intros ? H; discriminate H |].
    split; [left; apply rows_added_none; reflexivity |].
    intros ? ? _ H. discriminate H.
  - destruct (register_project_trace w user_id form s)
      as [(e & He & Hout & Hsame)
         | (p & Hacc & _ & _ & _ & _ & [(Hout & Hnone & _ & Hrows) | Hrest])];
      cbv zeta in *.
    + split; [intros ? H; rewrite Hout in H; discriminate H |].
      split; [left; rewrite Hsame; apply rows_added_none; reflexivity |].
      intros ? ? [= <-] _ Hacc. unfold register in *.
      rewrite He in Hacc. discriminate Hacc.
    + split; [intros ? H; rewrite Hout in H; discriminate H |].
      split; [left; exact Hrows |].
      intros ? area _ _ _ Hlat Hlng Harea. exfalso.
      destruct Hnone as [H | [H | H]];
        [exact (Hlat H) | exact (Hlng H) | rewrite H in Harea; discriminate Harea].
    + destruct Hrest as (area' & _ & _ & Harea' & Hrest).
      destruct Hrest as [(e & H1 & H2 & _ & H3) | [(e & H1 & H2 & _ & H3)
                        | [(e & H1 & H2 & _ & H3) | (H2 & _ & H3)]]];
        (split; [intros ? H; rewrite H2 in H;
                 first [discriminate H | exact H3] |]);
        (split; [first [left; exact H3 | right; left; exact H3
                       | right; right; left; exact H3 | right; right; right; exact H3] |]);
        intros ? area [= <-] _ _ _ _ Harea;
        rewrite Harea in Harea'; injection Harea' as <-.
      * left. exists e. repeat split; assumption.
      * right. left. exists e. repeat split; assumption.
      * right. right. left. exists e. repeat split; assumption.
      * right. right. right. split; assumption.
  - split; [intros ? H; discriminate H |].
    split; [left; apply rows_added_none; reflexivity |].
    intros ? ? H. discriminate H.
Qed.

(** X19: a registration that fails is not undone.  With the answer
    'Error: ...', either the first [INSERT] was refused, the error is its
    error and the ledger is as it was; or the first [INSERT] was accepted and
    the project stays, under the next id, owned by the session's user, in
    the status [registered], whichever later step failed.  The login
    redirect and the empty form change nothing. *)
Theorem register_project_failure_leaves_project w session method form s :
  match fst (register w session method form s) with
  | RegisterDone _ => True
  | RegisterLogin | RegisterForm None =>
      snd (register w session method form s) = s
  | RegisterForm (Some e) =>
      exists user_id,
        session = Some user_id
        /\ ((fst (insert_project mysql_project user_id form (now w) (opened s)) = inl e
             /\ committed (snd (register w session method form s)) = committed s)
            \/ (fst (insert_project mysql_project user_id form (now w) (opened s)) = inr tt
                /\ exists p,
                     projects (committed (snd (register w session method form s)))
                     = (projects (committed s) ++ [p])%list
                     /\ p_id p = next_project (autoinc s)
                     /\ p_user_id p = user_id
                     /\ p_name p = f_project_name form
                     /\ p_status p = registered))
  end.
Proof.
  destruct session as [user_id |]; [destruct method |]; try reflexivity.
  destruct (register_project_trace w user_id form s)
    as [(e & He & Hout & Hsame)
       | (p & Hacc & Hid & Huser & Hname & Hstatus & Hrest)].
  - cbv zeta in Hout. rewrite Hout. exists user_id. split; [reflexivity |].
    left. split; [exact He | exact Hsame].
  - assert (Hstay :
              forall e,
                fst (register w (Some user_id) POST form s) = RegisterForm (Some e) ->
                projects (committed (snd (register w (Some user_id) POST form s)))
                = (projects (committed s) ++ [p])%list ->
                match fst (register w (Some user_id) POST form s) with
                | RegisterDone _ => True
                | RegisterLogin | RegisterForm None =>
                    snd (register w (Some user_id) POST form s) = s
                | RegisterForm (Some e) =>
                    exists user_id0,
                      Some user_id = Some user_id0
                      /\ ((fst (insert_project mysql_project user_id0 form (now w)
                                  (opened s)) = inl e
                           /\ committed (snd (register w (Some user_id) POST form s))
                              = committed s)
                          \/ (fst (insert_project mysql_project user_id0 form (now w)
                                     (opened s)) = inr tt
                              /\ exists p,
                                   projects (committed
                                     (snd (register w (Some user_id) POST form s)))
                                   = (projects (committed s) ++ [p])%list
                                   /\ p_id p = next_project (autoinc s)
                                   /\ p_user_id p = user_id0
                                   /\ p_name p = f_project_name form
                                   /\ p_status p = registered))
                end).
    { intros e Hout Hp. rewrite Hout. exists user_id. split; [reflexivity |].
      right. split; [exact Hacc |]. exists p. repeat split; assumption. }
    cbv zeta in Hrest.
    destruct Hrest as [(Hout & _ & Hp & _) | (area & _ & _ & _ & Hrest)].
    + exact (Hstay _ Hout Hp).
    + destruct Hrest as [(e & _ & Hout & Hp & _) | [(e & _ & Hout & Hp & _)
                        | [(e & _ & Hout & Hp & _) | (Hout & _)]]];
        try exact (Hstay _ Hout Hp).
      rewrite Hout. exact I.
Qed.

End Stops.

(** The AI replies with a [null] confidence score: the registration of the
    mangrove belt stops at the assessment, which the server refuses, and
    leaves the observation. *)
Lemma register_project_commits_row_by_row_null_confidence :
  exists e,
    refuses
      (insert_assessment Plain.mysql_decimal Plain.mysql_varchar 3 Plain.noon
         (analyze_project Plain.float_of_str (Web.ai Plain.null_confidence)
            {| Web.pd_project_type := "forestry"; Web.pd_area_size := 100;
               Web.pd_area_unit := "hectares";
               Web.pd_satellite_data := Plain.simulated_satellite |})
         (Py.PFloat 0)) e
    /\ fst (Plain.register_project Plain.null_confidence (Some 1) Web.POST
              Plain.mangrove_form Plain.seed) = Web.RegisterForm (Some e)
    /\ rows_added (Ledger.committed Plain.seed) (Ledger.committed Plain.unassessed) 1 0 0.
Proof.
  pose proof (proj2 (proj2 (register_project_commits_row_by_row Plain.float_of_str
                              Plain.mysql_decimal Plain.mysql_varchar Plain.mysql_project
                              Plain.null_confidence (Some 1) Web.POST Plain.mangrove_form
                              Plain.seed))
                1 100%float eq_refl eq_refl) as H.
  assert (Hacc : fst (insert_project Plain.mysql_project 1 Plain.mangrove_form
                        (Web.now Plain.null_confidence) (Sql.opened Plain.seed)) = inr tt)
    by (vm_compute; reflexivity).
  assert (Hlat : Plain.float_of_str (Web.f_latitude Plain.mangrove_form) <> None)
    by (vm_compute; discriminate).
  assert (Hlng : Plain.float_of_str (Web.f_longitude Plain.mangrove_form) <> None)
    by (vm_compute; discriminate).
  specialize (H Hacc Hlat Hlng eq_refl). cbv zeta in H.
  destruct H as [(e & H & _) | [H | [(e & _ & _ & H) | (H & _)]]].
  - exfalso. specialize (H (Sql.opened Plain.unassessed)).
    vm_compute in H. discriminate H.
  - exact H.
  - exfalso. destruct H as (os & ass & ls & _ & Ha & _ & _ & Hl & _).
    vm_compute in Ha. injection Ha as <-. discriminate Hl.
  - exfalso. vm_compute in H. discriminate H.
Defined.

(** C6 fails on atomicity: the AI replies with a usable estimate and a
    [null] confidence score.  The observation is committed, then the
    assessment is refused ([confidence_score] is [NOT NULL]); the request
    ends in an error, and the new project (still registered) and its
    observation stay in the ledger without an assessment or a log. *)
Lemma register_project_leaves_partial_rows :
  fst (Plain.register_project Plain.null_confidence (Some 1) Web.POST
         Plain.mangrove_form Plain.seed)
  = Web.RegisterForm (Some Py.IntegrityError)
  /\ rows_added (Ledger.committed Plain.seed)
       (Ledger.committed
          (snd (Plain.register_project Plain.null_confidence (Some 1) Web.POST
                  Plain.mangrove_form Plain.seed))) 1 0 0
  /\ map Ledger.o_project_id
       (Ledger.observations (Ledger.committed
          (snd (Plain.register_project Plain.null_confidence (Some 1) Web.POST
                  Plain.mangrove_form Plain.seed))))
     = [1; 2; 3]
  /\ map Ledger.a_project_id
       (Ledger.assessments (Ledger.committed
          (snd (Plain.register_project Plain.null_confidence (Some 1) Web.POST
                  Plain.mangrove_form Plain.seed))))
     = [1; 2]
  /\ map Ledger.l_project_id
       (Ledger.logs (Ledger.committed
          (snd (Plain.register_project Plain.null_confidence (Some 1) Web.POST
                  Plain.mangrove_form Plain.seed))))
     = [1; 2]
  /\ map (fun p => (Ledger.p_id p, Ledger.p_status p))
       (Ledger.projects (Ledger.committed
          (snd (Plain.register_project Plain.null_confidence (Some 1) Web.POST
                  Plain.mangrove_form Plain.seed))))
     = [(1, Ledger.registered); (2, Ledger.registered); (3, Ledger.registered)].
Proof.
  split; [vm_compute; reflexivity |].
  split; [| repeat split; vm_compute; reflexivity].
  eapply rows_added_observation; vm_compute; reflexivity.
Qed.

(** The same registration: the assessment is refused and the request ends in
    an error, but project 3 stays, registered. *)
Lemma register_project_failure_leaves_project_null_confidence :
  exists p,
    Ledger.projects (Ledger.committed Plain.unassessed)
    = (Ledger.projects (Ledger.committed Plain.seed) ++ [p])%list
    /\ Ledger.p_id p = 3 /\ Ledger.p_user_id p = 1
    /\ Ledger.p_name p = "Mangrove belt"
    /\ Ledger.p_status p = Ledger.registered.
Proof.
  pose proof (register_project_failure_leaves_project Plain.float_of_str
                Plain.mysql_decimal Plain.mysql_varchar Plain.mysql_project
                Plain.null_confidence (Some 1) Web.POST Plain.mangrove_form Plain.seed)
    as H.
  assert (Hout : fst (Plain.register_project Plain.null_confidence (Some 1) Web.POST
                        Plain.mangrove_form Plain.seed)
                 = Web.RegisterForm (Some Py.IntegrityError))
    by (vm_compute; reflexivity).
  rewrite Hout in H.
  destruct H as (user_id & Huser & [[H _] | [_ H]]).
  - exfalso. injection Huser as <-. vm_compute in H. discriminate H.
  - injection Huser as <-. exact H.
Defined.

(** User 1 opens the assessment page of project 1 when the AI replies with a
    [null] confidence score: the page shows the error, and the observation
    stays without an assessment. *)
Lemma project_assessment_records_each_view_null_confidence :
  fst (Plain.project_assessment Plain.null_confidence (Some 1) 1 Plain.seed)
  = Web.AssessmentPage None (Some Py.IntegrityError)
  /\ rows_added (Ledger.committed Plain.seed)
       (Ledger.committed
          (snd (Plain.project_assessment Plain.null_confidence (Some 1) 1 Plain.seed)))
       1 0 0.
Proof.
  assert (Hout : fst (Plain.project_assessment Plain.null_confidence (Some 1) 1 Plain.seed)
                 = Web.AssessmentPage None (Some Py.IntegrityError))
    by (vm_compute; reflexivity).
  split; [exact Hout |].
  pose proof (project_assessment_records_each_view Plain.float_of_str
                Plain.mysql_decimal Plain.mysql_varchar
                Plain.null_confidence 1 1 Plain.seed Plain.project_one eq_refl) as H.
  cbv zeta in H. rewrite Hout in H.
  destruct H as [[_ H] | [[H _] | [H _]]].
  - exfalso. specialize (H (Sql.opened Plain.seed)).
    vm_compute in H. discriminate H.
  - exact H.
  - exfalso. destruct H as (os & ass & ls & _ & Ha & _ & _ & Hl & _).
    vm_compute in Ha. injection Ha as <-. discriminate Hl.
Defined.
